(** * Chat-history storage: provider abstraction, registry and chat store

    A shallow embedding of [db/db_provider.py] and [db/chat_history.py].

    - Python values that cross the database boundary are [pyval]s;
      tuples are lists of them and dict literals are association lists.
    - Exceptions are a tagged type [exn]; every fallible computation
      returns a [result].
    - The module-level registry ([_PROVIDERS], [_DEFAULT_PROVIDER]), the
      provider objects, the [sqlite3] connection objects and the database
      files live in one explicit [World]; the code is written in a state
      and exception monad [M] over it.
    - The SQL engine is not part of the repository: [run_statement] gives
      the meaning of the six statements the code issues. *)

From Stdlib Require Import ZArith String Ascii List Lia OrderedTypeEx.
From stdpp Require Import base option list gmap strings sorting.

Open Scope Z_scope.

(** ** Python values, exceptions, results *)

Inductive pyval : Type :=
| PNone
| PBool (b : bool)
| PInt (z : Z)
| PStr (s : string).

(** A Python tuple (a fetched row) and a dict literal with string keys. *)
Abbreviation pytuple := (list pyval).
Abbreviation pydict := (list (string * pyval)).

Definition of_optional (o : option string) : pyval :=
  match o with
  | Some s => PStr s
  | None => PNone
  end.

Fixpoint dict_get (k : string) (d : pydict) : option pyval :=
  match d with
  | [] => None
  | (k', v) :: d' => if String.eqb k k' then Some v else dict_get k d'
  end.

(** The exception classes the code raises or lets through.  The last two
    derive from [BaseException] only, so [except Exception] does not
    catch them.  [InvalidReference] is not a Python exception: it is the
    outcome of following a reference that is not in the store, which no
    run of the program produces. *)
Inductive exn : Type :=
| KeyError (msg : string)
| ValueError (msg : string)
| IndexError (msg : string)
| NotImplementedError (msg : string)
| OSError (msg : string)
| OverflowError (msg : string)
| OperationalError (msg : string)
| ProgrammingError (msg : string)
| InvalidReference
| KeyboardInterrupt
| SystemExit.

Definition is_Exception (e : exn) : bool :=
  match e with
  | KeyboardInterrupt | SystemExit => false
  | _ => true
  end.

Inductive result (A : Type) : Type :=
| Ok (a : A)
| Raise (e : exn).
Arguments Ok {A} a.
Arguments Raise {A} e.

Definition is_Ok {A} (r : result A) : bool :=
  match r with Ok _ => true | Raise _ => false end.

(** [t[i]] on a tuple. *)
Definition getitem (t : pytuple) (i : nat) : result pyval :=
  match t !! i with
  | Some v => Ok v
  | None => Raise (IndexError "tuple index out of range")
  end.

(** Python truthiness of an [Optional[str]]: [None] and [""] are falsy. *)
Definition truthy (o : option string) : bool :=
  match o with
  | Some s => negb (String.eqb s "")
  | None => false
  end.

(** [needle in haystack] on strings. *)
Fixpoint is_prefix (p s : string) : bool :=
  match p, s with
  | EmptyString, _ => true
  | String a p', String b s' => Ascii.eqb a b && is_prefix p' s'
  | String _ _, EmptyString => false
  end.

Fixpoint contains (needle haystack : string) : bool :=
  is_prefix needle haystack ||
  match haystack with
  | EmptyString => false
  | String _ rest => contains needle rest
  end.

(** [str.lower()] on a string of ASCII characters: the letters [A-Z]
    are lower-cased, every other byte is kept.  Python lower-cases
    non-ASCII cased letters too; none of them becomes a letter of
    ["sqlite"], ["postgresql"] or ["mysql"], so on a type holding such
    letters only the text of the "Unknown provider type" message
    differs, not the backend that is chosen. *)
Definition ascii_lower (a : ascii) : ascii :=
  let n := nat_of_ascii a in
  if (Nat.leb 65 n && Nat.leb n 90)%bool then ascii_of_nat (n + 32) else a.

Fixpoint lower (s : string) : string :=
  match s with
  | EmptyString => EmptyString
  | String a s' => String (ascii_lower a) (lower s')
  end.

(** ** The SQL engine

    The two tables of [init_db].  A table that has not been created is
    [None].  Rows are kept in rowid order, which is the order of a table
    scan; [messages_seq] is the AUTOINCREMENT counter. *)

Record MessageRow := {
  m_id : Z;
  m_user_id : string;
  m_role : string;
  m_content : string;
  m_created_at : string
}.

Record SessionRow := {
  s_user_id : string;
  s_state : option string;
  s_incident_type : option string;
  s_emotion : option string;
  s_updated_at : string
}.

Record Database := {
  messages : option (list MessageRow);
  messages_seq : Z;
  sessions : option (list SessionRow)
}.

Definition empty_db : Database :=
  {| messages := None; messages_seq := 0; sessions := None |}.

(** The statements issued by [chat_history.py], with their bound
    parameters:
    - [CREATE TABLE IF NOT EXISTS messages (...)]
    - [CREATE TABLE IF NOT EXISTS sessions (...)]
    - [INSERT INTO messages (user_id, role, content) VALUES (?, ?, ?)]
    - [SELECT id, user_id, role, content, created_at FROM messages
       WHERE user_id = ? ORDER BY created_at ASC LIMIT ?]
    - [SELECT user_id, state, incident_type, emotion, updated_at
       FROM sessions WHERE user_id = ?]
    - [INSERT INTO sessions (...) VALUES (?, ?, ?, ?, strftime(now))
       ON CONFLICT(user_id) DO UPDATE SET state=excluded.state, ...] *)
Inductive Statement : Type :=
| CREATE_messages
| CREATE_sessions
| INSERT_message (user_id role content : string)
| SELECT_history (user_id : string) (limit : Z)
| SELECT_session (user_id : string)
| UPSERT_session (user_id : string) (state incident_type emotion : option string).

(** [sqlite3] opens a transaction before INSERT/UPDATE/DELETE/REPLACE
    only; other statements run in autocommit mode unless a transaction
    is already open. *)
Definition is_dml (q : Statement) : bool :=
  match q with
  | INSERT_message _ _ _ | UPSERT_session _ _ _ _ => true
  | _ => false
  end.

(** [CREATE TABLE IF NOT EXISTS] writes only when the table is missing. *)
Definition creates_table (q : Statement) (db : Database) : bool :=
  match q with
  | CREATE_messages => negb (bool_decide (is_Some (messages db)))
  | CREATE_sessions => negb (bool_decide (is_Some (sessions db)))
  | _ => false
  end.

Definition message_tuple (r : MessageRow) : pytuple :=
  [PInt (m_id r); PStr (m_user_id r); PStr (m_role r); PStr (m_content r);
   PStr (m_created_at r)].

Definition session_tuple (r : SessionRow) : pytuple :=
  [PStr (s_user_id r); of_optional (s_state r); of_optional (s_incident_type r);
   of_optional (s_emotion r); PStr (s_updated_at r)].

(** [ORDER BY created_at ASC]: text compared byte-wise; the sort is
    stable over the scan, so equal keys keep rowid order. *)
Fixpoint insert_by_created_at (r : MessageRow) (l : list MessageRow) : list MessageRow :=
  match l with
  | [] => [r]
  | y :: l' =>
      if String.leb (m_created_at r) (m_created_at y)
      then r :: y :: l'
      else y :: insert_by_created_at r l'
  end.

Definition order_by_created_at (l : list MessageRow) : list MessageRow :=
  foldr insert_by_created_at [] l.

(** [LIMIT n]: a negative [n] means no upper bound. *)
Definition sql_limit {A} (n : Z) (l : list A) : list A :=
  if n <? 0 then l else take (Z.to_nat n) l.

(** Binding a Python [int]: it must fit a 64-bit signed integer. *)
Definition bind_int (z : Z) : result Z :=
  if (- 2 ^ 63 <=? z) && (z <? 2 ^ 63) then Ok z
  else Raise (OverflowError "Python int too large to convert to SQLite INTEGER").

Definition user_is (u : string) (r : MessageRow) : bool := String.eqb (m_user_id r) u.
Definition session_of (u : string) (r : SessionRow) : bool := String.eqb (s_user_id r) u.

Definition upsert_row (u : string) (st inc emo : option string) (now : string) : SessionRow :=
  {| s_user_id := u; s_state := st; s_incident_type := inc; s_emotion := emo;
     s_updated_at := now |}.

(** The conflict target is the primary key: a row with the same
    [user_id] is overwritten in place, otherwise the row is appended. *)
Definition upsert_session (u : string) (st inc emo : option string) (now : string)
    (tbl : list SessionRow) : list SessionRow :=
  if existsb (session_of u) tbl
  then map (fun r => if session_of u r then upsert_row u st inc emo now else r) tbl
  else tbl ++ [upsert_row u st inc emo now].

Definition no_such_table (t : string) : exn :=
  OperationalError ("no such table: " +:+ t).

(** One statement on a database: the result set and the new contents.
    [now] is the engine clock's [strftime('%Y-%m-%d %H:%M:%f','now')]. *)
Definition run_statement (q : Statement) (now : string) (db : Database)
    : result (list pytuple * Database) :=
  match q with
  | CREATE_messages =>
      match messages db with
      | Some _ => Ok ([], db)
      | None => Ok ([], {| messages := Some []; messages_seq := messages_seq db;
                           sessions := sessions db |})
      end
  | CREATE_sessions =>
      match sessions db with
      | Some _ => Ok ([], db)
      | None => Ok ([], {| messages := messages db; messages_seq := messages_seq db;
                           sessions := Some [] |})
      end
  | INSERT_message u role content =>
      match messages db with
      | None => Raise (no_such_table "messages")
      | Some tbl =>
          let id := messages_seq db + 1 in
          let row := {| m_id := id; m_user_id := u; m_role := role;
                        m_content := content; m_created_at := now |} in
          Ok ([], {| messages := Some (tbl ++ [row]); messages_seq := id;
                     sessions := sessions db |})
      end
  | SELECT_history u limit =>
      match messages db with
      | None => Raise (no_such_table "messages")
      | Some tbl =>
          match bind_int limit with
          | Raise e => Raise e
          | Ok n =>
              Ok (map message_tuple
                    (sql_limit n (order_by_created_at (filter (fun r => user_is u r = true) tbl))),
                  db)
          end
      end
  | SELECT_session u =>
      match sessions db with
      | None => Raise (no_such_table "sessions")
      | Some tbl => Ok (map session_tuple (filter (fun r => session_of u r = true) tbl), db)
      end
  | UPSERT_session u st inc emo =>
      match sessions db with
      | None => Raise (no_such_table "sessions")
      | Some tbl =>
          Ok ([], {| messages := messages db; messages_seq := messages_seq db;
                     sessions := Some (upsert_session u st inc emo now tbl) |})
      end
  end.

(** ** Objects

    Provider objects and connection objects are reached through
    references, so that a provider registered under two names, or kept by
    a caller, is one shared object. *)

Abbreviation loc := nat.
Abbreviation conn := nat.

(** A [sqlite3.Connection]: the file it is open on, whether it has been
    closed, the foreign-key pragma and the contents of the pending
    transaction, if one is open. *)
Record Connection := {
  c_path : string;
  c_closed : bool;
  c_foreign_keys : bool;
  c_txn : option Database
}.

Module SQLiteProvider.
Record t := { db_path : string; _connection : option conn }.
End SQLiteProvider.

Module PostgreSQLProvider.
Record t := {
  host : string; port : Z; database : string; user : string;
  password : string; _connection : option conn
}.
End PostgreSQLProvider.

Module MySQLProvider.
Record t := {
  host : string; port : Z; database : string; user : string;
  password : string; _connection : option conn
}.
End MySQLProvider.

(** The concrete subclasses of the abstract [DBProvider]. *)
Inductive DBProvider : Type :=
| SQLite (p : SQLiteProvider.t)
| PostgreSQL (p : PostgreSQLProvider.t)
| MySQL (p : MySQLProvider.t).

(** The configuration dict of [create_provider_from_config]: every key
    may be absent; a present value has the type of the constructor
    parameter it feeds. *)
Record Config := {
  cfg_type : option string;
  cfg_db_path : option string;
  cfg_auto_create_dir : option bool;
  cfg_host : option string;
  cfg_port : option Z;
  cfg_database : option string;
  cfg_user : option string;
  cfg_password : option string
}.

Declare Scope py_scope.
Delimit Scope py_scope with py.

Section Program.

(** *** The environment

    The file system and the engine clock are outside the program:
    they are parameters. *)
Context {FS : Type}.
Variable os_path_dirname : string -> string.
Variable os_makedirs : string -> FS -> result FS.
Variable os_path_exists : string -> FS -> bool.
Variable sqlite3_open : string -> FS -> result FS.
Variable strftime_now : nat -> string.
Variable str_of_dict : pydict -> string.
Variable DEFAULT_DB_PATH : string.

Record World := {
  _PROVIDERS : gmap string loc;
  _DEFAULT_PROVIDER : string;
  heap : gmap loc DBProvider;
  connections : gmap conn Connection;
  files : gmap string Database;
  fs : FS;
  clock : nat
}.

Definition set_PROVIDERS (m : gmap string loc) (w : World) : World :=
  {| _PROVIDERS := m; _DEFAULT_PROVIDER := _DEFAULT_PROVIDER w; heap := heap w;
     connections := connections w; files := files w; fs := fs w; clock := clock w |}.
Definition set_DEFAULT_PROVIDER (d : string) (w : World) : World :=
  {| _PROVIDERS := _PROVIDERS w; _DEFAULT_PROVIDER := d; heap := heap w;
     connections := connections w; files := files w; fs := fs w; clock := clock w |}.
Definition set_heap (h : gmap loc DBProvider) (w : World) : World :=
  {| _PROVIDERS := _PROVIDERS w; _DEFAULT_PROVIDER := _DEFAULT_PROVIDER w; heap := h;
     connections := connections w; files := files w; fs := fs w; clock := clock w |}.
Definition set_connections (cs : gmap conn Connection) (w : World) : World :=
  {| _PROVIDERS := _PROVIDERS w; _DEFAULT_PROVIDER := _DEFAULT_PROVIDER w; heap := heap w;
     connections := cs; files := files w; fs := fs w; clock := clock w |}.
Definition set_files (f : gmap string Database) (w : World) : World :=
  {| _PROVIDERS := _PROVIDERS w; _DEFAULT_PROVIDER := _DEFAULT_PROVIDER w; heap := heap w;
     connections := connections w; files := f; fs := fs w; clock := clock w |}.
Definition set_fs (x : FS) (w : World) : World :=
  {| _PROVIDERS := _PROVIDERS w; _DEFAULT_PROVIDER := _DEFAULT_PROVIDER w; heap := heap w;
     connections := connections w; files := files w; fs := x; clock := clock w |}.
Definition tick (w : World) : World :=
  {| _PROVIDERS := _PROVIDERS w; _DEFAULT_PROVIDER := _DEFAULT_PROVIDER w; heap := heap w;
     connections := connections w; files := files w; fs := fs w; clock := S (clock w) |}.

(** *** The monad: state passing, with exceptions *)
Definition M (A : Type) : Type := World -> result A * World.

Definition ret {A} (a : A) : M A := fun w => (Ok a, w).
Definition raise {A} (e : exn) : M A := fun w => (Raise e, w).
Definition bind {A B} (m : M A) (k : A -> M B) : M B :=
  fun w => match m w with
           | (Ok a, w') => k a w'
           | (Raise e, w') => (Raise e, w')
           end.

Notation "x <- c1 ;; c2" := (bind c1 (fun x => c2))
  (at level 100, c1 at next level, right associativity) : py_scope.
Notation "c1 ;; c2" := (bind c1 (fun _ => c2))
  (at level 100, right associativity) : py_scope.
Local Open Scope py_scope.

(** [try: body  except Exception: handler]: a [BaseException] that is
    not an [Exception] passes through. *)
Definition try_except_Exception {A} (body : M A) (handler : exn -> M A) : M A :=
  fun w => match body w with
           | (Ok a, w') => (Ok a, w')
           | (Raise e, w') => if is_Exception e then handler e w' else (Raise e, w')
           end.

Definition get_obj (self : loc) : M DBProvider :=
  fun w => match heap w !! self with
           | Some o => (Ok o, w)
           | None => (Raise InvalidReference, w)
           end.

Definition set_obj (self : loc) (o : DBProvider) : M unit :=
  fun w => (Ok tt, set_heap (<[self := o]> (heap w)) w).

(** A new object gets a reference no object has. *)
Definition alloc (o : DBProvider) : M loc :=
  fun w => let l := fresh (dom (heap w)) in
           (Ok l, set_heap (<[l := o]> (heap w)) w).

(** *** [sqlite3] connections *)

(** The database a connection sees: its pending transaction, or the
    file (an absent file is an empty database). *)
Definition file_db (w : World) (path : string) : Database :=
  default empty_db (files w !! path).

Definition view (w : World) (cn : Connection) : Database :=
  default (file_db w (c_path cn)) (c_txn cn).

Definition closed_error : exn :=
  ProgrammingError "Cannot operate on a closed database.".

Definition get_conn (c : conn) : M Connection :=
  fun w => match connections w !! c with
           | Some cn => if c_closed cn then (Raise closed_error, w) else (Ok cn, w)
           | None => (Raise InvalidReference, w)
           end.

Definition set_conn (c : conn) (cn : Connection) : M unit :=
  fun w => (Ok tt, set_connections (<[c := cn]> (connections w)) w).

(** [sqlite3.connect(path)] *)
Definition sqlite3_connect (path : string) : M conn :=
  fun w => match sqlite3_open path (fs w) with
           | Raise e => (Raise e, w)
           | Ok fs' =>
               let c := fresh (dom (connections w)) in
               (Ok c, set_connections
                        (<[c := {| c_path := path; c_closed := false;
                                   c_foreign_keys := false; c_txn := None |}]>
                           (connections w))
                        (set_fs fs' w))
           end.

(** [conn.execute("PRAGMA foreign_keys = ON")] *)
Definition conn_pragma_foreign_keys (c : conn) : M unit :=
  cn <- get_conn c ;;
  set_conn c {| c_path := c_path cn; c_closed := c_closed cn;
                c_foreign_keys := true; c_txn := c_txn cn |}.

(** [conn.commit()] *)
Definition conn_commit (c : conn) : M unit :=
  cn <- get_conn c ;;
  match c_txn cn with
  | Some d =>
      (fun w => (Ok tt, set_files (<[c_path cn := d]> (files w)) w)) ;;
      set_conn c {| c_path := c_path cn; c_closed := c_closed cn;
                    c_foreign_keys := c_foreign_keys cn; c_txn := None |}
  | None => ret tt
  end.

(** [conn.rollback()] *)
Definition conn_rollback (c : conn) : M unit :=
  cn <- get_conn c ;;
  set_conn c {| c_path := c_path cn; c_closed := c_closed cn;
                c_foreign_keys := c_foreign_keys cn; c_txn := None |}.

(** [conn.close()]: a pending transaction is dropped. *)
Definition conn_close (c : conn) : M unit :=
  fun w => match connections w !! c with
           | Some cn =>
               set_conn c {| c_path := c_path cn; c_closed := true;
                             c_foreign_keys := c_foreign_keys cn; c_txn := None |} w
           | None => (Raise InvalidReference, w)
           end.

(** The write lock of a database file.  A connection with a pending
    transaction holds it until it commits, rolls back or is closed; a
    statement that writes outside a transaction has to take it, and
    [sqlite3] gives up waiting with [OperationalError] when another
    connection holds it.  Reading needs no write lock. *)
Definition holds_write_lock (path : string) (cn : Connection) : bool :=
  String.eqb (c_path cn) path && negb (c_closed cn) && bool_decide (is_Some (c_txn cn)).

Definition database_is_locked (c : conn) (path : string) (w : World) : bool :=
  existsb (fun x => holds_write_lock path (snd x) && negb (Nat.eqb (fst x) c))
          (map_to_list (connections w)).

Definition takes_write_lock (q : Statement) (cn : Connection) (db : Database) : bool :=
  (is_dml q || creates_table q db) && negb (bool_decide (is_Some (c_txn cn))).

Definition blocked (c : conn) (cn : Connection) (q : Statement) (w : World) : bool :=
  takes_write_lock q cn (view w cn) && database_is_locked c (c_path cn) w.

Definition locked_error : exn := OperationalError "database is locked".

(** [cursor = conn.cursor(); cursor.execute(query, params)]: the rows
    of the result set.  The statement is compiled and its parameters
    bound before it runs, so a missing table or an unbindable parameter
    is reported first.  A statement that writes opens a transaction; a
    CREATE outside a transaction is committed at once. *)
Definition cursor_execute (c : conn) (q : Statement) : M (list pytuple) :=
  cn <- get_conn c ;;
  fun w =>
    let now := strftime_now (clock w) in
    match run_statement q now (view w cn) with
    | Raise e => (Raise e, tick w)
    | Ok (rows, db') =>
        if blocked c cn q w then (Raise locked_error, tick w)
        else if is_dml q || bool_decide (is_Some (c_txn cn)) then
          (Ok rows,
           set_connections
             (<[c := {| c_path := c_path cn; c_closed := c_closed cn;
                        c_foreign_keys := c_foreign_keys cn; c_txn := Some db' |}]>
                (connections w))
             (tick w))
        else
          match q with
          | CREATE_messages | CREATE_sessions =>
              (Ok rows, set_files (<[c_path cn := db']> (files w)) (tick w))
          | _ => (Ok rows, tick w)
          end
    end.

(** *** [class SQLiteProvider] *)

Definition get_sqlite (self : loc) : M SQLiteProvider.t :=
  o <- get_obj self ;;
  match o with
  | SQLite p => ret p
  | _ => raise InvalidReference
  end.

Definition SQLiteProvider__init__ (db_path : string) (auto_create_dir : bool)
    : M SQLiteProvider.t :=
  let self := {| SQLiteProvider.db_path := db_path;
                 SQLiteProvider._connection := None |} in
  if auto_create_dir then
    (fun w => match os_makedirs (os_path_dirname db_path) (fs w) with
              | Ok fs' => (Ok self, set_fs fs' w)
              | Raise e => (Raise e, w)
              end)
  else ret self.

(** The call [SQLiteProvider(db_path, auto_create_dir)]. *)
Definition new_SQLiteProvider (db_path : string) (auto_create_dir : bool) : M loc :=
  self <- SQLiteProvider__init__ db_path auto_create_dir ;;
  alloc (SQLite self).

Definition SQLiteProvider_connect (self : loc) : M conn :=
  p <- get_sqlite self ;;
  match SQLiteProvider._connection p with
  | None =>
      c <- sqlite3_connect (SQLiteProvider.db_path p) ;;
      set_obj self (SQLite {| SQLiteProvider.db_path := SQLiteProvider.db_path p;
                              SQLiteProvider._connection := Some c |}) ;;
      conn_pragma_foreign_keys c ;;
      ret c
  | Some c => ret c
  end.

Definition SQLiteProvider_close (self : loc) : M unit :=
  p <- get_sqlite self ;;
  match SQLiteProvider._connection p with
  | Some c =>
      conn_close c ;;
      set_obj self (SQLite {| SQLiteProvider.db_path := SQLiteProvider.db_path p;
                              SQLiteProvider._connection := None |})
  | None => ret tt
  end.

(** [with self.get_connection() as conn: body]. *)
Definition SQLiteProvider_get_connection {A} (self : loc) (body : conn -> M A) : M A :=
  c <- SQLiteProvider_connect self ;;
  try_except_Exception
    (a <- body c ;; conn_commit c ;; ret a)
    (fun e => conn_rollback c ;; raise e).

Definition SQLiteProvider_execute (self : loc) (q : Statement) : M unit :=
  SQLiteProvider_get_connection self (fun c => cursor_execute c q ;; ret tt).

Definition SQLiteProvider_fetch_one (self : loc) (q : Statement) : M (option pytuple) :=
  SQLiteProvider_get_connection self (fun c => rows <- cursor_execute c q ;; ret (head rows)).

Definition SQLiteProvider_fetch_all (self : loc) (q : Statement) : M (list pytuple) :=
  SQLiteProvider_get_connection self (fun c => rows <- cursor_execute c q ;; ret rows).

Definition SQLiteProvider_get_connection_info (p : SQLiteProvider.t) (w : World) : pydict :=
  [("type", PStr "sqlite"); ("db_path", PStr (SQLiteProvider.db_path p));
   ("exists", PBool (os_path_exists (SQLiteProvider.db_path p) (fs w)))].

(** *** [class PostgreSQLProvider], [class MySQLProvider]

    [__init__] stores its arguments and then raises: the pair is the
    state of [self] when it raises, and the outcome. *)

Definition PostgreSQLProvider__init__ (host : string) (port : Z)
    (database user password : string) : PostgreSQLProvider.t * result unit :=
  ({| PostgreSQLProvider.host := host; PostgreSQLProvider.port := port;
      PostgreSQLProvider.database := database; PostgreSQLProvider.user := user;
      PostgreSQLProvider.password := password;
      PostgreSQLProvider._connection := None |},
   Raise (NotImplementedError
     "PostgreSQL provider not yet implemented. Install psycopg2 and implement connection logic.")).

Definition MySQLProvider__init__ (host : string) (port : Z)
    (database user password : string) : MySQLProvider.t * result unit :=
  ({| MySQLProvider.host := host; MySQLProvider.port := port;
      MySQLProvider.database := database; MySQLProvider.user := user;
      MySQLProvider.password := password;
      MySQLProvider._connection := None |},
   Raise (NotImplementedError
     "MySQL provider not yet implemented. Install mysql-connector-python and implement connection logic.")).

(** The calls [PostgreSQLProvider(...)] and [MySQLProvider(...)]: the
    object is returned only if [__init__] returns. *)
Definition new_PostgreSQLProvider (host : string) (port : Z)
    (database user password : string) : M loc :=
  let '(self, r) := PostgreSQLProvider__init__ host port database user password in
  match r with
  | Ok _ => alloc (PostgreSQL self)
  | Raise e => raise e
  end.

Definition new_MySQLProvider (host : string) (port : Z)
    (database user password : string) : M loc :=
  let '(self, r) := MySQLProvider__init__ host port database user password in
  match r with
  | Ok _ => alloc (MySQL self)
  | Raise e => raise e
  end.

Definition PostgreSQLProvider_get_connection_info (p : PostgreSQLProvider.t) : pydict :=
  [("type", PStr "postgresql"); ("host", PStr (PostgreSQLProvider.host p));
   ("port", PInt (PostgreSQLProvider.port p));
   ("database", PStr (PostgreSQLProvider.database p));
   ("user", PStr (PostgreSQLProvider.user p))].

Definition MySQLProvider_get_connection_info (p : MySQLProvider.t) : pydict :=
  [("type", PStr "mysql"); ("host", PStr (MySQLProvider.host p));
   ("port", PInt (MySQLProvider.port p));
   ("database", PStr (MySQLProvider.database p));
   ("user", PStr (MySQLProvider.user p))].

(** *** The [DBProvider] interface: dispatch on the class of [self] *)

Definition not_implemented {A} : M A := raise (NotImplementedError "").

Definition connect (self : loc) : M conn :=
  o <- get_obj self ;;
  match o with
  | SQLite _ => SQLiteProvider_connect self
  | PostgreSQL _ | MySQL _ => not_implemented
  end.

Definition close (self : loc) : M unit :=
  o <- get_obj self ;;
  match o with
  | SQLite _ => SQLiteProvider_close self
  | PostgreSQL _ | MySQL _ => not_implemented
  end.

Definition get_connection {A} (self : loc) (body : conn -> M A) : M A :=
  o <- get_obj self ;;
  match o with
  | SQLite _ => SQLiteProvider_get_connection self body
  | PostgreSQL _ | MySQL _ => not_implemented
  end.

Definition execute (self : loc) (q : Statement) : M unit :=
  o <- get_obj self ;;
  match o with
  | SQLite _ => SQLiteProvider_execute self q
  | PostgreSQL _ | MySQL _ => not_implemented
  end.

Definition fetch_one (self : loc) (q : Statement) : M (option pytuple) :=
  o <- get_obj self ;;
  match o with
  | SQLite _ => SQLiteProvider_fetch_one self q
  | PostgreSQL _ | MySQL _ => not_implemented
  end.

Definition fetch_all (self : loc) (q : Statement) : M (list pytuple) :=
  o <- get_obj self ;;
  match o with
  | SQLite _ => SQLiteProvider_fetch_all self q
  | PostgreSQL _ | MySQL _ => not_implemented
  end.

Definition connection_info_of (o : DBProvider) (w : World) : pydict :=
  match o with
  | SQLite p => SQLiteProvider_get_connection_info p w
  | PostgreSQL p => PostgreSQLProvider_get_connection_info p
  | MySQL p => MySQLProvider_get_connection_info p
  end.

Definition get_connection_info (self : loc) : M pydict :=
  o <- get_obj self ;;
  fun w => (Ok (connection_info_of o w), w).

(** *** Provider factories *)

Definition create_sqlite_provider (db_path : string) (auto_create_dir : bool) : M loc :=
  new_SQLiteProvider db_path auto_create_dir.

(** [config[key]] *)
Definition subscript {A} (key : string) (v : option A) : M A :=
  match v with
  | Some a => ret a
  | None => raise (KeyError key)
  end.

Definition create_provider_from_config (config : Config) : M loc :=
  let provider_type := lower (default "" (cfg_type config)) in
  if String.eqb provider_type "sqlite" then
    db_path <- subscript "db_path" (cfg_db_path config) ;;
    new_SQLiteProvider db_path (default true (cfg_auto_create_dir config))
  else if String.eqb provider_type "postgresql" then
    host <- subscript "host" (cfg_host config) ;;
    database <- subscript "database" (cfg_database config) ;;
    user <- subscript "user" (cfg_user config) ;;
    password <- subscript "password" (cfg_password config) ;;
    new_PostgreSQLProvider host (default 5432 (cfg_port config)) database user password
  else if String.eqb provider_type "mysql" then
    host <- subscript "host" (cfg_host config) ;;
    database <- subscript "database" (cfg_database config) ;;
    user <- subscript "user" (cfg_user config) ;;
    password <- subscript "password" (cfg_password config) ;;
    new_MySQLProvider host (default 3306 (cfg_port config)) database user password
  else raise (ValueError ("Unknown provider type: " +:+ provider_type)).

(** *** [chat_history.py]: the registry *)

(** The world when the module body starts: no object exists yet; the
    file system and the contents of the database files are what earlier
    runs left. *)
Definition empty_world (fs0 : FS) (files0 : gmap string Database) : World :=
  {| _PROVIDERS := ∅; _DEFAULT_PROVIDER := "default"; heap := ∅;
     connections := ∅; files := files0; fs := fs0; clock := 0%nat |}.

Definition not_registered (name : string) : exn :=
  KeyError ("Provider not registered: " +:+ name).

Definition set_default_provider (name : string) : M unit :=
  fun w => match _PROVIDERS w !! name with
           | None => (Raise (not_registered name), w)
           | Some _ => (Ok tt, set_DEFAULT_PROVIDER name w)
           end.

Definition register_provider (name : string) (provider : loc) (make_default : bool)
    : M unit :=
  (fun w => (Ok tt, set_PROVIDERS (<[name := provider]> (_PROVIDERS w)) w)) ;;
  if make_default then set_default_provider name else ret tt.

(** The module body: [_PROVIDERS["default"] = create_sqlite_provider(DEFAULT_DB_PATH)]. *)
Definition module_init : M unit :=
  p <- create_sqlite_provider DEFAULT_DB_PATH true ;;
  fun w => (Ok tt, set_PROVIDERS (<["default" := p]> (_PROVIDERS w)) w).

(** Entries whose reference is not in the store (there are none in a
    run) are left out. *)
Definition list_providers : M (gmap string pydict) :=
  fun w => (Ok (omap (fun l => (fun o => connection_info_of o w) <$> heap w !! l)
                     (_PROVIDERS w)), w).

Definition get_default_provider : M string :=
  fun w => (Ok (_DEFAULT_PROVIDER w), w).

Definition _resolve_provider (db_path provider : option string) : M loc :=
  if truthy db_path then create_sqlite_provider (default "" db_path) true
  else if truthy provider then
    fun w => match _PROVIDERS w !! default "" provider with
             | None => (Raise (not_registered (default "" provider)), w)
             | Some p => (Ok p, w)
             end
  else
    fun w => match _PROVIDERS w !! _DEFAULT_PROVIDER w with
             | None => (Raise (KeyError (_DEFAULT_PROVIDER w)), w)
             | Some p => (Ok p, w)
             end.

(** *** [chat_history.py]: the chat store *)

Definition lift {A} (r : result A) : M A := fun w => (r, w).

Definition init_db (db_path provider : option string) : M pyval :=
  db_provider <- _resolve_provider db_path provider ;;
  execute db_provider CREATE_messages ;;
  execute db_provider CREATE_sessions ;;
  info <- get_connection_info db_provider ;;
  ret (default (PStr (str_of_dict info)) (dict_get "db_path" info)).

Definition save_message (user_id role content : string)
    (db_path provider : option string) : M unit :=
  db_provider <- _resolve_provider db_path provider ;;
  execute db_provider (INSERT_message user_id role content).

Definition message_dict (r : pytuple) : result pydict :=
  match getitem r 0, getitem r 1, getitem r 2, getitem r 3, getitem r 4 with
  | Ok v0, Ok v1, Ok v2, Ok v3, Ok v4 =>
      Ok [("id", v0); ("user_id", v1); ("role", v2); ("content", v3); ("created_at", v4)]
  | Raise e, _, _, _, _ | _, Raise e, _, _, _ | _, _, Raise e, _, _
  | _, _, _, Raise e, _ | _, _, _, _, Raise e => Raise e
  end.

(** The list comprehension [[{...} for r in rows]]. *)
Fixpoint message_dicts (rows : list pytuple) : result (list pydict) :=
  match rows with
  | [] => Ok []
  | r :: rows' =>
      match message_dict r with
      | Raise e => Raise e
      | Ok d => match message_dicts rows' with
                | Raise e => Raise e
                | Ok ds => Ok (d :: ds)
                end
      end
  end.

Definition get_history (user_id : string) (limit : Z)
    (db_path provider : option string) : M (list pydict) :=
  db_provider <- _resolve_provider db_path provider ;;
  rows <- fetch_all db_provider (SELECT_history user_id limit) ;;
  lift (message_dicts rows).

Definition default_session (user_id : string) : pydict :=
  [("user_id", PStr user_id); ("state", PNone); ("incident_type", PNone);
   ("emotion", PNone); ("updated_at", PNone)].

Definition session_dict (r : pytuple) : result pydict :=
  match getitem r 0, getitem r 1, getitem r 2, getitem r 3, getitem r 4 with
  | Ok v0, Ok v1, Ok v2, Ok v3, Ok v4 =>
      Ok [("user_id", v0); ("state", v1); ("incident_type", v2); ("emotion", v3);
          ("updated_at", v4)]
  | Raise e, _, _, _, _ | _, Raise e, _, _, _ | _, _, Raise e, _, _
  | _, _, _, Raise e, _ | _, _, _, _, Raise e => Raise e
  end.

(** [if not row:] holds for [None] and for an empty tuple. *)
Definition get_session_state (user_id : string) (db_path provider : option string)
    : M pydict :=
  db_provider <- _resolve_provider db_path provider ;;
  row <- fetch_one db_provider (SELECT_session user_id) ;;
  match row with
  | None | Some [] => ret (default_session user_id)
  | Some r => lift (session_dict r)
  end.

Definition set_session_state (user_id : string) (state incident_type emotion : option string)
    (db_path provider : option string) : M unit :=
  db_provider <- _resolve_provider db_path provider ;;
  execute db_provider (UPSERT_session user_id state incident_type emotion).

(** *** Runs of registry operations *)

Inductive registry_op : Type :=
| Register (name : string) (provider : loc) (make_default : bool)
| SetDefault (name : string)
| GetDefault
| ListProviders
| Resolve (db_path provider : option string).

(** The world an operation leaves, whether it returns or raises. *)
Definition run_registry_op (op : registry_op) (w : World) : World :=
  match op with
  | Register name provider make_default => snd (register_provider name provider make_default w)
  | SetDefault name => snd (set_default_provider name w)
  | GetDefault => snd (get_default_provider w)
  | ListProviders => snd (list_providers w)
  | Resolve db_path provider => snd (_resolve_provider db_path provider w)
  end.

Definition run_registry_ops (ops : list registry_op) (w : World) : World :=
  foldl (fun w op => run_registry_op op w) w ops.

(** The registry invariant: the default name is registered. *)
Definition default_registered (w : World) : Prop :=
  is_Some (_PROVIDERS w !! _DEFAULT_PROVIDER w).

(** * Properties *)

Ltac unfold_M :=
  unfold bind, ret, raise, lift, try_except_Exception, get_obj, set_obj, alloc,
    get_conn, set_conn in *.

(** ** The registry *)

Lemma resolve_keeps_registry db_path provider w :
  _PROVIDERS (snd (_resolve_provider db_path provider w)) = _PROVIDERS w /\
  _DEFAULT_PROVIDER (snd (_resolve_provider db_path provider w)) = _DEFAULT_PROVIDER w.
Proof.
  unfold _resolve_provider.
  destruct (truthy db_path).
  - unfold create_sqlite_provider, new_SQLiteProvider, SQLiteProvider__init__.
    unfold_M. destruct (os_makedirs _ _); simpl; auto.
  - destruct (truthy provider).
    + destruct (_PROVIDERS w !! default "" provider); simpl; auto.
    + destruct (_PROVIDERS w !! _DEFAULT_PROVIDER w); simpl; auto.
Qed.

Lemma set_default_keeps_invariant name w :
  default_registered w -> default_registered (snd (set_default_provider name w)).
Proof.
  unfold default_registered, set_default_provider. intros H.
  destruct (_PROVIDERS w !! name) eqn:E; simpl; [rewrite E; eauto | assumption].
Qed.

Lemma registry_op_keeps_invariant op w :
  default_registered w -> default_registered (run_registry_op op w).
Proof.
  intros H. destruct op as [name b md | name | | | p n]; simpl.
  - unfold register_provider. unfold_M. simpl.
    destruct md.
    + unfold default_registered, set_default_provider. simpl.
      rewrite lookup_insert_eq. simpl. rewrite lookup_insert_eq. eauto.
    + unfold default_registered in *. simpl.
      destruct (decide (name = _DEFAULT_PROVIDER w)) as [->|Hne].
      * rewrite lookup_insert_eq. eauto.
      * rewrite lookup_insert_ne by done. assumption.
  - by apply set_default_keeps_invariant.
  - assumption.
  - assumption.
  - unfold default_registered.
    destruct (resolve_keeps_registry p n w) as [-> ->]. assumption.
Qed.

Lemma module_init_default_registered fs0 files0 w0 :
  module_init (empty_world fs0 files0) = (Ok tt, w0) -> default_registered w0.
Proof.
  unfold module_init, create_sqlite_provider, new_SQLiteProvider, SQLiteProvider__init__.
  unfold_M. simpl. destruct (os_makedirs _ _); simpl; intros [= <-].
  unfold default_registered. simpl. rewrite lookup_insert_eq. eauto.
Qed.

(** C6: registering with [make_default=True] makes the name the default;
    [set_default_provider] on an unregistered name raises [KeyError] and
    changes nothing; and from the state the module body leaves, after any
    run of registry operations the default name is registered. *)
Theorem registry_default_always_registered :
  (forall name provider w,
      let w1 := snd (register_provider name provider true w) in
      fst (register_provider name provider true w) = Ok tt /\
      get_default_provider w1 = (Ok name, w1)) /\
  (forall name w,
      _PROVIDERS w !! name = None ->
      set_default_provider name w = (Raise (not_registered name), w)) /\
  (forall op w, default_registered w -> default_registered (run_registry_op op w)) /\
  (forall fs0 files0 w0 ops,
      module_init (empty_world fs0 files0) = (Ok tt, w0) ->
      default_registered (run_registry_ops ops w0)).
Proof.
  repeat split.
  - unfold register_provider, set_default_provider. unfold_M. simpl.
    rewrite lookup_insert_eq. reflexivity.
  - unfold register_provider, set_default_provider, get_default_provider. unfold_M. simpl.
    rewrite lookup_insert_eq. reflexivity.
  - intros name w H. unfold set_default_provider. rewrite H. reflexivity.
  - apply registry_op_keeps_invariant.
  - intros fs0 files0 w0 ops H. apply module_init_default_registered in H.
    revert w0 H. induction ops as [|op ops IH]; intros w0 H; simpl; [assumption|].
    apply IH. by apply registry_op_keeps_invariant.
Qed.

(** ** Provider resolution *)

(** Every entry of the registry refers to an object of the store. *)
Definition registry_refs_live (w : World) : Prop :=
  forall name l, _PROVIDERS w !! name = Some l -> is_Some (heap w !! l).

Lemma truthy_Some s : s <> "" -> truthy (Some s) = true.
Proof.
  intros H. simpl. destruct (String.eqb_spec s ""); [contradiction | reflexivity].
Qed.

Lemma fresh_loc_unused (h : gmap loc DBProvider) : h !! fresh (dom h) = None.
Proof. apply not_elem_of_dom. apply is_fresh. Qed.

(** C1, as the code has it: a non-empty path wins over any name and
    yields the outcome of constructing a new [SQLiteProvider] on it, a
    new object that no registry entry refers to, the registry and the
    default name staying as they were; without a path, a non-empty name
    is looked up and an unregistered one raises [KeyError]; with neither,
    the backend registered under the default name is returned. *)
Theorem resolve_provider_precedence :
  (forall p provider w, p <> "" ->
     let r := _resolve_provider (Some p) provider w in
     r = new_SQLiteProvider p true w /\
     _PROVIDERS (snd r) = _PROVIDERS w /\
     _DEFAULT_PROVIDER (snd r) = _DEFAULT_PROVIDER w /\
     match os_makedirs (os_path_dirname p) (fs w) with
     | Raise e => r = (Raise e, w)
     | Ok fs' =>
         exists l,
           r = (Ok l, set_heap (<[l := SQLite {| SQLiteProvider.db_path := p;
                                                 SQLiteProvider._connection := None |}]>
                                  (heap w)) (set_fs fs' w)) /\
           heap w !! l = None /\
           (registry_refs_live w -> forall name, _PROVIDERS (snd r) !! name <> Some l)
     end) /\
  (forall db_path n w, truthy db_path = false -> n <> "" ->
     match _PROVIDERS w !! n with
     | Some l => _resolve_provider db_path (Some n) w = (Ok l, w)
     | None => _resolve_provider db_path (Some n) w = (Raise (not_registered n), w)
     end) /\
  (forall db_path provider w l, truthy db_path = false -> truthy provider = false ->
     _PROVIDERS w !! _DEFAULT_PROVIDER w = Some l ->
     _resolve_provider db_path provider w = (Ok l, w)).
Proof.
  split; [|split].
  - intros p provider w Hp r.
    assert (Hr : r = new_SQLiteProvider p true w).
    { subst r. unfold _resolve_provider. rewrite (truthy_Some p Hp). reflexivity. }
    split; [exact Hr|].
    split; [apply resolve_keeps_registry|].
    split; [apply resolve_keeps_registry|].
    rewrite Hr. unfold new_SQLiteProvider, SQLiteProvider__init__. unfold_M.
    destruct (os_makedirs (os_path_dirname p) (fs w)) as [fs'|e]; [|reflexivity].
    simpl. eexists. split; [reflexivity|].
    split; [apply fresh_loc_unused|].
    intros Hlive name Hname. simpl in Hname.
    apply Hlive in Hname. rewrite fresh_loc_unused in Hname.
    by destruct Hname.
  - intros db_path n w Hd Hn. unfold _resolve_provider.
    rewrite Hd, (truthy_Some n Hn). simpl.
    destruct (_PROVIDERS w !! n); reflexivity.
  - intros db_path provider w l Hd Hp Hl. unfold _resolve_provider.
    rewrite Hd, Hp, Hl. reflexivity.
Qed.

(** C10: an empty-string path is treated as no path, and an empty-string
    name as no name.  With [db_path=""] no backend is constructed, the
    world is untouched and the name tier decides: a non-empty name is
    looked up in the registry, the backend registered under it being
    returned and an unregistered name raising [KeyError] for that name.
    With [provider=""], and no non-empty path, the default tier
    decides: the call returns the backend registered under the default
    name, whether or not anything is registered under the empty name,
    instead of raising for the empty name. *)
Theorem resolve_provider_empty_strings_are_absent :
  (forall provider w,
     _resolve_provider (Some "") provider w = _resolve_provider None provider w /\
     snd (_resolve_provider (Some "") provider w) = w) /\
  (forall name w, name <> "" ->
     _resolve_provider (Some "") (Some name) w =
       match _PROVIDERS w !! name with
       | Some l => (Ok l, w)
       | None => (Raise (not_registered name), w)
       end) /\
  (forall db_path w,
     _resolve_provider db_path (Some "") w = _resolve_provider db_path None w) /\
  (forall db_path w, truthy db_path = false ->
     _resolve_provider db_path (Some "") w =
       match _PROVIDERS w !! _DEFAULT_PROVIDER w with
       | Some l => (Ok l, w)
       | None => (Raise (KeyError (_DEFAULT_PROVIDER w)), w)
       end /\
     (default_registered w ->
      is_Ok (fst (_resolve_provider db_path (Some "") w)) = true)).
Proof.
  split; [|split; [|split]].
  - intros provider w. split; [reflexivity|].
    unfold _resolve_provider. simpl.
    destruct (truthy provider).
    + destruct (_PROVIDERS w !! default "" provider); reflexivity.
    + destruct (_PROVIDERS w !! _DEFAULT_PROVIDER w); reflexivity.
  - intros name w Hname. unfold _resolve_provider.
    change (truthy (Some "")) with false. cbv iota.
    rewrite (truthy_Some name Hname). simpl.
    destruct (_PROVIDERS w !! name); reflexivity.
  - intros db_path w. reflexivity.
  - intros db_path w Hd. unfold _resolve_provider. rewrite Hd. simpl.
    unfold default_registered.
    destruct (_PROVIDERS w !! _DEFAULT_PROVIDER w); split; try reflexivity.
    intros [? ?]. discriminate.
Qed.

(** ** The stub backends and the factory *)

Definition postgresql_message : string :=
  "PostgreSQL provider not yet implemented. Install psycopg2 and implement connection logic.".

Definition mysql_message : string :=
  "MySQL provider not yet implemented. Install mysql-connector-python and implement connection logic.".

Lemma new_PostgreSQLProvider_raises host port database user password w :
  new_PostgreSQLProvider host port database user password w
  = (Raise (NotImplementedError postgresql_message), w).
Proof. reflexivity. Qed.

Lemma new_MySQLProvider_raises host port database user password w :
  new_MySQLProvider host port database user password w
  = (Raise (NotImplementedError mysql_message), w).
Proof. reflexivity. Qed.

(** C7: constructing a PostgreSQL or MySQL provider always raises
    [NotImplementedError] with a message that names the driver to
    install, and nothing is added to the store; on such an object (the
    [self] that [__init__] filled in, or any object of the class in the
    store) [get_connection_info] returns type, host, port, database and
    user, opens no connection and changes nothing, although [connect]
    raises. *)
Theorem stub_backends_raise_but_describe_themselves :
  (forall host port database user password w,
     new_PostgreSQLProvider host port database user password w
       = (Raise (NotImplementedError postgresql_message), w) /\
     contains "psycopg2" postgresql_message = true /\
     PostgreSQLProvider_get_connection_info
       (fst (PostgreSQLProvider__init__ host port database user password))
       = [("type", PStr "postgresql"); ("host", PStr host); ("port", PInt port);
          ("database", PStr database); ("user", PStr user)]) /\
  (forall host port database user password w,
     new_MySQLProvider host port database user password w
       = (Raise (NotImplementedError mysql_message), w) /\
     contains "mysql-connector-python" mysql_message = true /\
     MySQLProvider_get_connection_info
       (fst (MySQLProvider__init__ host port database user password))
       = [("type", PStr "mysql"); ("host", PStr host); ("port", PInt port);
          ("database", PStr database); ("user", PStr user)]) /\
  (forall w l o,
     heap w !! l = Some o ->
     (exists p, o = PostgreSQL p) \/ (exists p, o = MySQL p) ->
     exists kind host port database user,
       get_connection_info l w
         = (Ok [("type", PStr kind); ("host", PStr host); ("port", PInt port);
                ("database", PStr database); ("user", PStr user)], w) /\
       connect l w = (Raise (NotImplementedError ""), w)).
Proof.
  split; [|split].
  - intros. repeat split; reflexivity.
  - intros. repeat split; reflexivity.
  - intros w l o Hl [[p ->] | [p ->]];
      unfold get_connection_info, connect, not_implemented; unfold_M; rewrite Hl; simpl;
      do 5 eexists; split; reflexivity.
Qed.

Definition recognized_type (t : string) : bool :=
  String.eqb t "sqlite" || String.eqb t "postgresql" || String.eqb t "mysql".

(** C8, as the code has it: the type, lower-cased, selects the backend;
    when the keys that backend requires are present its constructor is
    called and the outcome of that call, a failure included, is the
    outcome of the factory; a missing required key raises [KeyError];
    any other type, an absent one included, raises [ValueError]. *)
Theorem factory_dispatches_on_type (config : Config) (w : World) :
  let t := lower (default "" (cfg_type config)) in
  (t = "sqlite" ->
     match cfg_db_path config with
     | Some p =>
         create_provider_from_config config w
         = new_SQLiteProvider p (default true (cfg_auto_create_dir config)) w
     | None => create_provider_from_config config w = (Raise (KeyError "db_path"), w)
     end) /\
  (t = "postgresql" ->
     match cfg_host config, cfg_database config, cfg_user config, cfg_password config with
     | Some h, Some d, Some u, Some pw =>
         create_provider_from_config config w
         = new_PostgreSQLProvider h (default 5432 (cfg_port config)) d u pw w /\
         create_provider_from_config config w
         = (Raise (NotImplementedError postgresql_message), w)
     | _, _, _, _ => exists key, create_provider_from_config config w = (Raise (KeyError key), w)
     end) /\
  (t = "mysql" ->
     match cfg_host config, cfg_database config, cfg_user config, cfg_password config with
     | Some h, Some d, Some u, Some pw =>
         create_provider_from_config config w
         = new_MySQLProvider h (default 3306 (cfg_port config)) d u pw w /\
         create_provider_from_config config w
         = (Raise (NotImplementedError mysql_message), w)
     | _, _, _, _ => exists key, create_provider_from_config config w = (Raise (KeyError key), w)
     end) /\
  (recognized_type t = false ->
     create_provider_from_config config w
     = (Raise (ValueError ("Unknown provider type: " +:+ t)), w)).
Proof.
  intros t. unfold create_provider_from_config. fold t.
  repeat split.
  - intros ->. simpl. destruct (cfg_db_path config); reflexivity.
  - intros ->. simpl.
    destruct (cfg_host config), (cfg_database config), (cfg_user config),
      (cfg_password config); simpl; eauto.
  - intros ->. simpl.
    destruct (cfg_host config), (cfg_database config), (cfg_user config),
      (cfg_password config); simpl; eauto.
  - unfold recognized_type. intros H.
    apply orb_false_elim in H as [H H3]. apply orb_false_elim in H as [H1 H2].
    rewrite H1, H2, H3. reflexivity.
Qed.

(** ** Connection lifecycle of the SQLite backend *)

Definition open_connection (path : string) : Connection :=
  {| c_path := path; c_closed := false; c_foreign_keys := true; c_txn := None |}.

Definition connected (p : SQLiteProvider.t) (c : conn) : SQLiteProvider.t :=
  {| SQLiteProvider.db_path := SQLiteProvider.db_path p;
     SQLiteProvider._connection := Some c |}.

Definition disconnected (p : SQLiteProvider.t) : SQLiteProvider.t :=
  {| SQLiteProvider.db_path := SQLiteProvider.db_path p;
     SQLiteProvider._connection := None |}.

Lemma fresh_conn_unused (cs : gmap conn Connection) : cs !! fresh (dom cs) = None.
Proof. apply not_elem_of_dom. apply is_fresh. Qed.

Lemma connect_when_connected l w p c :
  heap w !! l = Some (SQLite p) ->
  SQLiteProvider._connection p = Some c ->
  SQLiteProvider_connect l w = (Ok c, w).
Proof.
  intros Hl Hc. unfold SQLiteProvider_connect, get_sqlite. unfold_M.
  rewrite Hl. simpl. rewrite Hc. reflexivity.
Qed.

Lemma connect_first l w p fs' :
  heap w !! l = Some (SQLite p) ->
  SQLiteProvider._connection p = None ->
  sqlite3_open (SQLiteProvider.db_path p) (fs w) = Ok fs' ->
  let c := fresh (dom (connections w)) in
  SQLiteProvider_connect l w =
    (Ok c,
     {| _PROVIDERS := _PROVIDERS w; _DEFAULT_PROVIDER := _DEFAULT_PROVIDER w;
        heap := <[l := SQLite (connected p c)]> (heap w);
        connections := <[c := open_connection (SQLiteProvider.db_path p)]> (connections w);
        files := files w; fs := fs'; clock := clock w |}).
Proof.
  intros Hl Hc Hopen c.
  unfold SQLiteProvider_connect, get_sqlite, sqlite3_connect, conn_pragma_foreign_keys.
  unfold_M. rewrite Hl. simpl. rewrite Hc. simpl. rewrite Hopen. simpl.
  rewrite lookup_insert_eq. simpl.
  unfold set_connections, set_heap, set_fs. simpl.
  rewrite insert_insert_eq. reflexivity.
Qed.

Lemma connect_raises l w p e :
  heap w !! l = Some (SQLite p) ->
  SQLiteProvider._connection p = None ->
  sqlite3_open (SQLiteProvider.db_path p) (fs w) = Raise e ->
  SQLiteProvider_connect l w = (Raise e, w).
Proof.
  intros Hl Hc Hopen.
  unfold SQLiteProvider_connect, get_sqlite, sqlite3_connect. unfold_M.
  rewrite Hl. simpl. rewrite Hc. simpl. rewrite Hopen. reflexivity.
Qed.

(** What a successful [connect] establishes. *)
Lemma connect_Ok_inv l w c w1 :
  SQLiteProvider_connect l w = (Ok c, w1) ->
  exists p,
    heap w1 !! l = Some (SQLite p) /\
    SQLiteProvider._connection p = Some c /\
    _PROVIDERS w1 = _PROVIDERS w /\
    _DEFAULT_PROVIDER w1 = _DEFAULT_PROVIDER w /\
    files w1 = files w /\
    clock w1 = clock w /\
    (w1 = w \/
     (connections w !! c = None /\
      connections w1 !! c = Some (open_connection (SQLiteProvider.db_path p)))).
Proof.
  intros H.
  destruct (heap w !! l) as [o|] eqn:Hl.
  2:{ unfold SQLiteProvider_connect, get_sqlite in H. unfold_M. rewrite Hl in H.
      discriminate. }
  destruct o as [p|p|p].
  2,3: unfold SQLiteProvider_connect, get_sqlite in H; unfold_M; rewrite Hl in H;
       discriminate.
  destruct (SQLiteProvider._connection p) as [c'|] eqn:Hc.
  - rewrite (connect_when_connected l w p c' Hl Hc) in H. injection H as <- <-.
    exists p. repeat split; auto.
  - destruct (sqlite3_open (SQLiteProvider.db_path p) (fs w)) as [fs'|e] eqn:Hopen.
    + rewrite (connect_first l w p fs' Hl Hc Hopen) in H. injection H as <- <-.
      exists (connected p (fresh (dom (connections w)))). simpl.
      rewrite !lookup_insert_eq. repeat split; auto.
      right. split; [apply fresh_conn_unused | reflexivity].
    + rewrite (connect_raises l w p e Hl Hc Hopen) in H. discriminate.
Qed.

Lemma close_when_disconnected l w p :
  heap w !! l = Some (SQLite p) ->
  SQLiteProvider._connection p = None ->
  SQLiteProvider_close l w = (Ok tt, w).
Proof.
  intros Hl Hc. unfold SQLiteProvider_close, get_sqlite. unfold_M.
  rewrite Hl. simpl. rewrite Hc. reflexivity.
Qed.

Lemma close_Ok_inv l w w1 :
  SQLiteProvider_close l w = (Ok tt, w1) ->
  exists p,
    heap w1 !! l = Some (SQLite p) /\ SQLiteProvider._connection p = None /\
    forall p0 c, heap w !! l = Some (SQLite p0) ->
                 SQLiteProvider._connection p0 = Some c ->
                 exists cn, connections w1 !! c = Some cn /\ c_closed cn = true.
Proof.
  intros H.
  unfold SQLiteProvider_close, get_sqlite, conn_close in H. unfold_M.
  destruct (heap w !! l) as [[p| |]|] eqn:Hl; simpl in H; try discriminate.
  destruct (SQLiteProvider._connection p) as [c|] eqn:Hc.
  - destruct (connections w !! c) as [cn|] eqn:Hcn; simpl in H; [|discriminate].
    injection H as <-. exists (disconnected p). simpl. rewrite lookup_insert_eq.
    repeat split; auto.
    intros p0 c0 [= <-] Hc0. rewrite Hc in Hc0. injection Hc0 as <-.
    eexists. rewrite lookup_insert_eq. split; reflexivity.
  - injection H as <-. exists p. repeat split; auto.
    intros p0 c0 [= <-] Hc0. congruence.
Qed.

(** C9: on the SQLite backend a [connect()] that finds the connection
    open returns that same handle and changes nothing (so a second
    [connect()] after a successful one returns the same handle without
    reopening), the first one having opened a live connection; [close()]
    on a backend that has no connection returns normally and changes
    nothing, and after any successful [close()] the backend has no
    connection, its former connection is closed, and closing again is
    again a no-op. *)
Theorem sqlite_connect_and_close_are_idempotent :
  (forall l w c w1,
     SQLiteProvider_connect l w = (Ok c, w1) ->
     SQLiteProvider_connect l w1 = (Ok c, w1)) /\
  (forall l w p fs',
     heap w !! l = Some (SQLite p) ->
     SQLiteProvider._connection p = None ->
     sqlite3_open (SQLiteProvider.db_path p) (fs w) = Ok fs' ->
     exists c w1,
       SQLiteProvider_connect l w = (Ok c, w1) /\
       connections w !! c = None /\
       connections w1 !! c = Some (open_connection (SQLiteProvider.db_path p)) /\
       heap w1 !! l = Some (SQLite (connected p c))) /\
  (forall l w p,
     heap w !! l = Some (SQLite p) ->
     SQLiteProvider._connection p = None ->
     SQLiteProvider_close l w = (Ok tt, w)) /\
  (forall l w w1,
     SQLiteProvider_close l w = (Ok tt, w1) ->
     SQLiteProvider_close l w1 = (Ok tt, w1) /\
     exists p, heap w1 !! l = Some (SQLite p) /\ SQLiteProvider._connection p = None) /\
  (forall l w p c cn,
     heap w !! l = Some (SQLite p) ->
     SQLiteProvider._connection p = Some c ->
     connections w !! c = Some cn ->
     exists w1 cn1,
       SQLiteProvider_close l w = (Ok tt, w1) /\
       heap w1 !! l = Some (SQLite (disconnected p)) /\
       connections w1 !! c = Some cn1 /\ c_closed cn1 = true).
Proof.
  split; [|split; [|split; [|split]]].
  - intros l w c w1 H.
    destruct (connect_Ok_inv l w c w1 H) as (p & Hl & Hc & _).
    by apply connect_when_connected with p.
  - intros l w p fs' Hl Hc Hopen.
    eexists _, _. split; [apply (connect_first l w p fs' Hl Hc Hopen)|].
    simpl. rewrite !lookup_insert_eq. split; [apply fresh_conn_unused|]. split; reflexivity.
  - apply close_when_disconnected.
  - intros l w w1 H.
    destruct (close_Ok_inv l w w1 H) as (p & Hl & Hc & _).
    split; [by apply close_when_disconnected with p | eauto].
  - intros l w p c cn Hl Hc Hcn.
    unfold SQLiteProvider_close, get_sqlite, conn_close. unfold_M.
    rewrite Hl. simpl. rewrite Hc, Hcn. simpl.
    eexists _, _. split; [reflexivity|]. simpl. rewrite !lookup_insert_eq.
    repeat split; reflexivity.
Qed.

(** ** The scoped connection wrapper *)

Definition without_txn (cn : Connection) : Connection :=
  {| c_path := c_path cn; c_closed := c_closed cn;
     c_foreign_keys := c_foreign_keys cn; c_txn := None |}.

Lemma get_conn_live c cn w :
  connections w !! c = Some cn -> c_closed cn = false -> get_conn c w = (Ok cn, w).
Proof. intros H1 H2. unfold get_conn. rewrite H1, H2. reflexivity. Qed.

(** [conn.commit()] on a live connection: the pending transaction, if
    any, becomes the contents of the file. *)
Lemma conn_commit_live c cn w :
  connections w !! c = Some cn -> c_closed cn = false ->
  exists w',
    conn_commit c w = (Ok tt, w') /\
    file_db w' (c_path cn) = view w cn /\
    connections w' !! c = Some (without_txn cn) /\
    (forall c', c' <> c -> connections w' !! c' = connections w !! c') /\
    (forall path, path <> c_path cn -> files w' !! path = files w !! path) /\
    heap w' = heap w /\ _PROVIDERS w' = _PROVIDERS w /\
    _DEFAULT_PROVIDER w' = _DEFAULT_PROVIDER w /\ clock w' = clock w /\ fs w' = fs w.
Proof.
  intros Hc Hopen. unfold conn_commit, bind. rewrite (get_conn_live c cn w Hc Hopen).
  unfold_M.
  destruct (c_txn cn) as [d|] eqn:Ht.
  - eexists. split; [reflexivity|]. simpl. unfold file_db, view. simpl.
    rewrite Ht, !lookup_insert_eq. simpl.
    repeat split; auto.
    + intros c' Hne. by rewrite lookup_insert_ne.
    + intros path Hne. by rewrite lookup_insert_ne.
  - exists w. split; [reflexivity|]. unfold view. rewrite Ht. simpl.
    repeat split; auto.
    rewrite Hc. f_equal. destruct cn; simpl in *. by subst.
Qed.

(** [conn.rollback()] on a live connection: the pending transaction is
    dropped and no file changes. *)
Lemma conn_rollback_live c cn w :
  connections w !! c = Some cn -> c_closed cn = false ->
  conn_rollback c w = (Ok tt, set_connections (<[c := without_txn cn]> (connections w)) w).
Proof.
  intros Hc Hopen. unfold conn_rollback, bind.
  rewrite (get_conn_live c cn w Hc Hopen). reflexivity.
Qed.

(** C2, as the code has it.  The body runs on the connection [c] that
    [connect()] returned and leaves it open.  If the body returns, its
    value is returned and the pending transaction is committed: the file
    holds what the connection saw.  If it raises an [Exception], the
    transaction is dropped, no file is written and the same exception is
    raised.  An exception that is not an [Exception] passes through with
    neither commit nor rollback.  [connect()] itself writes no file.  In
    every case the connection is still open at exit, and when the body
    left the provider object alone a later [connect()] returns this same
    connection. *)
Theorem scoped_connection_commits_or_rolls_back {A : Type}
    (l : loc) (body : conn -> M A) (w w1 w2 : World) (c : conn)
    (r : result A) (cn : Connection) :
  SQLiteProvider_connect l w = (Ok c, w1) ->
  body c w1 = (r, w2) ->
  connections w2 !! c = Some cn ->
  c_closed cn = false ->
  let out := SQLiteProvider_get_connection l body w in
  files w1 = files w /\
  match r with
  | Ok a =>
      fst out = Ok a /\
      file_db (snd out) (c_path cn) = view w2 cn /\
      connections (snd out) !! c = Some (without_txn cn)
  | Raise e =>
      fst out = Raise e /\
      files (snd out) = files w2 /\
      if is_Exception e
      then connections (snd out) !! c = Some (without_txn cn)
      else snd out = w2
  end /\
  (exists cn', connections (snd out) !! c = Some cn' /\ c_closed cn' = false) /\
  (heap w2 !! l = heap w1 !! l -> SQLiteProvider_connect l (snd out) = (Ok c, snd out)).
Proof.
  intros Hconn Hbody Hc Hopen out.
  destruct (connect_Ok_inv l w c w1 Hconn) as (p & Hl & Hpc & _ & _ & Hfiles & _).
  split; [exact Hfiles|].
  assert (Hre : forall w', heap w' = heap w2 -> heap w2 !! l = heap w1 !! l ->
                           SQLiteProvider_connect l w' = (Ok c, w')).
  { intros w' Hh Hsame. apply connect_when_connected with p; [|exact Hpc].
    rewrite Hh, Hsame. exact Hl. }
  subst out. unfold SQLiteProvider_get_connection. unfold_M. rewrite Hconn. simpl.
  rewrite Hbody.
  destruct r as [a|e].
  - destruct (conn_commit_live c cn w2 Hc Hopen)
      as (w3 & Hcommit & Hfile & Hc3 & _ & _ & Hheap & _).
    rewrite Hcommit. simpl.
    split; [repeat split; assumption|].
    split; [exists (without_txn cn); split; [assumption | exact Hopen]|].
    intros Hsame. by apply Hre.
  - destruct (is_Exception e) eqn:He.
    + rewrite (conn_rollback_live c cn w2 Hc Hopen). simpl.
      rewrite lookup_insert_eq.
      split; [repeat split; reflexivity|].
      split; [exists (without_txn cn); split; [reflexivity | exact Hopen]|].
      intros Hsame. by apply Hre.
    + simpl.
      split; [repeat split; reflexivity|].
      split; [exists cn; split; assumption|].
      intros Hsame. by apply Hre.
Qed.

(** ** The engine: ordering of the history query *)

(** [r1] comes before [r2] in a history: earlier [created_at], or the
    same [created_at] and a smaller id. *)
Definition history_before (r1 r2 : MessageRow) : Prop :=
  String.compare (m_created_at r1) (m_created_at r2) = Lt \/
  (m_created_at r1 = m_created_at r2 /\ m_id r1 < m_id r2).

(** Rows of a table are stored by increasing id. *)
Definition rowid_lt (r1 r2 : MessageRow) : Prop := m_id r1 < m_id r2.

Lemma compare_Lt_trans a b c :
  String.compare a b = Lt -> String.compare b c = Lt -> String.compare a c = Lt.
Proof.
  intros H1 H2. apply String_as_OT.cmp_lt.
  apply String_as_OT.lt_trans with b; by apply String_as_OT.cmp_lt.
Qed.

Lemma history_before_trans r1 r2 r3 :
  history_before r1 r2 -> history_before r2 r3 -> history_before r1 r3.
Proof.
  unfold history_before. intros [H1|[E1 I1]] [H2|[E2 I2]].
  - left. eapply compare_Lt_trans; eauto.
  - left. rewrite <- E2. exact H1.
  - left. rewrite E1. exact H2.
  - right. split; [congruence | lia].
Qed.

Lemma leb_true_before x y :
  String.leb (m_created_at x) (m_created_at y) = true -> m_id x < m_id y ->
  history_before x y.
Proof.
  unfold String.leb, history_before. intros H Hid.
  destruct (String.compare (m_created_at x) (m_created_at y)) eqn:E.
  - right. split; [by apply String.compare_eq_iff | exact Hid].
  - by left.
  - discriminate.
Qed.

Lemma leb_false_before x y :
  String.leb (m_created_at x) (m_created_at y) = false -> history_before y x.
Proof.
  unfold String.leb, history_before. intros H. left.
  rewrite String.compare_antisym.
  destruct (String.compare (m_created_at x) (m_created_at y)); try discriminate.
  reflexivity.
Qed.

Lemma insert_by_created_at_perm x l : insert_by_created_at x l ≡ₚ x :: l.
Proof.
  induction l as [|y l IH]; simpl; [reflexivity|].
  destruct (String.leb _ _); [reflexivity|].
  rewrite IH. apply perm_swap.
Qed.

Lemma order_by_created_at_perm l : order_by_created_at l ≡ₚ l.
Proof.
  induction l as [|x l IH]; simpl; [reflexivity|].
  rewrite insert_by_created_at_perm. by rewrite IH.
Qed.

Lemma insert_by_created_at_sorted x l :
  Forall (rowid_lt x) l ->
  StronglySorted history_before l ->
  StronglySorted history_before (insert_by_created_at x l).
Proof.
  induction l as [|y l IH]; simpl; intros Hx Hs.
  - repeat constructor.
  - apply Forall_cons in Hx as [Hxy Hxl].
    apply StronglySorted_cons in Hs as [Hyl Hs].
    destruct (String.leb (m_created_at x) (m_created_at y)) eqn:E.
    + assert (Hb : history_before x y) by (by apply leb_true_before).
      apply StronglySorted_cons. split.
      * constructor; [exact Hb|].
        eapply Forall_impl; [exact Hyl|]. intros z Hz.
        by apply history_before_trans with y.
      * by apply StronglySorted_cons.
    + apply StronglySorted_cons. split; [|by apply IH].
      rewrite insert_by_created_at_perm. constructor; [|exact Hyl].
      by apply leb_false_before.
Qed.

Lemma order_by_created_at_sorted l :
  StronglySorted rowid_lt l -> StronglySorted history_before (order_by_created_at l).
Proof.
  induction l as [|x l IH]; simpl; intros Hs; [constructor|].
  apply StronglySorted_cons in Hs as [Hxl Hs].
  apply insert_by_created_at_sorted; [|by apply IH].
  by rewrite order_by_created_at_perm.
Qed.

Lemma filter_rowid_sorted (P : MessageRow -> Prop) `{!forall r, Decision (P r)} l :
  StronglySorted rowid_lt l -> StronglySorted rowid_lt (filter P l).
Proof.
  induction l as [|x l IH]; intros Hs; [constructor|].
  apply StronglySorted_cons in Hs as [Hxl Hs].
  rewrite filter_cons. destruct (decide (P x)); [|by apply IH].
  apply StronglySorted_cons. split; [|by apply IH].
  apply Forall_forall. intros y Hy. apply list_elem_of_filter in Hy as [_ Hy].
  rewrite Forall_forall in Hxl. by apply Hxl.
Qed.

Lemma sql_limit_sorted (R : relation MessageRow) n l :
  StronglySorted R l -> StronglySorted R (sql_limit n l).
Proof.
  unfold sql_limit. intros Hs. destruct (n <? 0); [exact Hs|].
  rewrite <- (take_drop (Z.to_nat n) l) in Hs.
  by apply StronglySorted_app_1_l in Hs.
Qed.

Lemma sql_limit_elem_of {A} n (l : list A) x : x ∈ sql_limit n l -> x ∈ l.
Proof.
  unfold sql_limit. destruct (n <? 0); [done|]. apply subseteq_take.
Qed.

Lemma sql_limit_length {A} n (l : list A) :
  0 <= n -> (length (sql_limit n l) <= Z.to_nat n)%nat.
Proof.
  intros Hn. unfold sql_limit.
  destruct (n <? 0) eqn:E; [apply Z.ltb_lt in E; lia|].
  rewrite length_take. lia.
Qed.

(** The rows the history query selects. *)
Definition history_rows (u : string) (limit : Z) (tbl : list MessageRow) : list MessageRow :=
  sql_limit limit (order_by_created_at (filter (fun r => user_is u r = true) tbl)).

Lemma history_rows_spec u limit tbl :
  StronglySorted rowid_lt tbl ->
  Forall (fun r => m_user_id r = u) (history_rows u limit tbl) /\
  StronglySorted history_before (history_rows u limit tbl) /\
  (forall r, r ∈ history_rows u limit tbl -> r ∈ tbl) /\
  (0 <= limit -> (length (history_rows u limit tbl) <= Z.to_nat limit)%nat).
Proof.
  intros Hs. unfold history_rows. repeat split.
  - apply Forall_forall. intros r Hr. apply sql_limit_elem_of in Hr.
    rewrite order_by_created_at_perm in Hr. apply list_elem_of_filter in Hr as [Hr _].
    unfold user_is in Hr. by apply String.eqb_eq.
  - apply sql_limit_sorted, order_by_created_at_sorted. by apply filter_rowid_sorted.
  - intros r Hr. apply sql_limit_elem_of in Hr.
    rewrite order_by_created_at_perm in Hr. by apply list_elem_of_filter in Hr as [_ Hr].
  - apply sql_limit_length.
Qed.

(** ** The engine: the session upsert *)

Lemma session_of_true u r : session_of u r = true <-> s_user_id r = u.
Proof. unfold session_of. apply String.eqb_eq. Qed.

Lemma session_of_upsert_row u u' st inc emo now :
  session_of u' (upsert_row u st inc emo now) = true <-> u = u'.
Proof. rewrite session_of_true. reflexivity. Qed.

Definition overwrite (u : string) (st inc emo : option string) (now : string)
    (r : SessionRow) : SessionRow :=
  if session_of u r then upsert_row u st inc emo now else r.

Lemma overwrite_key u st inc emo now r :
  s_user_id (overwrite u st inc emo now r) = s_user_id r.
Proof.
  unfold overwrite. destruct (session_of u r) eqn:E; [|reflexivity].
  apply session_of_true in E. by rewrite E.
Qed.

Lemma upsert_session_keys u st inc emo now tbl :
  map s_user_id (upsert_session u st inc emo now tbl) =
  if existsb (session_of u) tbl then map s_user_id tbl else (map s_user_id tbl ++ [u])%list.
Proof.
  unfold upsert_session. destruct (existsb (session_of u) tbl).
  - rewrite map_map. apply map_ext. intros r. apply overwrite_key.
  - by rewrite map_app.
Qed.

Lemma existsb_session_of u tbl :
  existsb (session_of u) tbl = true <-> u ∈ map s_user_id tbl.
Proof.
  rewrite existsb_exists, list_elem_of_In, in_map_iff.
  split; intros (r & H1 & H2); exists r.
  - apply session_of_true in H2. auto.
  - split; [assumption | by apply session_of_true].
Qed.

Lemma upsert_session_keeps_key u st inc emo now tbl :
  NoDup (map s_user_id tbl) -> NoDup (map s_user_id (upsert_session u st inc emo now tbl)).
Proof.
  intros Hnd. rewrite upsert_session_keys.
  destruct (existsb (session_of u) tbl) eqn:E; [assumption|].
  apply NoDup_app. split; [assumption|]. split; [|apply NoDup_singleton].
  intros x Hx Hx'. apply list_elem_of_singleton in Hx'. subst x.
  apply existsb_session_of in Hx. congruence.
Qed.

Lemma filter_overwrite_absent u st inc emo now tbl :
  u ∉ map s_user_id tbl ->
  filter (fun r => session_of u r = true) (map (overwrite u st inc emo now) tbl) = [].
Proof.
  induction tbl as [|r tbl IH]; simpl; intros Hn; [reflexivity|].
  apply not_elem_of_cons in Hn as [Hne Hn].
  rewrite filter_cons_False; [by apply IH|].
  rewrite session_of_true, overwrite_key. congruence.
Qed.

Lemma filter_overwrite_present u st inc emo now tbl :
  NoDup (map s_user_id tbl) -> u ∈ map s_user_id tbl ->
  filter (fun r => session_of u r = true) (map (overwrite u st inc emo now) tbl)
  = [upsert_row u st inc emo now].
Proof.
  induction tbl as [|r tbl IH]; simpl; intros Hnd Hin.
  - by apply elem_of_nil in Hin.
  - apply NoDup_cons in Hnd as [Hr Hnd].
    destruct (decide (s_user_id r = u)) as [Heq|Hne].
    + rewrite filter_cons_True by (rewrite session_of_true, overwrite_key; exact Heq).
      rewrite filter_overwrite_absent by (rewrite <- Heq; exact Hr).
      unfold overwrite. apply session_of_true in Heq. by rewrite Heq.
    + rewrite filter_cons_False by (rewrite session_of_true, overwrite_key; exact Hne).
      apply IH; [assumption|].
      apply elem_of_cons in Hin as [Hin|Hin]; [congruence | assumption].
Qed.

(** After an upsert for [u] the table has exactly one row for [u], the
    row of this call. *)
Lemma upsert_session_row_of_user u st inc emo now tbl :
  NoDup (map s_user_id tbl) ->
  filter (fun r => session_of u r = true) (upsert_session u st inc emo now tbl)
  = [upsert_row u st inc emo now].
Proof.
  intros Hnd. unfold upsert_session.
  destruct (existsb (session_of u) tbl) eqn:E.
  - apply existsb_session_of in E. by apply filter_overwrite_present.
  - assert (Hn : u ∉ map s_user_id tbl).
    { intros Hin. apply existsb_session_of in Hin. congruence. }
    rewrite filter_app.
    rewrite filter_cons_True by (by apply session_of_upsert_row).
    rewrite filter_nil.
    replace (filter (fun r => session_of u r = true) tbl) with (@nil SessionRow);
      [reflexivity|].
    symmetry. clear E Hnd. induction tbl as [|r tbl IH]; [reflexivity|].
    simpl in Hn. apply not_elem_of_cons in Hn as [Hne Hn].
    rewrite filter_cons_False; [by apply IH|].
    rewrite session_of_true. congruence.
Qed.

(** An upsert for [u] leaves the rows of every other user as they were. *)
Lemma upsert_session_other_user u u' st inc emo now tbl :
  u <> u' ->
  filter (fun r => session_of u' r = true) (upsert_session u st inc emo now tbl)
  = filter (fun r => session_of u' r = true) tbl.
Proof.
  intros Hne. unfold upsert_session.
  destruct (existsb (session_of u) tbl).
  - induction tbl as [|r tbl IH]; [reflexivity|]. simpl.
    destruct (session_of u r) eqn:E.
    + apply session_of_true in E.
      rewrite filter_cons_False by (rewrite session_of_upsert_row; exact Hne).
      rewrite filter_cons_False by (rewrite session_of_true; congruence).
      exact IH.
    + rewrite !filter_cons. destruct (decide (session_of u' r = true)); by rewrite IH.
  - rewrite filter_app.
    rewrite filter_cons_False by (rewrite session_of_upsert_row; exact Hne).
    rewrite filter_nil. apply app_nil_r.
Qed.

(** One [set_session_state] call, as the engine sees it. *)
Record session_call := {
  call_user : string;
  call_state : option string;
  call_incident_type : option string;
  call_emotion : option string;
  call_now : string
}.

Definition apply_call (tbl : list SessionRow) (c : session_call) : list SessionRow :=
  upsert_session (call_user c) (call_state c) (call_incident_type c) (call_emotion c)
    (call_now c) tbl.

Definition call_row (c : session_call) : SessionRow :=
  upsert_row (call_user c) (call_state c) (call_incident_type c) (call_emotion c)
    (call_now c).

Lemma apply_calls_keep_key calls tbl :
  NoDup (map s_user_id tbl) -> NoDup (map s_user_id (foldl apply_call tbl calls)).
Proof.
  revert tbl. induction calls as [|c calls IH]; intros tbl Hnd; simpl; [assumption|].
  apply IH. by apply upsert_session_keeps_key.
Qed.

Lemma apply_calls_other_users u calls tbl :
  Forall (fun c => call_user c <> u) calls ->
  filter (fun r => session_of u r = true) (foldl apply_call tbl calls)
  = filter (fun r => session_of u r = true) tbl.
Proof.
  revert tbl. induction calls as [|c calls IH]; intros tbl Hall; simpl; [reflexivity|].
  apply Forall_cons in Hall as [Hc Hall].
  rewrite IH by assumption. by apply upsert_session_other_user.
Qed.

Lemma apply_calls_last_wins before c after tbl :
  NoDup (map s_user_id tbl) ->
  Forall (fun c' => call_user c' <> call_user c) after ->
  filter (fun r => session_of (call_user c) r = true)
         (foldl apply_call tbl (before ++ c :: after))
  = [call_row c].
Proof.
  intros Hnd Hafter. rewrite foldl_app. simpl.
  rewrite apply_calls_other_users by assumption.
  apply upsert_session_row_of_user. by apply apply_calls_keep_key.
Qed.

(** ** Databases the statements produce *)

Definition db_ok (db : Database) : Prop :=
  (forall tbl, messages db = Some tbl ->
     StronglySorted rowid_lt tbl /\ Forall (fun r => m_id r <= messages_seq db) tbl) /\
  (forall tbl, sessions db = Some tbl -> NoDup (map s_user_id tbl)).

Lemma empty_db_ok : db_ok empty_db.
Proof. split; intros tbl H; discriminate. Qed.

Lemma run_statement_keeps_ok q now db rows db' :
  db_ok db -> run_statement q now db = Ok (rows, db') -> db_ok db'.
Proof.
  intros Hok H. destruct q; simpl in H.
  - destruct (messages db) eqn:E; injection H as <- <-; [exact Hok|].
    destruct Hok as [Hm Hs].
    split; simpl; [|assumption]. intros tbl [= <-]. split; constructor.
  - destruct (sessions db) eqn:E; injection H as <- <-; [exact Hok|].
    destruct Hok as [Hm Hs].
    split; simpl; [assumption|]. intros tbl [= <-]. constructor.
  - destruct (messages db) as [tbl|] eqn:E; [|discriminate]. injection H as <- <-.
    destruct Hok as [Hm Hs].
    destruct (Hm tbl E) as [Hsorted Hle].
    split; simpl; [|assumption]. intros tbl' [= <-]. split.
    + apply StronglySorted_app. repeat split; [| assumption | repeat constructor].
      intros r1 r2 Hr1 Hr2. apply list_elem_of_singleton in Hr2. subst r2.
      rewrite Forall_forall in Hle. unfold rowid_lt. simpl.
      specialize (Hle r1 Hr1). lia.
    + apply Forall_app. split.
      * eapply Forall_impl; [exact Hle|]. simpl. intros; lia.
      * repeat constructor. simpl. lia.
  - destruct (messages db) as [tbl|]; [|discriminate].
    destruct (bind_int limit); [|discriminate]. injection H as <- <-. exact Hok.
  - destruct (sessions db) as [tbl|]; [|discriminate]. injection H as <- <-. exact Hok.
  - destruct (sessions db) as [tbl|] eqn:E; [|discriminate]. injection H as <- <-.
    destruct Hok as [Hm Hs].
    split; simpl; [assumption|]. intros tbl' [= <-].
    apply upsert_session_keeps_key. by apply Hs.
Qed.

(** Every database that statements build from an empty file is of
    this kind. *)
Fixpoint run_statements (qs : list (Statement * string)) (db : Database) : Database :=
  match qs with
  | [] => db
  | (q, now) :: qs' =>
      match run_statement q now db with
      | Ok (_, db') => run_statements qs' db'
      | Raise _ => run_statements qs' db
      end
  end.

Lemma run_statements_ok qs db : db_ok db -> db_ok (run_statements qs db).
Proof.
  revert db. induction qs as [|[q now] qs IH]; intros db Hok; simpl; [assumption|].
  destruct (run_statement q now db) as [[rows db']|e] eqn:E; apply IH; [|assumption].
  by eapply run_statement_keeps_ok.
Qed.

Lemma run_statements_from_empty_ok qs : db_ok (run_statements qs empty_db).
Proof. apply run_statements_ok, empty_db_ok. Qed.

(** ** One statement through the SQLite backend *)

(** [connect()] on [l] succeeds and yields the live connection [c]. *)
Definition backend_ready (l : loc) (w : World) (c : conn) (w1 : World) (cn : Connection)
    : Prop :=
  SQLiteProvider_connect l w = (Ok c, w1) /\
  connections w1 !! c = Some cn /\
  c_closed cn = false.

Lemma connect_Ok_obj l w c w1 :
  SQLiteProvider_connect l w = (Ok c, w1) -> exists p, heap w !! l = Some (SQLite p).
Proof.
  intros H. unfold SQLiteProvider_connect, get_sqlite in H. unfold_M.
  destruct (heap w !! l) as [[p| |]|]; try discriminate. eauto.
Qed.

(** The write lock is held by another connection exactly when some
    other open connection has a transaction pending on the file. *)
Lemma database_is_locked_true c path w :
  database_is_locked c path w = true <->
  exists c' cn', connections w !! c' = Some cn' /\ c' <> c /\
                 holds_write_lock path cn' = true.
Proof.
  unfold database_is_locked. rewrite existsb_exists. split.
  - intros ([c' cn'] & Hin & H). apply andb_true_iff in H as [Hh Hne]. simpl in *.
    exists c', cn'. split; [|split].
    + apply elem_of_map_to_list. by apply list_elem_of_In.
    + intros ->. rewrite Nat.eqb_refl in Hne. discriminate.
    + exact Hh.
  - intros (c' & cn' & Hl & Hne & Hh). exists (c', cn'). split.
    + apply list_elem_of_In. by apply elem_of_map_to_list.
    + simpl. rewrite Hh. simpl. apply negb_true_iff. by apply Nat.eqb_neq.
Qed.

Lemma database_is_locked_false c path w :
  database_is_locked c path w = false <->
  forall c' cn', connections w !! c' = Some cn' -> c' <> c ->
                 holds_write_lock path cn' = false.
Proof.
  split.
  - intros H c' cn' Hl Hne. destruct (holds_write_lock path cn') eqn:E; [|reflexivity].
    rewrite <- H. symmetry. apply database_is_locked_true. eauto.
  - intros H. destruct (database_is_locked c path w) eqn:E; [|reflexivity].
    apply database_is_locked_true in E as (c' & cn' & Hl & Hne & Hh).
    rewrite (H c' cn' Hl Hne) in Hh. discriminate.
Qed.

(** What the connection itself holds does not lock it out. *)
Lemma database_is_locked_own c path w w' :
  (forall c', c' <> c -> connections w' !! c' = connections w !! c') ->
  database_is_locked c path w' = database_is_locked c path w.
Proof.
  intros Hsame. apply Bool.eq_iff_eq_true. rewrite !database_is_locked_true.
  split; intros (c' & cn' & Hl & Hne & Hh); exists c', cn';
    (split; [|split; assumption]).
  - by rewrite <- Hsame.
  - by rewrite Hsame.
Qed.

Lemma only_connection_not_locked c path w :
  (forall c', c' <> c -> connections w !! c' = None) ->
  database_is_locked c path w = false.
Proof.
  intros H. apply database_is_locked_false. intros c' cn' Hl Hne.
  rewrite (H c' Hne) in Hl. discriminate.
Qed.

Lemma creates_not_blocked c cn q w :
  is_dml q = false ->
  (creates_table q (view w cn) = true -> database_is_locked c (c_path cn) w = false) ->
  blocked c cn q w = false.
Proof.
  intros Hdml H. unfold blocked, takes_write_lock. rewrite Hdml. simpl.
  destruct (creates_table q (view w cn)); [|reflexivity].
  rewrite H by reflexivity. apply andb_false_r.
Qed.

Lemma unlocked_not_blocked c cn q w :
  database_is_locked c (c_path cn) w = false -> blocked c cn q w = false.
Proof. intros H. unfold blocked. rewrite H. apply andb_false_r. Qed.

Lemma cursor_execute_ok c q w cn rows db' :
  connections w !! c = Some cn -> c_closed cn = false ->
  run_statement q (strftime_now (clock w)) (view w cn) = Ok (rows, db') ->
  blocked c cn q w = false ->
  exists w' cn',
    cursor_execute c q w = (Ok rows, w') /\
    connections w' !! c = Some cn' /\ c_closed cn' = false /\
    c_path cn' = c_path cn /\ view w' cn' = db' /\
    heap w' = heap w /\ _PROVIDERS w' = _PROVIDERS w /\
    _DEFAULT_PROVIDER w' = _DEFAULT_PROVIDER w.
Proof.
  intros Hc Hopen Hrun Hfree. unfold cursor_execute, bind.
  rewrite (get_conn_live c cn w Hc Hopen). cbv zeta. rewrite Hrun, Hfree.
  destruct (is_dml q || bool_decide (is_Some (c_txn cn))) eqn:E.
  - eexists _, _. split; [reflexivity|]. simpl. rewrite lookup_insert_eq.
    repeat split; auto.
  - apply orb_false_elim in E as [Hdml Htxn].
    apply bool_decide_eq_false in Htxn.
    assert (Hnone : c_txn cn = None).
    { destruct (c_txn cn); [exfalso; apply Htxn; eauto | reflexivity]. }
    destruct q; try discriminate Hdml.
    + exists (set_files (<[c_path cn := db']> (files w)) (tick w)), cn.
      simpl. unfold view, file_db. simpl. rewrite Hnone, lookup_insert_eq.
      repeat split; auto.
    + exists (set_files (<[c_path cn := db']> (files w)) (tick w)), cn.
      simpl. unfold view, file_db. simpl. rewrite Hnone, lookup_insert_eq.
      repeat split; auto.
    + exists (tick w), cn. simpl in Hrun.
      destruct (messages (view w cn)); [|discriminate].
      destruct (bind_int limit); [|discriminate]. injection Hrun as <- <-.
      repeat split; auto.
    + exists (tick w), cn. simpl in Hrun.
      destruct (sessions (view w cn)); [|discriminate]. injection Hrun as <- <-.
      repeat split; auto.
Qed.

Lemma statement_through_connection {A} (k : list pytuple -> A) l q w c w1 cn rows db' :
  backend_ready l w c w1 cn ->
  run_statement q (strftime_now (clock w)) (view w1 cn) = Ok (rows, db') ->
  blocked c cn q w1 = false ->
  exists w3,
    SQLiteProvider_get_connection l
      (fun c => bind (cursor_execute c q) (fun rows => ret (k rows))) w
      = (Ok (k rows), w3) /\
    file_db w3 (c_path cn) = db' /\
    _PROVIDERS w3 = _PROVIDERS w /\ _DEFAULT_PROVIDER w3 = _DEFAULT_PROVIDER w.
Proof.
  intros (Hconn & Hc & Hopen) Hrun Hfree.
  destruct (connect_Ok_inv l w c w1 Hconn) as (p & _ & _ & Hreg & Hdef & _ & Hclock & _).
  rewrite <- Hclock in Hrun.
  destruct (cursor_execute_ok c q w1 cn rows db' Hc Hopen Hrun Hfree)
    as (w2 & cn2 & Hexec & Hc2 & Hopen2 & Hpath & Hview & _ & Hreg2 & Hdef2).
  destruct (conn_commit_live c cn2 w2 Hc2 Hopen2)
    as (w3 & Hcommit & Hfile & _ & _ & _ & _ & Hreg3 & Hdef3 & _).
  exists w3. unfold SQLiteProvider_get_connection, try_except_Exception, bind at 1 2 3.
  rewrite Hconn. unfold bind at 1. rewrite Hexec. unfold ret at 1.
  unfold bind. rewrite Hcommit. unfold ret.
  split; [reflexivity|].
  split; [rewrite <- Hpath, Hfile; exact Hview|].
  split; congruence.
Qed.

Lemma execute_through_connection l q w c w1 cn rows db' :
  backend_ready l w c w1 cn ->
  run_statement q (strftime_now (clock w)) (view w1 cn) = Ok (rows, db') ->
  blocked c cn q w1 = false ->
  exists w3,
    execute l q w = (Ok tt, w3) /\
    file_db w3 (c_path cn) = db' /\
    _PROVIDERS w3 = _PROVIDERS w /\ _DEFAULT_PROVIDER w3 = _DEFAULT_PROVIDER w.
Proof.
  intros Hready Hrun Hfree.
  destruct (connect_Ok_obj l w c w1 (proj1 Hready)) as [p Hl].
  destruct (statement_through_connection (fun _ => tt) l q w c w1 cn rows db' Hready Hrun Hfree)
    as (w3 & H & Hrest).
  exists w3. split; [|exact Hrest].
  unfold execute, get_obj, bind at 1. rewrite Hl. exact H.
Qed.

Lemma fetch_all_through_connection l q w c w1 cn rows db' :
  backend_ready l w c w1 cn ->
  run_statement q (strftime_now (clock w)) (view w1 cn) = Ok (rows, db') ->
  blocked c cn q w1 = false ->
  exists w3, fetch_all l q w = (Ok rows, w3).
Proof.
  intros Hready Hrun Hfree.
  destruct (connect_Ok_obj l w c w1 (proj1 Hready)) as [p Hl].
  destruct (statement_through_connection (fun r => r) l q w c w1 cn rows db' Hready Hrun Hfree)
    as (w3 & H & _).
  exists w3. unfold fetch_all, get_obj, bind at 1. rewrite Hl. exact H.
Qed.

Lemma fetch_one_through_connection l q w c w1 cn rows db' :
  backend_ready l w c w1 cn ->
  run_statement q (strftime_now (clock w)) (view w1 cn) = Ok (rows, db') ->
  blocked c cn q w1 = false ->
  exists w3, fetch_one l q w = (Ok (head rows), w3).
Proof.
  intros Hready Hrun Hfree.
  destruct (connect_Ok_obj l w c w1 (proj1 Hready)) as [p Hl].
  destruct (statement_through_connection (@head pytuple) l q w c w1 cn rows db' Hready Hrun Hfree)
    as (w3 & H & _).
  exists w3. unfold fetch_one, get_obj, bind at 1. rewrite Hl. exact H.
Qed.

(** ** The chat store *)

Lemma resolve_keeps_clock db_path provider w :
  clock (snd (_resolve_provider db_path provider w)) = clock w.
Proof.
  unfold _resolve_provider.
  destruct (truthy db_path).
  - unfold create_sqlite_provider, new_SQLiteProvider, SQLiteProvider__init__.
    unfold_M. destruct (os_makedirs _ _); reflexivity.
  - destruct (truthy provider).
    + destruct (_PROVIDERS w !! default "" provider); reflexivity.
    + destruct (_PROVIDERS w !! _DEFAULT_PROVIDER w); reflexivity.
Qed.

Definition history_dict (r : MessageRow) : pydict :=
  [("id", PInt (m_id r)); ("user_id", PStr (m_user_id r)); ("role", PStr (m_role r));
   ("content", PStr (m_content r)); ("created_at", PStr (m_created_at r))].

Definition stored_session (r : SessionRow) : pydict :=
  [("user_id", PStr (s_user_id r)); ("state", of_optional (s_state r));
   ("incident_type", of_optional (s_incident_type r));
   ("emotion", of_optional (s_emotion r)); ("updated_at", PStr (s_updated_at r))].

Lemma message_dicts_of_rows rows :
  message_dicts (map message_tuple rows) = Ok (map history_dict rows).
Proof.
  induction rows as [|r rows IH]; [reflexivity|]. simpl. rewrite IH. reflexivity.
Qed.

(** C3: on a backend whose sessions table exists and holds at most one
    row per user, and whose file no other connection has a pending
    write on, [set_session_state] returns normally and the stored
    table is the old one with the row of [user_id] replaced by, or
    extended with, the row of this call: afterwards there is exactly one
    row for [user_id]; its state, incident_type and emotion are the
    arguments of this call, [None] where the caller gave none, whatever
    was stored before; its updated_at is the engine's clock reading; the
    rows of other users are untouched and the key stays unique.  Hence
    after any run of such calls each user called for has exactly one
    row, the row of the last call for that user. *)
Theorem set_session_state_is_full_replace_upsert
    (user_id : string) (state incident_type emotion : option string)
    (db_path provider : option string)
    (w w0 w1 : World) (l : loc) (c : conn) (cn : Connection) (tbl : list SessionRow) :
  _resolve_provider db_path provider w = (Ok l, w0) ->
  backend_ready l w0 c w1 cn ->
  database_is_locked c (c_path cn) w1 = false ->
  sessions (view w1 cn) = Some tbl ->
  NoDup (map s_user_id tbl) ->
  let now := strftime_now (clock w) in
  let row := {| s_user_id := user_id; s_state := state; s_incident_type := incident_type;
                s_emotion := emotion; s_updated_at := now |} in
  exists w' tbl',
    set_session_state user_id state incident_type emotion db_path provider w = (Ok tt, w') /\
    sessions (file_db w' (c_path cn)) = Some tbl' /\
    tbl' = upsert_session user_id state incident_type emotion now tbl /\
    filter (fun r => session_of user_id r = true) tbl' = [row] /\
    NoDup (map s_user_id tbl') /\
    (forall u, u <> user_id ->
       filter (fun r => session_of u r = true) tbl'
       = filter (fun r => session_of u r = true) tbl) /\
    (forall before call after,
       Forall (fun c' => call_user c' <> call_user call) after ->
       filter (fun r => session_of (call_user call) r = true)
              (foldl apply_call tbl' (before ++ call :: after))
       = [call_row call]).
Proof.
  intros Hres Hready Hfree Htbl Hnd now row.
  assert (Hclock : clock w0 = clock w).
  { pose proof (resolve_keeps_clock db_path provider w) as H. by rewrite Hres in H. }
  assert (Hrun : run_statement (UPSERT_session user_id state incident_type emotion)
                   (strftime_now (clock w0)) (view w1 cn)
                 = Ok ([], {| messages := messages (view w1 cn);
                              messages_seq := messages_seq (view w1 cn);
                              sessions := Some (upsert_session user_id state incident_type
                                                  emotion now tbl) |})).
  { simpl. rewrite Htbl, Hclock. reflexivity. }
  destruct (execute_through_connection l _ w0 c w1 cn _ _ Hready Hrun
              (unlocked_not_blocked _ _ _ _ Hfree))
    as (w3 & Hexec & Hfile & _).
  exists w3, (upsert_session user_id state incident_type emotion now tbl).
  split.
  { unfold set_session_state, bind. rewrite Hres. exact Hexec. }
  split; [by rewrite Hfile|].
  split; [reflexivity|].
  split; [by apply upsert_session_row_of_user|].
  split; [by apply upsert_session_keeps_key|].
  split.
  - intros u Hu. apply upsert_session_other_user. congruence.
  - intros before call after Hafter.
    apply apply_calls_last_wins; [|assumption]. by apply upsert_session_keeps_key.
Qed.

(** C4, as the code has it: on a backend whose messages table exists
    (its rows stored by increasing id) and for a limit that fits a
    64-bit integer, [get_history] returns normally the dicts of rows of
    the table that all belong to [user_id], in increasing [created_at]
    with equal [created_at] in increasing id; for [limit >= 0] these
    are the first [limit] of the user's messages in that order, so at
    most [limit] rows; for [limit < 0] they are all of the user's
    messages; a user without messages gets the empty list. *)
Theorem get_history_orders_and_caps
    (user_id : string) (limit : Z) (db_path provider : option string)
    (w w0 w1 : World) (l : loc) (c : conn) (cn : Connection) (tbl : list MessageRow) :
  _resolve_provider db_path provider w = (Ok l, w0) ->
  backend_ready l w0 c w1 cn ->
  messages (view w1 cn) = Some tbl ->
  StronglySorted rowid_lt tbl ->
  - 2 ^ 63 <= limit < 2 ^ 63 ->
  let mine := filter (fun r => user_is user_id r = true) tbl in
  let rows := history_rows user_id limit tbl in
  exists w',
    get_history user_id limit db_path provider w = (Ok (map history_dict rows), w') /\
    Forall (fun r => m_user_id r = user_id) rows /\
    StronglySorted history_before rows /\
    (forall r, r ∈ rows -> r ∈ tbl) /\
    order_by_created_at mine ≡ₚ mine /\
    (0 <= limit ->
       rows = take (Z.to_nat limit) (order_by_created_at mine) /\
       (length rows <= Z.to_nat limit)%nat) /\
    (limit < 0 -> rows = order_by_created_at mine) /\
    (mine = [] -> rows = []).
Proof.
  intros Hres Hready Htbl Hsorted Hlimit mine rows.
  assert (Hbind : bind_int limit = Ok limit).
  { unfold bind_int.
    destruct (Z.leb_spec (- 2 ^ 63) limit); [|lia].
    destruct (Z.ltb_spec limit (2 ^ 63)); [reflexivity | lia]. }
  assert (Hrun : run_statement (SELECT_history user_id limit)
                   (strftime_now (clock w0)) (view w1 cn)
                 = Ok (map message_tuple rows, view w1 cn)).
  { simpl. rewrite Htbl, Hbind. reflexivity. }
  destruct (fetch_all_through_connection l _ w0 c w1 cn _ _ Hready Hrun eq_refl)
    as (w3 & Hfetch).
  destruct (history_rows_spec user_id limit tbl Hsorted) as (Hmine & Hord & Hin & Hlen).
  exists w3. split.
  { unfold get_history, bind. rewrite Hres, Hfetch. unfold lift.
    by rewrite message_dicts_of_rows. }
  repeat split; try assumption.
  - apply order_by_created_at_perm.
  - subst rows. unfold history_rows, sql_limit.
    destruct (Z.ltb_spec limit 0); [lia | reflexivity].
  - by apply Hlen.
  - intros Hneg. subst rows. unfold history_rows, sql_limit.
    destruct (Z.ltb_spec limit 0); [reflexivity | lia].
  - intros Hnil. subst rows mine. unfold history_rows. rewrite Hnil. simpl.
    unfold sql_limit. destruct (limit <? 0); [reflexivity | apply take_nil].
Qed.

(** C5: on a backend whose sessions table exists, [get_session_state]
    returns normally; when the table has no row for [user_id] the result
    is the record with that [user_id] and [None] for state,
    incident_type, emotion and updated_at; when it has one, the result
    holds the values of that row. *)
Theorem get_session_state_defaults_when_absent
    (user_id : string) (db_path provider : option string)
    (w w0 w1 : World) (l : loc) (c : conn) (cn : Connection) (tbl : list SessionRow) :
  _resolve_provider db_path provider w = (Ok l, w0) ->
  backend_ready l w0 c w1 cn ->
  sessions (view w1 cn) = Some tbl ->
  exists w',
    get_session_state user_id db_path provider w =
      (Ok match filter (fun r => session_of user_id r = true) tbl with
          | [] => [("user_id", PStr user_id); ("state", PNone); ("incident_type", PNone);
                   ("emotion", PNone); ("updated_at", PNone)]
          | r :: _ => stored_session r
          end, w') /\
    (forall r, r ∈ filter (fun r => session_of user_id r = true) tbl ->
               s_user_id r = user_id /\ r ∈ tbl).
Proof.
  intros Hres Hready Htbl.
  assert (Hrun : run_statement (SELECT_session user_id)
                   (strftime_now (clock w0)) (view w1 cn)
                 = Ok (map session_tuple
                         (filter (fun r => session_of user_id r = true) tbl), view w1 cn)).
  { simpl. rewrite Htbl. reflexivity. }
  destruct (fetch_one_through_connection l _ w0 c w1 cn _ _ Hready Hrun eq_refl)
    as (w3 & Hfetch).
  exists w3. split.
  - unfold get_session_state, bind. rewrite Hres, Hfetch.
    destruct (filter (fun r => session_of user_id r = true) tbl) as [|r rest];
      reflexivity.
  - intros r Hr. apply list_elem_of_filter in Hr as [Hu Hr].
    split; [by apply session_of_true | assumption].
Qed.

(** * Further properties of the providers and the chat store *)

(** ** The world after one statement *)

(** The provider [l] holds the live connection [c], whose state is [cn]. *)
Definition connected_to (l : loc) (c : conn) (cn : Connection) (w : World) : Prop :=
  (exists p, heap w !! l = Some (SQLite p) /\ SQLiteProvider._connection p = Some c) /\
  connections w !! c = Some cn /\
  c_closed cn = false.

(** The world in which a statement ran on [c] and was committed. *)
Definition after_statement (c : conn) (cn : Connection) (db' : Database) (w1 : World)
    : World :=
  {| _PROVIDERS := _PROVIDERS w1; _DEFAULT_PROVIDER := _DEFAULT_PROVIDER w1;
     heap := heap w1;
     connections := <[c := without_txn cn]> (connections w1);
     files := <[c_path cn := db']> (files w1);
     fs := fs w1; clock := S (clock w1) |}.

(** The world in which a statement ran on [c], raised, and was rolled back. *)
Definition after_failure (c : conn) (cn : Connection) (w1 : World) : World :=
  {| _PROVIDERS := _PROVIDERS w1; _DEFAULT_PROVIDER := _DEFAULT_PROVIDER w1;
     heap := heap w1;
     connections := <[c := without_txn cn]> (connections w1);
     files := files w1;
     fs := fs w1; clock := S (clock w1) |}.

Lemma connected_to_ready l c cn w :
  connected_to l c cn w -> backend_ready l w c w cn.
Proof.
  intros ((p & Hl & Hc) & Hcn & Hopen). split; [|split; assumption].
  by apply connect_when_connected with p.
Qed.

Lemma without_txn_id cn : c_txn cn = None -> without_txn cn = cn.
Proof. destruct cn; simpl; intros ->; reflexivity. Qed.

Lemma run_statement_raises_Exception q now db e :
  run_statement q now db = Raise e -> is_Exception e = true.
Proof.
  destruct q; simpl.
  - destruct (messages db); discriminate.
  - destruct (sessions db); discriminate.
  - destruct (messages db); [discriminate|]. intros [= <-]. reflexivity.
  - destruct (messages db); [|intros [= <-]; reflexivity].
    unfold bind_int. destruct (_ && _); [discriminate|]. intros [= <-]. reflexivity.
  - destruct (sessions db); [discriminate|]. intros [= <-]. reflexivity.
  - destruct (sessions db); [discriminate|]. intros [= <-]. reflexivity.
Qed.

(** A statement that reads needs its table, so the file is there. *)
Lemma select_needs_file q now w cn rows db' :
  c_txn cn = None -> is_dml q = false ->
  q <> CREATE_messages -> q <> CREATE_sessions ->
  run_statement q now (view w cn) = Ok (rows, db') ->
  files w !! c_path cn = Some db'.
Proof.
  intros Ht Hdml H1 H2. unfold view, file_db. rewrite Ht. simpl.
  destruct (files w !! c_path cn) as [db|] eqn:E; simpl.
  - destruct q; try discriminate; try congruence; simpl.
    + destruct (messages db); [|discriminate].
      destruct (bind_int limit); [|discriminate]. by intros [= _ <-].
    + destruct (sessions db); [|discriminate]. by intros [= _ <-].
  - destruct q; try discriminate; try congruence; simpl; discriminate.
Qed.

Lemma statement_commits {A} (k : list pytuple -> A) l q w c w1 cn rows db' :
  backend_ready l w c w1 cn ->
  run_statement q (strftime_now (clock w1)) (view w1 cn) = Ok (rows, db') ->
  blocked c cn q w1 = false ->
  SQLiteProvider_get_connection l
    (fun c => bind (cursor_execute c q) (fun rows => ret (k rows))) w
  = (Ok (k rows), after_statement c cn db' w1).
Proof.
  intros (Hconn & Hc & Hopen) Hrun Hfree.
  unfold SQLiteProvider_get_connection, try_except_Exception, bind at 1 2 3.
  rewrite Hconn. unfold cursor_execute, bind at 1 2.
  rewrite (get_conn_live c cn w1 Hc Hopen). cbv zeta. rewrite Hrun, Hfree.
  destruct (is_dml q || bool_decide (is_Some (c_txn cn))) eqn:E.
  - unfold ret at 1. unfold conn_commit, bind, get_conn. simpl.
    rewrite lookup_insert_eq. simpl. rewrite Hopen. unfold ret, set_conn. simpl.
    unfold after_statement, without_txn, set_connections, set_files, tick. simpl.
    rewrite insert_insert_eq, ?Hopen. reflexivity.
  - apply orb_false_elim in E as [Hdml Htxn].
    apply bool_decide_eq_false in Htxn.
    assert (Hnone : c_txn cn = None).
    { destruct (c_txn cn); [exfalso; apply Htxn; eauto | reflexivity]. }
    assert (Hsame : <[c := without_txn cn]> (connections w1) = connections w1).
    { apply insert_id. by rewrite without_txn_id. }
    destruct q eqn:Eq; try discriminate Hdml.
    + unfold ret at 1. unfold conn_commit, bind, get_conn. simpl.
      rewrite Hc, Hopen, Hnone. unfold ret.
      unfold after_statement, set_files, tick. simpl. by rewrite Hsame.
    + unfold ret at 1. unfold conn_commit, bind, get_conn. simpl.
      rewrite Hc, Hopen, Hnone. unfold ret.
      unfold after_statement, set_files, tick. simpl. by rewrite Hsame.
    + unfold ret at 1. unfold conn_commit, bind, get_conn. simpl.
      rewrite Hc, Hopen, Hnone. unfold ret.
      unfold after_statement, tick. simpl. rewrite Hsame.
      rewrite (insert_id (files w1) (c_path cn) db'); [reflexivity|].
      eapply select_needs_file; eauto; discriminate.
    + unfold ret at 1. unfold conn_commit, bind, get_conn. simpl.
      rewrite Hc, Hopen, Hnone. unfold ret.
      unfold after_statement, tick. simpl. rewrite Hsame.
      rewrite (insert_id (files w1) (c_path cn) db'); [reflexivity|].
      eapply select_needs_file; eauto; discriminate.
Qed.

Lemma statement_rolls_back {A} (k : list pytuple -> A) l q w c w1 cn e :
  backend_ready l w c w1 cn ->
  run_statement q (strftime_now (clock w1)) (view w1 cn) = Raise e ->
  SQLiteProvider_get_connection l
    (fun c => bind (cursor_execute c q) (fun rows => ret (k rows))) w
  = (Raise e, after_failure c cn w1).
Proof.
  intros (Hconn & Hc & Hopen) Hrun.
  unfold SQLiteProvider_get_connection, try_except_Exception, bind at 1 2 3.
  rewrite Hconn. unfold cursor_execute, bind at 1 2.
  rewrite (get_conn_live c cn w1 Hc Hopen). cbv zeta. rewrite Hrun.
  rewrite (run_statement_raises_Exception _ _ _ _ Hrun).
  unfold conn_rollback, bind, get_conn. simpl. rewrite Hc, Hopen.
  unfold after_failure, without_txn. rewrite ?Hopen. reflexivity.
Qed.

(** A statement that cannot take the write lock raises and is rolled
    back like any failing statement. *)
Lemma statement_locked_out {A} (k : list pytuple -> A) l q w c w1 cn rows db' :
  backend_ready l w c w1 cn ->
  run_statement q (strftime_now (clock w1)) (view w1 cn) = Ok (rows, db') ->
  blocked c cn q w1 = true ->
  SQLiteProvider_get_connection l
    (fun c => bind (cursor_execute c q) (fun rows => ret (k rows))) w
  = (Raise locked_error, after_failure c cn w1).
Proof.
  intros (Hconn & Hc & Hopen) Hrun Hlocked.
  unfold SQLiteProvider_get_connection, try_except_Exception, bind at 1 2 3.
  rewrite Hconn. unfold cursor_execute, bind at 1 2.
  rewrite (get_conn_live c cn w1 Hc Hopen). cbv zeta. rewrite Hrun, Hlocked.
  unfold conn_rollback, bind, get_conn. simpl. rewrite Hc, Hopen.
  unfold after_failure, without_txn. rewrite ?Hopen. reflexivity.
Qed.

Lemma database_is_locked_after_statement c cn db' w1 path :
  database_is_locked c path (after_statement c cn db' w1) = database_is_locked c path w1.
Proof.
  apply database_is_locked_own. intros c' Hne. simpl. by rewrite lookup_insert_ne.
Qed.

Lemma database_is_locked_after_failure c cn w1 path :
  database_is_locked c path (after_failure c cn w1) = database_is_locked c path w1.
Proof.
  apply database_is_locked_own. intros c' Hne. simpl. by rewrite lookup_insert_ne.
Qed.

(** After a statement the provider still holds the same connection,
    live and without a pending transaction, and sees what was
    committed. *)
Lemma connected_after_statement l c cn db' w w1 :
  backend_ready l w c w1 cn ->
  connected_to l c (without_txn cn) (after_statement c cn db' w1) /\
  view (after_statement c cn db' w1) (without_txn cn) = db'.
Proof.
  intros (Hconn & Hc & Hopen).
  destruct (connect_Ok_inv l w c w1 Hconn) as (p & Hl & Hpc & _).
  split.
  - split; [exists p; split; assumption|].
    simpl. rewrite lookup_insert_eq. split; [reflexivity | exact Hopen].
  - unfold view, file_db. simpl. by rewrite lookup_insert_eq.
Qed.

Lemma connected_after_failure l c cn w w1 :
  backend_ready l w c w1 cn ->
  connected_to l c (without_txn cn) (after_failure c cn w1).
Proof.
  intros (Hconn & Hc & Hopen).
  destruct (connect_Ok_inv l w c w1 Hconn) as (p & Hl & Hpc & _).
  split; [exists p; split; assumption|].
  simpl. rewrite lookup_insert_eq. split; [reflexivity | exact Hopen].
Qed.

(** The three query methods on a ready SQLite backend. *)
Lemma execute_commits l q w c w1 cn rows db' :
  backend_ready l w c w1 cn ->
  run_statement q (strftime_now (clock w1)) (view w1 cn) = Ok (rows, db') ->
  blocked c cn q w1 = false ->
  execute l q w = (Ok tt, after_statement c cn db' w1).
Proof.
  intros Hready Hrun Hfree.
  destruct (connect_Ok_obj l w c w1 (proj1 Hready)) as [p Hl].
  unfold execute, get_obj, bind at 1. rewrite Hl.
  exact (statement_commits (fun _ => tt) l q w c w1 cn rows db' Hready Hrun Hfree).
Qed.

Lemma fetch_all_commits l q w c w1 cn rows db' :
  backend_ready l w c w1 cn ->
  run_statement q (strftime_now (clock w1)) (view w1 cn) = Ok (rows, db') ->
  blocked c cn q w1 = false ->
  fetch_all l q w = (Ok rows, after_statement c cn db' w1).
Proof.
  intros Hready Hrun Hfree.
  destruct (connect_Ok_obj l w c w1 (proj1 Hready)) as [p Hl].
  unfold fetch_all, get_obj, bind at 1. rewrite Hl.
  exact (statement_commits (fun r => r) l q w c w1 cn rows db' Hready Hrun Hfree).
Qed.

Lemma fetch_one_commits l q w c w1 cn rows db' :
  backend_ready l w c w1 cn ->
  run_statement q (strftime_now (clock w1)) (view w1 cn) = Ok (rows, db') ->
  blocked c cn q w1 = false ->
  fetch_one l q w = (Ok (head rows), after_statement c cn db' w1).
Proof.
  intros Hready Hrun Hfree.
  destruct (connect_Ok_obj l w c w1 (proj1 Hready)) as [p Hl].
  unfold fetch_one, get_obj, bind at 1. rewrite Hl.
  exact (statement_commits (@head pytuple) l q w c w1 cn rows db' Hready Hrun Hfree).
Qed.

Lemma execute_locked_out l q w c w1 cn rows db' :
  backend_ready l w c w1 cn ->
  run_statement q (strftime_now (clock w1)) (view w1 cn) = Ok (rows, db') ->
  blocked c cn q w1 = true ->
  execute l q w = (Raise locked_error, after_failure c cn w1).
Proof.
  intros Hready Hrun Hlocked.
  destruct (connect_Ok_obj l w c w1 (proj1 Hready)) as [p Hl].
  unfold execute, get_obj, bind at 1. rewrite Hl.
  exact (statement_locked_out (fun _ => tt) l q w c w1 cn rows db' Hready Hrun Hlocked).
Qed.

Lemma fetch_all_locked_out l q w c w1 cn rows db' :
  backend_ready l w c w1 cn ->
  run_statement q (strftime_now (clock w1)) (view w1 cn) = Ok (rows, db') ->
  blocked c cn q w1 = true ->
  fetch_all l q w = (Raise locked_error, after_failure c cn w1).
Proof.
  intros Hready Hrun Hlocked.
  destruct (connect_Ok_obj l w c w1 (proj1 Hready)) as [p Hl].
  unfold fetch_all, get_obj, bind at 1. rewrite Hl.
  exact (statement_locked_out (fun r => r) l q w c w1 cn rows db' Hready Hrun Hlocked).
Qed.

Lemma execute_rolls_back l q w c w1 cn e :
  backend_ready l w c w1 cn ->
  run_statement q (strftime_now (clock w1)) (view w1 cn) = Raise e ->
  execute l q w = (Raise e, after_failure c cn w1).
Proof.
  intros Hready Hrun.
  destruct (connect_Ok_obj l w c w1 (proj1 Hready)) as [p Hl].
  unfold execute, get_obj, bind at 1. rewrite Hl.
  exact (statement_rolls_back (fun _ => tt) l q w c w1 cn e Hready Hrun).
Qed.

Lemma fetch_all_rolls_back l q w c w1 cn e :
  backend_ready l w c w1 cn ->
  run_statement q (strftime_now (clock w1)) (view w1 cn) = Raise e ->
  fetch_all l q w = (Raise e, after_failure c cn w1).
Proof.
  intros Hready Hrun.
  destruct (connect_Ok_obj l w c w1 (proj1 Hready)) as [p Hl].
  unfold fetch_all, get_obj, bind at 1. rewrite Hl.
  exact (statement_rolls_back (fun r => r) l q w c w1 cn e Hready Hrun).
Qed.

Lemma fetch_one_rolls_back l q w c w1 cn e :
  backend_ready l w c w1 cn ->
  run_statement q (strftime_now (clock w1)) (view w1 cn) = Raise e ->
  fetch_one l q w = (Raise e, after_failure c cn w1).
Proof.
  intros Hready Hrun.
  destruct (connect_Ok_obj l w c w1 (proj1 Hready)) as [p Hl].
  unfold fetch_one, get_obj, bind at 1. rewrite Hl.
  exact (statement_rolls_back (@head pytuple) l q w c w1 cn e Hready Hrun).
Qed.

(** Resolution without a path reads the registry only. *)
Lemma resolve_without_path db_path provider w l w0 :
  truthy db_path = false ->
  _resolve_provider db_path provider w = (Ok l, w0) ->
  w0 = w /\
  forall w', _PROVIDERS w' = _PROVIDERS w -> _DEFAULT_PROVIDER w' = _DEFAULT_PROVIDER w ->
             _resolve_provider db_path provider w' = (Ok l, w').
Proof.
  intros Hd. unfold _resolve_provider. rewrite Hd.
  destruct (truthy provider).
  - destruct (_PROVIDERS w !! default "" provider) as [l'|] eqn:E; intros [= <- <-].
    split; [reflexivity|]. intros w' -> _. by rewrite E.
  - destruct (_PROVIDERS w !! _DEFAULT_PROVIDER w) as [l'|] eqn:E; intros [= <- <-].
    split; [reflexivity|]. intros w' -> ->. by rewrite E.
Qed.

(** ** What never touches the registry *)

Definition same_registry (w w' : World) : Prop :=
  _PROVIDERS w' = _PROVIDERS w /\ _DEFAULT_PROVIDER w' = _DEFAULT_PROVIDER w.

Definition keeps_registry {A} (m : M A) : Prop :=
  forall w, same_registry w (snd (m w)).

Lemma same_registry_refl w : same_registry w w.
Proof. by split. Qed.

Lemma same_registry_trans w1 w2 w3 :
  same_registry w1 w2 -> same_registry w2 w3 -> same_registry w1 w3.
Proof. intros [H1 H2] [H3 H4]. split; congruence. Qed.

Lemma keeps_ret {A} (a : A) : keeps_registry (ret a).
Proof. intros w. apply same_registry_refl. Qed.

Lemma keeps_raise {A} e : keeps_registry (@raise A e).
Proof. intros w. apply same_registry_refl. Qed.

Lemma keeps_lift {A} (r : result A) : keeps_registry (lift r).
Proof. intros w. apply same_registry_refl. Qed.

Lemma keeps_bind {A B} (m : M A) (k : A -> M B) :
  keeps_registry m -> (forall a, keeps_registry (k a)) -> keeps_registry (bind m k).
Proof.
  intros Hm Hk w. unfold bind. specialize (Hm w).
  destruct (m w) as [[a|e] w']; simpl in *; [|exact Hm].
  eapply same_registry_trans; [exact Hm | apply Hk].
Qed.

Lemma keeps_try_except {A} (body : M A) (handler : exn -> M A) :
  keeps_registry body -> (forall e, keeps_registry (handler e)) ->
  keeps_registry (try_except_Exception body handler).
Proof.
  intros Hb Hh w. unfold try_except_Exception. specialize (Hb w).
  destruct (body w) as [[a|e] w']; simpl in *; [exact Hb|].
  destruct (is_Exception e); [|exact Hb].
  eapply same_registry_trans; [exact Hb | apply Hh].
Qed.

Lemma keeps_get_obj l : keeps_registry (get_obj l).
Proof. intros w. unfold get_obj. destruct (heap w !! l); apply same_registry_refl. Qed.

Lemma keeps_set_obj l o : keeps_registry (set_obj l o).
Proof. intros w. by split. Qed.

Lemma keeps_alloc o : keeps_registry (alloc o).
Proof. intros w. by split. Qed.

Lemma keeps_get_conn c : keeps_registry (get_conn c).
Proof.
  intros w. unfold get_conn.
  destruct (connections w !! c) as [cn|]; [destruct (c_closed cn)|]; apply same_registry_refl.
Qed.

Lemma keeps_set_conn c cn : keeps_registry (set_conn c cn).
Proof. intros w. by split. Qed.

Lemma keeps_sqlite3_connect path : keeps_registry (sqlite3_connect path).
Proof.
  intros w. unfold sqlite3_connect. destruct (sqlite3_open path (fs w)); by split.
Qed.

Create HintDb registry.
#[local] Hint Resolve keeps_ret keeps_raise keeps_lift keeps_get_obj keeps_set_obj
  keeps_alloc keeps_get_conn keeps_set_conn keeps_sqlite3_connect : registry.

Lemma keeps_conn_commit c : keeps_registry (conn_commit c).
Proof.
  unfold conn_commit. apply keeps_bind; [auto with registry|]. intros cn.
  destruct (c_txn cn); [|auto with registry].
  apply keeps_bind; [|auto with registry]. intros w. by split.
Qed.

Lemma keeps_conn_rollback c : keeps_registry (conn_rollback c).
Proof. unfold conn_rollback. apply keeps_bind; auto with registry. Qed.

Lemma keeps_conn_close c : keeps_registry (conn_close c).
Proof.
  intros w. unfold conn_close. destruct (connections w !! c); by split.
Qed.

Lemma keeps_cursor_execute c q : keeps_registry (cursor_execute c q).
Proof.
  unfold cursor_execute. apply keeps_bind; [auto with registry|]. intros cn w.
  cbv zeta. destruct (run_statement _ _ _) as [[rows db']|e]; [|by split].
  destruct (blocked c cn q w); [by split|].
  destruct (is_dml q || _); [by split|]. destruct q; by split.
Qed.

#[local] Hint Resolve keeps_conn_commit keeps_conn_rollback keeps_conn_close
  keeps_cursor_execute : registry.

Lemma keeps_pragma c : keeps_registry (conn_pragma_foreign_keys c).
Proof. unfold conn_pragma_foreign_keys. apply keeps_bind; auto with registry. Qed.

#[local] Hint Resolve keeps_pragma : registry.

Lemma keeps_connect l : keeps_registry (SQLiteProvider_connect l).
Proof.
  unfold SQLiteProvider_connect, get_sqlite.
  apply keeps_bind.
  - apply keeps_bind; [auto with registry|]. intros [p|p|p]; auto with registry.
  - intros p. destruct (SQLiteProvider._connection p); [auto with registry|].
    repeat (apply keeps_bind; [auto with registry|]; intros ?). auto with registry.
Qed.

Lemma keeps_get_connection {A} l (body : conn -> M A) :
  (forall c, keeps_registry (body c)) ->
  keeps_registry (SQLiteProvider_get_connection l body).
Proof.
  intros Hb. unfold SQLiteProvider_get_connection.
  apply keeps_bind; [apply keeps_connect|]. intros c.
  apply keeps_try_except.
  - apply keeps_bind; [apply Hb|]. intros a.
    apply keeps_bind; auto with registry.
  - intros e. apply keeps_bind; auto with registry.
Qed.

Lemma keeps_execute l q : keeps_registry (execute l q).
Proof.
  unfold execute, not_implemented. apply keeps_bind; [auto with registry|].
  intros [p|p|p]; auto with registry.
  apply keeps_get_connection. intros c. apply keeps_bind; auto with registry.
Qed.

Lemma keeps_fetch_one l q : keeps_registry (fetch_one l q).
Proof.
  unfold fetch_one, not_implemented. apply keeps_bind; [auto with registry|].
  intros [p|p|p]; auto with registry.
  apply keeps_get_connection. intros c. apply keeps_bind; auto with registry.
Qed.

Lemma keeps_fetch_all l q : keeps_registry (fetch_all l q).
Proof.
  unfold fetch_all, not_implemented. apply keeps_bind; [auto with registry|].
  intros [p|p|p]; auto with registry.
  apply keeps_get_connection. intros c. apply keeps_bind; auto with registry.
Qed.

Lemma keeps_resolve db_path provider : keeps_registry (_resolve_provider db_path provider).
Proof. intros w. apply resolve_keeps_registry. Qed.

Lemma keeps_get_connection_info l : keeps_registry (get_connection_info l).
Proof.
  unfold get_connection_info. apply keeps_bind; [auto with registry|].
  intros o w. by split.
Qed.

#[local] Hint Resolve keeps_execute keeps_fetch_one keeps_fetch_all keeps_resolve
  keeps_get_connection_info : registry.

(** X1: no chat-store operation changes the registry or the default
    name, whatever its arguments and whether it returns or raises. *)
Theorem chat_store_never_changes_registry (w : World) :
  (forall db_path provider,
     same_registry w (snd (init_db db_path provider w))) /\
  (forall user_id role content db_path provider,
     same_registry w (snd (save_message user_id role content db_path provider w))) /\
  (forall user_id limit db_path provider,
     same_registry w (snd (get_history user_id limit db_path provider w))) /\
  (forall user_id db_path provider,
     same_registry w (snd (get_session_state user_id db_path provider w))) /\
  (forall user_id state incident_type emotion db_path provider,
     same_registry w
       (snd (set_session_state user_id state incident_type emotion db_path provider w))).
Proof.
  assert (Hmessages : forall rows, keeps_registry (lift (message_dicts rows)))
    by auto with registry.
  split; [|split; [|split; [|split]]]; intros.
  - unfold init_db. apply keeps_bind; [auto with registry|]. intros l.
    repeat (apply keeps_bind; [auto with registry|]; intros ?). auto with registry.
  - unfold save_message. apply keeps_bind; auto with registry.
  - unfold get_history. apply keeps_bind; [auto with registry|]. intros l.
    apply keeps_bind; auto with registry.
  - unfold get_session_state. apply keeps_bind; [auto with registry|]. intros l.
    apply keeps_bind; [auto with registry|]. intros [[|v r]|]; auto with registry.
  - unfold set_session_state. apply keeps_bind; auto with registry.
Qed.

(** ** The query methods compared *)

Definition result_map {A B} (f : A -> B) (r : result A) : result B :=
  match r with
  | Ok a => Ok (f a)
  | Raise e => Raise e
  end.

Lemma get_connection_returning {A} (k : list pytuple -> A) l q w :
  SQLiteProvider_get_connection l
    (fun c => bind (cursor_execute c q) (fun rows => ret (k rows))) w
  = (result_map k (fst (SQLiteProvider_get_connection l
                          (fun c => bind (cursor_execute c q) (fun rows => ret rows)) w)),
     snd (SQLiteProvider_get_connection l
            (fun c => bind (cursor_execute c q) (fun rows => ret rows)) w)).
Proof.
  unfold SQLiteProvider_get_connection, try_except_Exception, bind, ret, raise.
  destruct (SQLiteProvider_connect l w) as [[c|e] w1]; [|reflexivity].
  destruct (cursor_execute c q w1) as [[rows|e] w2].
  - destruct (conn_commit c w2) as [[[]|e] w3]; [reflexivity|].
    destruct (is_Exception e); [|reflexivity].
    destruct (conn_rollback c w3) as [[[]|e'] w4]; reflexivity.
  - destruct (is_Exception e); [|reflexivity].
    destruct (conn_rollback c w2) as [[[]|e'] w3]; reflexivity.
Qed.

(** X2: [execute], [fetch_one] and [fetch_all] run a statement in the
    same way, with the same commit or rollback and the same resulting
    world, also when they raise; they differ in the value only:
    [fetch_one] returns the first row of what [fetch_all] returns, or
    [None] when there is no row, and [execute] returns nothing. *)
Theorem query_methods_differ_in_value_only (l : loc) (q : Statement) (w : World) :
  fetch_one l q w = (result_map head (fst (fetch_all l q w)), snd (fetch_all l q w)) /\
  execute l q w = (result_map (fun _ => tt) (fst (fetch_all l q w)), snd (fetch_all l q w)).
Proof.
  unfold fetch_one, execute, fetch_all, get_obj, not_implemented, raise, bind.
  destruct (heap w !! l) as [[p|p|p]|]; try (split; reflexivity).
  unfold SQLiteProvider_fetch_one, SQLiteProvider_execute, SQLiteProvider_fetch_all.
  split.
  - exact (get_connection_returning (@head pytuple) l q w).
  - exact (get_connection_returning (fun _ => tt) l q w).
Qed.

(** ** Schema creation *)

Definition with_messages (db : Database) : Database :=
  {| messages := Some (default [] (messages db)); messages_seq := messages_seq db;
     sessions := sessions db |}.

(** The database with every missing table created empty. *)
Definition with_tables (db : Database) : Database :=
  {| messages := Some (default [] (messages db)); messages_seq := messages_seq db;
     sessions := Some (default [] (sessions db)) |}.

Lemma run_CREATE_messages now db :
  run_statement CREATE_messages now db = Ok ([], with_messages db).
Proof. destruct db as [[m|] s ss]; reflexivity. Qed.

Lemma run_CREATE_sessions now db :
  run_statement CREATE_sessions now (with_messages db) = Ok ([], with_tables db).
Proof. destruct db as [m s [ss|]]; reflexivity. Qed.

Lemma with_tables_initialised db :
  messages db <> None -> sessions db <> None -> with_tables db = db.
Proof.
  destruct db as [[m|] s [ss|]]; simpl; intros Hm Hs; try reflexivity;
    exfalso; (by apply Hm) || (by apply Hs).
Qed.

Lemma with_tables_idempotent db : with_tables (with_tables db) = with_tables db.
Proof. reflexivity. Qed.

Lemma init_db_on_ready db_path provider w l w0 c w1 cn :
  _resolve_provider db_path provider w = (Ok l, w0) ->
  backend_ready l w0 c w1 cn ->
  (messages (view w1 cn) = None \/ sessions (view w1 cn) = None ->
   database_is_locked c (c_path cn) w1 = false) ->
  exists p,
    heap w1 !! l = Some (SQLite p) /\
    init_db db_path provider w
    = (Ok (PStr (SQLiteProvider.db_path p)),
       after_statement c (without_txn cn) (with_tables (view w1 cn))
         (after_statement c cn (with_messages (view w1 cn)) w1)).
Proof.
  intros Hres Hready Hfree.
  destruct (connect_Ok_inv l w0 c w1 (proj1 Hready)) as (p & Hl & Hpc & _).
  exists p. split; [exact Hl|].
  assert (Hfree1 : blocked c cn CREATE_messages w1 = false).
  { apply creates_not_blocked; [reflexivity|]. simpl. intros Hm. apply Hfree. left.
    destruct (messages (view w1 cn)); [discriminate Hm | reflexivity]. }
  pose proof (execute_commits l CREATE_messages w0 c w1 cn _ _ Hready
                (run_CREATE_messages _ _) Hfree1) as H1.
  destruct (connected_after_statement l c cn (with_messages (view w1 cn)) w0 w1 Hready)
    as [Hconn Hview].
  pose proof (connected_to_ready _ _ _ _ Hconn) as Hready2.
  assert (Hrun2 : run_statement CREATE_sessions
                    (strftime_now (clock (after_statement c cn
                                            (with_messages (view w1 cn)) w1)))
                    (view (after_statement c cn (with_messages (view w1 cn)) w1)
                          (without_txn cn))
                  = Ok ([], with_tables (view w1 cn))).
  { rewrite Hview. apply run_CREATE_sessions. }
  assert (Hfree2 : blocked c (without_txn cn) CREATE_sessions
                     (after_statement c cn (with_messages (view w1 cn)) w1) = false).
  { apply creates_not_blocked; [reflexivity|]. rewrite Hview. simpl. intros Hs.
    rewrite database_is_locked_after_statement. apply Hfree. right.
    destruct (sessions (view w1 cn)); [discriminate Hs | reflexivity]. }
  pose proof (execute_commits l CREATE_sessions _ c _ _ _ _ Hready2 Hrun2 Hfree2) as H2.
  unfold init_db, bind at 1. rewrite Hres.
  unfold bind at 1. rewrite H1. unfold bind at 1. rewrite H2.
  unfold get_connection_info, get_obj, bind, ret. simpl. rewrite Hl. reflexivity.
Qed.

(** X3: on a reachable SQLite backend [init_db] returns the backend's
    [db_path]; afterwards both tables exist, a table that was missing
    being empty and a table that existed keeping its rows, so on an
    initialised database nothing changes; run again on the named or
    default backend, it returns the same path and leaves the database
    as it is.  Creating a missing table writes, so when a table is
    missing no other connection may have a pending write on the file;
    when both exist the call succeeds whoever holds the write lock. *)
Theorem init_db_creates_missing_tables_only
    (db_path provider : option string) (w w0 w1 : World) (l : loc) (c : conn)
    (cn : Connection) :
  _resolve_provider db_path provider w = (Ok l, w0) ->
  backend_ready l w0 c w1 cn ->
  (messages (view w1 cn) = None \/ sessions (view w1 cn) = None ->
   database_is_locked c (c_path cn) w1 = false) ->
  exists p w',
    heap w1 !! l = Some (SQLite p) /\
    init_db db_path provider w = (Ok (PStr (SQLiteProvider.db_path p)), w') /\
    file_db w' (c_path cn) = with_tables (view w1 cn) /\
    (messages (view w1 cn) <> None -> sessions (view w1 cn) <> None ->
     file_db w' (c_path cn) = view w1 cn) /\
    (truthy db_path = false ->
     exists w'',
       init_db db_path provider w' = (Ok (PStr (SQLiteProvider.db_path p)), w'') /\
       file_db w'' (c_path cn) = file_db w' (c_path cn)).
Proof.
  intros Hres Hready Hfree.
  destruct (init_db_on_ready db_path provider w l w0 c w1 cn Hres Hready Hfree)
    as (p & Hl & Hinit).
  eexists p, _. split; [exact Hl|]. split; [exact Hinit|].
  assert (Hfile : forall c0 cn0 db0 w2,
             c_path cn0 = c_path cn ->
             file_db (after_statement c0 cn0 db0 w2) (c_path cn) = db0).
  { intros c0 cn0 db0 w2 Hp. unfold file_db. simpl. by rewrite Hp, lookup_insert_eq. }
  split; [by apply Hfile|].
  split.
  { intros Hm Hs. rewrite Hfile by reflexivity. by apply with_tables_initialised. }
  intros Hd.
  destruct (resolve_without_path db_path provider w l w0 Hd Hres) as [-> Hagain].
  destruct (connect_Ok_inv l w c w1 (proj1 Hready)) as (p' & _ & _ & Hreg & Hdef & _).
  set (wA := after_statement c cn (with_messages (view w1 cn)) w1).
  set (wB := after_statement c (without_txn cn) (with_tables (view w1 cn)) wA).
  assert (HreadyA : backend_ready l wA c wA (without_txn cn)).
  { apply connected_to_ready. eapply connected_after_statement. exact Hready. }
  destruct (connected_after_statement l c (without_txn cn) (with_tables (view w1 cn))
              wA wA HreadyA) as [HconnB HviewB].
  fold wB in HconnB, HviewB.
  pose proof (connected_to_ready _ _ _ _ HconnB) as HreadyB.
  assert (HfreeB : messages (view wB (without_txn (without_txn cn))) = None \/
                   sessions (view wB (without_txn (without_txn cn))) = None ->
                   database_is_locked c (c_path (without_txn (without_txn cn))) wB = false).
  { rewrite HviewB. simpl. intros [H|H]; discriminate H. }
  destruct (init_db_on_ready db_path provider wB l wB c wB _ (Hagain wB Hreg Hdef) HreadyB
              HfreeB)
    as (p2 & Hl2 & Hinit2).
  assert (p2 = p) as -> by (simpl in Hl2; congruence).
  eexists. split; [exact Hinit2|].
  rewrite !Hfile by reflexivity. by rewrite HviewB.
Qed.

(** ** Saving and reading back *)

Definition new_message (db : Database) (u role content now : string) : MessageRow :=
  {| m_id := messages_seq db + 1; m_user_id := u; m_role := role;
     m_content := content; m_created_at := now |}.

Lemma insert_by_created_at_last y s x :
  String.leb (m_created_at y) (m_created_at x) = true ->
  insert_by_created_at y (s ++ [x]) = insert_by_created_at y s ++ [x].
Proof.
  intros Hle. induction s as [|z s IH]; simpl.
  - by rewrite Hle.
  - destruct (String.leb (m_created_at y) (m_created_at z)); [reflexivity|].
    by rewrite IH.
Qed.

(** A row that is not older than any other row sorts last. *)
Lemma order_by_created_at_snoc l x :
  Forall (fun y => String.leb (m_created_at y) (m_created_at x) = true) l ->
  order_by_created_at (l ++ [x]) = order_by_created_at l ++ [x].
Proof.
  induction l as [|y l IH]; intros Hall; [reflexivity|].
  apply Forall_cons in Hall as [Hy Hall]. simpl.
  change (foldr insert_by_created_at [] (l ++ [x])) with (order_by_created_at (l ++ [x])).
  rewrite IH by assumption. by apply insert_by_created_at_last.
Qed.

Lemma filter_user_snoc u tbl row :
  filter (fun r => user_is u r = true) (tbl ++ [row])
  = filter (fun r => user_is u r = true) tbl ++ (if user_is u row then [row] else []).
Proof.
  rewrite filter_app. f_equal.
  destruct (user_is u row) eqn:E.
  - by rewrite filter_cons_True.
  - rewrite filter_cons_False; [reflexivity | congruence].
Qed.

Lemma history_rows_other_user u v limit tbl row :
  m_user_id row = u -> v <> u ->
  history_rows v limit (tbl ++ [row]) = history_rows v limit tbl.
Proof.
  intros Hrow Hne. unfold history_rows. rewrite filter_user_snoc.
  assert (user_is v row = false) as ->.
  { unfold user_is. apply String.eqb_neq. congruence. }
  by rewrite app_nil_r.
Qed.

Lemma history_rows_own_perm u limit tbl row :
  m_user_id row = u -> limit < 0 ->
  history_rows u limit (tbl ++ [row]) ≡ₚ history_rows u limit tbl ++ [row].
Proof.
  intros Hrow Hneg. unfold history_rows, sql_limit.
  destruct (Z.ltb_spec limit 0); [|lia].
  rewrite filter_user_snoc.
  assert (user_is u row = true) as -> by (by apply String.eqb_eq).
  by rewrite !order_by_created_at_perm.
Qed.

Lemma history_rows_own_last u limit tbl row :
  m_user_id row = u -> limit < 0 ->
  Forall (fun r => m_user_id r = u ->
                   String.leb (m_created_at r) (m_created_at row) = true) tbl ->
  history_rows u limit (tbl ++ [row]) = history_rows u limit tbl ++ [row].
Proof.
  intros Hrow Hneg Hall. unfold history_rows, sql_limit.
  destruct (Z.ltb_spec limit 0); [|lia].
  rewrite filter_user_snoc.
  assert (user_is u row = true) as -> by (by apply String.eqb_eq).
  apply order_by_created_at_snoc.
  apply Forall_forall. intros r Hr. apply list_elem_of_filter in Hr as [Hu Hr].
  rewrite Forall_forall in Hall. apply Hall; [assumption|].
  by apply String.eqb_eq.
Qed.

Lemma history_rows_prefix u n m tbl :
  0 <= n <= m ->
  history_rows u n tbl = take (Z.to_nat n) (history_rows u m tbl).
Proof.
  intros Hnm. unfold history_rows, sql_limit.
  destruct (Z.ltb_spec n 0); [lia|]. destruct (Z.ltb_spec m 0); [lia|].
  rewrite take_take. f_equal. lia.
Qed.

Lemma bind_int_in_range z : - 2 ^ 63 <= z < 2 ^ 63 -> bind_int z = Ok z.
Proof.
  intros Hz. unfold bind_int.
  destruct (Z.leb_spec (- 2 ^ 63) z); [|lia].
  destruct (Z.ltb_spec z (2 ^ 63)); [reflexivity | lia].
Qed.

Lemma save_message_on_ready user_id role content db_path provider w l w0 c w1 cn tbl :
  _resolve_provider db_path provider w = (Ok l, w0) ->
  backend_ready l w0 c w1 cn ->
  database_is_locked c (c_path cn) w1 = false ->
  messages (view w1 cn) = Some tbl ->
  save_message user_id role content db_path provider w
  = (Ok tt,
     after_statement c cn
       {| messages := Some (tbl ++ [new_message (view w1 cn) user_id role content
                                      (strftime_now (clock w1))]);
          messages_seq := messages_seq (view w1 cn) + 1;
          sessions := sessions (view w1 cn) |} w1).
Proof.
  intros Hres Hready Hfree Htbl. unfold save_message, bind. rewrite Hres.
  eapply execute_commits; [exact Hready | | by apply unlocked_not_blocked].
  simpl. rewrite Htbl. reflexivity.
Qed.

Lemma get_history_on_ready user_id limit db_path provider w l w0 c w1 cn tbl :
  _resolve_provider db_path provider w = (Ok l, w0) ->
  backend_ready l w0 c w1 cn ->
  messages (view w1 cn) = Some tbl ->
  - 2 ^ 63 <= limit < 2 ^ 63 ->
  get_history user_id limit db_path provider w
  = (Ok (map history_dict (history_rows user_id limit tbl)),
     after_statement c cn (view w1 cn) w1).
Proof.
  intros Hres Hready Htbl Hlimit. unfold get_history, bind. rewrite Hres.
  assert (Hrun : run_statement (SELECT_history user_id limit)
                   (strftime_now (clock w1)) (view w1 cn)
                 = Ok (map message_tuple (history_rows user_id limit tbl), view w1 cn)).
  { simpl. rewrite Htbl, (bind_int_in_range limit Hlimit). reflexivity. }
  rewrite (fetch_all_commits l _ w0 c w1 cn _ _ Hready Hrun eq_refl).
  unfold lift. by rewrite message_dicts_of_rows.
Qed.

Lemma get_session_state_on_ready user_id db_path provider w l w0 c w1 cn tbl :
  _resolve_provider db_path provider w = (Ok l, w0) ->
  backend_ready l w0 c w1 cn ->
  sessions (view w1 cn) = Some tbl ->
  get_session_state user_id db_path provider w
  = (Ok match filter (fun r => session_of user_id r = true) tbl with
        | [] => default_session user_id
        | r :: _ => stored_session r
        end,
     after_statement c cn (view w1 cn) w1).
Proof.
  intros Hres Hready Htbl. unfold get_session_state, bind. rewrite Hres.
  assert (Hrun : run_statement (SELECT_session user_id)
                   (strftime_now (clock w1)) (view w1 cn)
                 = Ok (map session_tuple
                         (filter (fun r => session_of user_id r = true) tbl),
                       view w1 cn)).
  { simpl. rewrite Htbl. reflexivity. }
  rewrite (fetch_one_commits l _ w0 c w1 cn _ _ Hready Hrun eq_refl).
  destruct (filter (fun r => session_of user_id r = true) tbl); reflexivity.
Qed.

Lemma set_session_state_on_ready user_id st inc emo db_path provider w l w0 c w1 cn tbl :
  _resolve_provider db_path provider w = (Ok l, w0) ->
  backend_ready l w0 c w1 cn ->
  database_is_locked c (c_path cn) w1 = false ->
  sessions (view w1 cn) = Some tbl ->
  set_session_state user_id st inc emo db_path provider w
  = (Ok tt,
     after_statement c cn
       {| messages := messages (view w1 cn); messages_seq := messages_seq (view w1 cn);
          sessions := Some (upsert_session user_id st inc emo (strftime_now (clock w1))
                              tbl) |} w1).
Proof.
  intros Hres Hready Hfree Htbl. unfold set_session_state, bind. rewrite Hres.
  eapply execute_commits; [exact Hready | | by apply unlocked_not_blocked].
  simpl. rewrite Htbl. reflexivity.
Qed.

(** The next call on the named or default backend finds it connected
    and sees what the previous call committed. *)
Lemma next_call_ready db_path provider w l w0 c w1 cn db' :
  truthy db_path = false ->
  _resolve_provider db_path provider w = (Ok l, w0) ->
  backend_ready l w0 c w1 cn ->
  let w' := after_statement c cn db' w1 in
  _resolve_provider db_path provider w' = (Ok l, w') /\
  backend_ready l w' c w' (without_txn cn) /\
  view w' (without_txn cn) = db'.
Proof.
  intros Hd Hres Hready w'.
  destruct (resolve_without_path db_path provider w l w0 Hd Hres) as [-> Hagain].
  destruct (connect_Ok_inv l w c w1 (proj1 Hready)) as (p & _ & _ & Hreg & Hdef & _).
  destruct (connected_after_statement l c cn db' w w1 Hready) as [Hconn Hview].
  split; [by apply Hagain|]. split; [by apply connected_to_ready | exact Hview].
Qed.

(** X4: on a reachable SQLite backend whose messages table exists and
    whose file no other connection has a pending write on,
    [save_message] returns normally and stores exactly one new row
    after the existing ones, with the given user, role and content, the
    engine's clock reading, and the next id of the AUTOINCREMENT
    counter; the sessions table is untouched; when ids so far are
    increasing and within the counter, the new id is larger than every
    id in the table and the table stays of that kind. *)
Theorem save_message_appends_one_row
    (user_id role content : string) (db_path provider : option string)
    (w w0 w1 : World) (l : loc) (c : conn) (cn : Connection) (tbl : list MessageRow) :
  _resolve_provider db_path provider w = (Ok l, w0) ->
  backend_ready l w0 c w1 cn ->
  database_is_locked c (c_path cn) w1 = false ->
  messages (view w1 cn) = Some tbl ->
  let row := {| m_id := messages_seq (view w1 cn) + 1; m_user_id := user_id;
                m_role := role; m_content := content;
                m_created_at := strftime_now (clock w) |} in
  exists w',
    save_message user_id role content db_path provider w = (Ok tt, w') /\
    messages (file_db w' (c_path cn)) = Some (tbl ++ [row]) /\
    messages_seq (file_db w' (c_path cn)) = m_id row /\
    sessions (file_db w' (c_path cn)) = sessions (view w1 cn) /\
    (db_ok (view w1 cn) ->
     Forall (fun r => m_id r < m_id row) tbl /\ db_ok (file_db w' (c_path cn))).
Proof.
  intros Hres Hready Hfree Htbl row.
  assert (Hclock : clock w1 = clock w).
  { destruct (connect_Ok_inv l w0 c w1 (proj1 Hready)) as (p & _ & _ & _ & _ & _ & Hc & _).
    pose proof (resolve_keeps_clock db_path provider w) as H. rewrite Hres in H.
    simpl in H. congruence. }
  eexists. split.
  { apply (save_message_on_ready _ _ _ _ _ _ _ _ _ _ _ _ Hres Hready Hfree Htbl). }
  unfold file_db. simpl. rewrite lookup_insert_eq. simpl.
  unfold new_message. rewrite Hclock.
  split; [reflexivity|]. split; [reflexivity|]. split; [reflexivity|].
  intros Hok. split.
  - destruct Hok as [Hm _]. destruct (Hm tbl Htbl) as [_ Hle].
    eapply Forall_impl; [exact Hle|]. simpl. intros; lia.
  - eapply (run_statement_keeps_ok (INSERT_message user_id role content)
              (strftime_now (clock w)) (view w1 cn)); [exact Hok|].
    simpl. rewrite Htbl. reflexivity.
Qed.

(** X5: on the named or default backend, with no other connection
    holding a pending write on its file, after [save_message] for a
    user, [get_history] of that user with a negative limit (no cap)
    returns the messages it would have returned before together with
    the new one; the new one comes last whenever the user's earlier
    messages bear no later timestamp, that is, unless the engine clock
    ran backwards. *)
Theorem saved_message_is_read_back
    (user_id role content : string) (limit : Z) (db_path provider : option string)
    (w w0 w1 : World) (l : loc) (c : conn) (cn : Connection) (tbl : list MessageRow) :
  truthy db_path = false ->
  _resolve_provider db_path provider w = (Ok l, w0) ->
  backend_ready l w0 c w1 cn ->
  database_is_locked c (c_path cn) w1 = false ->
  messages (view w1 cn) = Some tbl ->
  - 2 ^ 63 <= limit < 0 ->
  let row := {| m_id := messages_seq (view w1 cn) + 1; m_user_id := user_id;
                m_role := role; m_content := content;
                m_created_at := strftime_now (clock w1) |} in
  exists w' w'' rows,
    save_message user_id role content db_path provider w = (Ok tt, w') /\
    get_history user_id limit db_path provider w' = (Ok (map history_dict rows), w'') /\
    rows ≡ₚ history_rows user_id limit tbl ++ [row] /\
    (Forall (fun r => m_user_id r = user_id ->
                      String.leb (m_created_at r) (m_created_at row) = true) tbl ->
     rows = history_rows user_id limit tbl ++ [row]).
Proof.
  intros Hd Hres Hready Hfree Htbl Hlimit row.
  pose proof (save_message_on_ready user_id role content _ _ _ _ _ _ _ _ _
                Hres Hready Hfree Htbl) as Hsave.
  match type of Hsave with _ = (_, after_statement _ _ ?db _) => set (db' := db) in * end.
  destruct (next_call_ready db_path provider w l w0 c w1 cn db' Hd Hres Hready)
    as (Hres' & Hready' & Hview').
  assert (Htbl' : messages (view (after_statement c cn db' w1) (without_txn cn))
                  = Some (tbl ++ [row])) by (by rewrite Hview').
  eexists _, _, _. split; [exact Hsave|]. split.
  { apply (get_history_on_ready user_id limit _ _ _ _ _ _ _ _ _ Hres' Hready' Htbl').
    lia. }
  split.
  - apply history_rows_own_perm; [reflexivity | lia].
  - intros Hall. apply history_rows_own_last; [reflexivity | lia | exact Hall].
Qed.

(** X6: on the named or default backend, with no other connection
    holding a pending write on its file, [save_message] for one user
    leaves what [get_history] returns for every other user, and for
    any limit, as it was. *)
Theorem saved_message_leaves_other_users_alone
    (user_id role content other : string) (limit : Z) (db_path provider : option string)
    (w w0 w1 : World) (l : loc) (c : conn) (cn : Connection) (tbl : list MessageRow) :
  truthy db_path = false ->
  _resolve_provider db_path provider w = (Ok l, w0) ->
  backend_ready l w0 c w1 cn ->
  database_is_locked c (c_path cn) w1 = false ->
  messages (view w1 cn) = Some tbl ->
  - 2 ^ 63 <= limit < 2 ^ 63 ->
  other <> user_id ->
  exists w',
    save_message user_id role content db_path provider w = (Ok tt, w') /\
    fst (get_history other limit db_path provider w')
    = Ok (map history_dict (history_rows other limit tbl)) /\
    fst (get_history other limit db_path provider w')
    = fst (get_history other limit db_path provider w).
Proof.
  intros Hd Hres Hready Hfree Htbl Hlimit Hne.
  pose proof (save_message_on_ready user_id role content _ _ _ _ _ _ _ _ _
                Hres Hready Hfree Htbl) as Hsave.
  match type of Hsave with _ = (_, after_statement _ _ ?db _) => set (db' := db) in * end.
  destruct (next_call_ready db_path provider w l w0 c w1 cn db' Hd Hres Hready)
    as (Hres' & Hready' & Hview').
  assert (Htbl' : messages (view (after_statement c cn db' w1) (without_txn cn))
                  = Some (tbl ++ [new_message (view w1 cn) user_id role content
                                    (strftime_now (clock w1))]))
    by (by rewrite Hview').
  eexists. split; [exact Hsave|].
  rewrite (get_history_on_ready other limit _ _ _ _ _ _ _ _ _ Hres' Hready' Htbl' Hlimit).
  rewrite (get_history_on_ready other limit _ _ _ _ _ _ _ _ _ Hres Hready Htbl Hlimit).
  simpl. rewrite (history_rows_other_user user_id other); auto.
Qed.

(** X7: on the named or default backend, [get_history] changes no
    stored message, so a second call sees the same table; with limits
    [0 <= n <= m] the call with [n] returns the first [n] entries of
    what the call with [m] returns, and [limit=0] returns the empty
    list. *)
Theorem get_history_is_repeatable_and_prefix_closed
    (user_id : string) (n m : Z) (db_path provider : option string)
    (w w0 w1 : World) (l : loc) (c : conn) (cn : Connection) (tbl : list MessageRow) :
  truthy db_path = false ->
  _resolve_provider db_path provider w = (Ok l, w0) ->
  backend_ready l w0 c w1 cn ->
  messages (view w1 cn) = Some tbl ->
  0 <= n <= m -> m < 2 ^ 63 ->
  exists w' w'' first second,
    get_history user_id n db_path provider w = (Ok first, w') /\
    get_history user_id m db_path provider w' = (Ok second, w'') /\
    messages (file_db w'' (c_path cn)) = Some tbl /\
    first = take (Z.to_nat n) second /\
    (n = m -> first = second) /\
    (n = 0 -> first = []).
Proof.
  intros Hd Hres Hready Htbl Hnm Hm.
  assert (Hn : - 2 ^ 63 <= n < 2 ^ 63) by lia.
  assert (Hm' : - 2 ^ 63 <= m < 2 ^ 63) by lia.
  pose proof (get_history_on_ready user_id n _ _ _ _ _ _ _ _ _ Hres Hready Htbl Hn) as H1.
  destruct (next_call_ready db_path provider w l w0 c w1 cn (view w1 cn) Hd Hres Hready)
    as (Hres' & Hready' & Hview').
  assert (Htbl' : messages (view (after_statement c cn (view w1 cn) w1) (without_txn cn))
                  = Some tbl) by (by rewrite Hview').
  pose proof (get_history_on_ready user_id m _ _ _ _ _ _ _ _ _ Hres' Hready' Htbl' Hm')
    as H2.
  eexists _, _, _, _. split; [exact H1|]. split; [exact H2|].
  split.
  { unfold file_db. simpl. rewrite lookup_insert_eq. simpl. by rewrite Hview'. }
  split.
  { rewrite (history_rows_prefix user_id n m tbl Hnm). by rewrite <- fmap_take. }
  split.
  - intros ->. reflexivity.
  - intros ->. reflexivity.
Qed.

(** ** Session state written and read back *)

Lemma filter_upsert_head u st inc emo now tbl :
  exists rest,
    filter (fun r => session_of u r = true) (upsert_session u st inc emo now tbl)
    = upsert_row u st inc emo now :: rest.
Proof.
  unfold upsert_session. destruct (existsb (session_of u) tbl) eqn:E.
  - induction tbl as [|r tbl IH]; [discriminate|]. simpl in *.
    destruct (session_of u r) eqn:Er.
    + rewrite filter_cons_True by (by apply session_of_upsert_row). eauto.
    + rewrite filter_cons_False by congruence. by apply IH.
  - exists []. rewrite filter_app.
    rewrite filter_cons_True by (by apply session_of_upsert_row).
    replace (filter (fun r => session_of u r = true) tbl) with (@nil SessionRow);
      [reflexivity|].
    symmetry. induction tbl as [|r tbl IH]; [reflexivity|]. simpl in E.
    apply orb_false_elim in E as [Er E].
    rewrite filter_cons_False by congruence. by apply IH.
Qed.

(** X8: on the named or default backend whose sessions table exists,
    with no other connection holding a pending write on its file,
    after [set_session_state] for a user [get_session_state] of that
    user returns exactly the values of the call, [None] for each
    omitted field, with the engine's clock reading as updated_at; for
    every other user it returns what it returned before. *)
Theorem session_state_is_read_back
    (user_id : string) (state incident_type emotion : option string)
    (db_path provider : option string)
    (w w0 w1 : World) (l : loc) (c : conn) (cn : Connection) (tbl : list SessionRow) :
  truthy db_path = false ->
  _resolve_provider db_path provider w = (Ok l, w0) ->
  backend_ready l w0 c w1 cn ->
  database_is_locked c (c_path cn) w1 = false ->
  sessions (view w1 cn) = Some tbl ->
  exists w',
    set_session_state user_id state incident_type emotion db_path provider w = (Ok tt, w') /\
    fst (get_session_state user_id db_path provider w')
    = Ok [("user_id", PStr user_id); ("state", of_optional state);
          ("incident_type", of_optional incident_type); ("emotion", of_optional emotion);
          ("updated_at", PStr (strftime_now (clock w1)))] /\
    (forall other, other <> user_id ->
       fst (get_session_state other db_path provider w')
       = fst (get_session_state other db_path provider w)).
Proof.
  intros Hd Hres Hready Hfree Htbl.
  pose proof (set_session_state_on_ready user_id state incident_type emotion _ _ _ _ _ _ _
                _ _ Hres Hready Hfree Htbl) as Hset.
  match type of Hset with _ = (_, after_statement _ _ ?db _) => set (db' := db) in * end.
  destruct (next_call_ready db_path provider w l w0 c w1 cn db' Hd Hres Hready)
    as (Hres' & Hready' & Hview').
  assert (Htbl' : sessions (view (after_statement c cn db' w1) (without_txn cn))
                  = Some (upsert_session user_id state incident_type emotion
                            (strftime_now (clock w1)) tbl))
    by (by rewrite Hview').
  eexists. split; [exact Hset|]. split.
  - rewrite (get_session_state_on_ready user_id _ _ _ _ _ _ _ _ _ Hres' Hready' Htbl').
    destruct (filter_upsert_head user_id state incident_type emotion
                (strftime_now (clock w1)) tbl) as [rest ->].
    reflexivity.
  - intros other Hne.
    rewrite (get_session_state_on_ready other _ _ _ _ _ _ _ _ _ Hres' Hready' Htbl').
    rewrite (get_session_state_on_ready other _ _ _ _ _ _ _ _ _ Hres Hready Htbl).
    simpl. rewrite upsert_session_other_user by congruence. reflexivity.
Qed.

(** ** Failing calls *)

(** X9: on a reachable SQLite backend, a chat-store call whose
    statement fails raises the engine's error and persists nothing:
    [save_message] and [get_history] without a messages table,
    [get_session_state] and [set_session_state] without a sessions
    table, raise [OperationalError] naming the table, and
    [get_history] with a limit outside 64 bits raises [OverflowError];
    in each case every file is as the backend found it, and the
    backend keeps its connection, open and with no transaction
    pending. *)
Theorem failed_statement_persists_nothing
    (db_path provider : option string)
    (w w0 w1 : World) (l : loc) (c : conn) (cn : Connection) :
  _resolve_provider db_path provider w = (Ok l, w0) ->
  backend_ready l w0 c w1 cn ->
  let failed := after_failure c cn w1 in
  files failed = files w1 /\
  connected_to l c (without_txn cn) failed /\
  (messages (view w1 cn) = None ->
     (forall user_id role content,
        save_message user_id role content db_path provider w
        = (Raise (OperationalError "no such table: messages"), failed)) /\
     (forall user_id limit,
        get_history user_id limit db_path provider w
        = (Raise (OperationalError "no such table: messages"), failed))) /\
  (sessions (view w1 cn) = None ->
     (forall user_id,
        get_session_state user_id db_path provider w
        = (Raise (OperationalError "no such table: sessions"), failed)) /\
     (forall user_id state incident_type emotion,
        set_session_state user_id state incident_type emotion db_path provider w
        = (Raise (OperationalError "no such table: sessions"), failed))) /\
  (forall user_id limit,
     messages (view w1 cn) <> None -> ~ (- 2 ^ 63 <= limit < 2 ^ 63) ->
     get_history user_id limit db_path provider w
     = (Raise (OverflowError "Python int too large to convert to SQLite INTEGER"),
        failed)).
Proof.
  intros Hres Hready failed.
  split; [reflexivity|]. split; [by eapply connected_after_failure|].
  split; [|split].
  - intros Hnone. split; intros.
    + unfold save_message, bind. rewrite Hres.
      apply (execute_rolls_back l _ w0 c w1 cn _ Hready). simpl. by rewrite Hnone.
    + unfold get_history, bind. rewrite Hres.
      rewrite (fetch_all_rolls_back l _ w0 c w1 cn (no_such_table "messages") Hready);
        [reflexivity|]. simpl. by rewrite Hnone.
  - intros Hnone. split; intros.
    + unfold get_session_state, bind. rewrite Hres.
      rewrite (fetch_one_rolls_back l _ w0 c w1 cn (no_such_table "sessions") Hready);
        [reflexivity|]. simpl. by rewrite Hnone.
    + unfold set_session_state, bind. rewrite Hres.
      apply (execute_rolls_back l _ w0 c w1 cn _ Hready). simpl. by rewrite Hnone.
  - intros user_id limit Hsome Hout.
    unfold get_history, bind. rewrite Hres.
    rewrite (fetch_all_rolls_back l _ w0 c w1 cn
               (OverflowError "Python int too large to convert to SQLite INTEGER")
               Hready); [reflexivity|].
    simpl. destruct (messages (view w1 cn)); [|congruence].
    unfold bind_int.
    destruct (Z.leb_spec (- 2 ^ 63) limit), (Z.ltb_spec limit (2 ^ 63));
      simpl; try reflexivity.
    exfalso. apply Hout. lia.
Qed.

(** X18: while another open connection has a write pending on the
    file, the backend's connection cannot take the write lock: a call
    that has to write, [save_message], [set_session_state], or
    [init_db] when the messages table is missing, raises
    [OperationalError] "database is locked", persists nothing and
    leaves the lock with its holder, the backend keeping its connection
    open with no transaction; a call that only reads, [get_history],
    is not locked out and returns what the file holds. *)
Theorem pending_write_locks_out_other_writers
    (db_path provider : option string)
    (w w0 w1 : World) (l : loc) (c : conn) (cn : Connection) :
  _resolve_provider db_path provider w = (Ok l, w0) ->
  backend_ready l w0 c w1 cn ->
  c_txn cn = None ->
  database_is_locked c (c_path cn) w1 = true ->
  let failed := after_failure c cn w1 in
  files failed = files w1 /\
  database_is_locked c (c_path cn) failed = true /\
  connected_to l c cn failed /\
  (forall tbl, messages (view w1 cn) = Some tbl ->
     (forall user_id role content,
        save_message user_id role content db_path provider w
        = (Raise (OperationalError "database is locked"), failed)) /\
     (forall user_id limit, - 2 ^ 63 <= limit < 2 ^ 63 ->
        fst (get_history user_id limit db_path provider w)
        = Ok (map history_dict (history_rows user_id limit tbl)))) /\
  (forall tbl, sessions (view w1 cn) = Some tbl ->
     forall user_id state incident_type emotion,
       set_session_state user_id state incident_type emotion db_path provider w
       = (Raise (OperationalError "database is locked"), failed)) /\
  (messages (view w1 cn) = None ->
     init_db db_path provider w
     = (Raise (OperationalError "database is locked"), failed)).
Proof.
  intros Hres Hready Htxn Hlocked failed.
  assert (Hwrite : forall q, is_dml q || creates_table q (view w1 cn) = true ->
                             blocked c cn q w1 = true).
  { intros q Hq. unfold blocked, takes_write_lock. rewrite Hq, Htxn, Hlocked. reflexivity. }
  split; [reflexivity|].
  split; [subst failed; by rewrite database_is_locked_after_failure|].
  split.
  { pose proof (connected_after_failure l c cn w0 w1 Hready) as H.
    by rewrite (without_txn_id cn Htxn) in H. }
  split; [|split].
  - intros tbl Htbl. split.
    + intros user_id role content. unfold save_message, bind. rewrite Hres.
      eapply execute_locked_out; [exact Hready | | by apply Hwrite].
      simpl. rewrite Htbl. reflexivity.
    + intros user_id limit Hlimit.
      by rewrite (get_history_on_ready user_id limit _ _ _ _ _ _ _ _ _ Hres Hready Htbl Hlimit).
  - intros tbl Htbl user_id state incident_type emotion.
    unfold set_session_state, bind. rewrite Hres.
    eapply execute_locked_out; [exact Hready | | by apply Hwrite].
    simpl. rewrite Htbl. reflexivity.
  - intros Hnone. unfold init_db, bind. rewrite Hres.
    rewrite (execute_locked_out l CREATE_messages w0 c w1 cn [] (with_messages (view w1 cn))
               Hready (run_CREATE_messages _ _)); [reflexivity|].
    apply Hwrite. simpl. by rewrite Hnone.
Qed.

(** ** A backend that cannot be opened *)

Lemma get_connection_unreachable {A} l (body : conn -> M A) w p e :
  heap w !! l = Some (SQLite p) ->
  SQLiteProvider._connection p = None ->
  sqlite3_open (SQLiteProvider.db_path p) (fs w) = Raise e ->
  SQLiteProvider_get_connection l body w = (Raise e, w).
Proof.
  intros Hl Hc Hopen. unfold SQLiteProvider_get_connection, bind.
  by rewrite (connect_raises l w p e Hl Hc Hopen).
Qed.

(** X10: when the resolved SQLite backend has no connection and its
    file cannot be opened, every chat-store operation raises the error
    of the open attempt; no statement is run, nothing is rolled back
    or written, and the backend stays without a connection: the world
    is the one resolution left. *)
Theorem unreachable_backend_raises_open_error
    (db_path provider : option string) (w w0 : World) (l : loc)
    (p : SQLiteProvider.t) (e : exn) :
  _resolve_provider db_path provider w = (Ok l, w0) ->
  heap w0 !! l = Some (SQLite p) ->
  SQLiteProvider._connection p = None ->
  sqlite3_open (SQLiteProvider.db_path p) (fs w0) = Raise e ->
  init_db db_path provider w = (Raise e, w0) /\
  (forall user_id role content,
     save_message user_id role content db_path provider w = (Raise e, w0)) /\
  (forall user_id limit,
     get_history user_id limit db_path provider w = (Raise e, w0)) /\
  (forall user_id,
     get_session_state user_id db_path provider w = (Raise e, w0)) /\
  (forall user_id state incident_type emotion,
     set_session_state user_id state incident_type emotion db_path provider w
     = (Raise e, w0)).
Proof.
  intros Hres Hl Hc Hopen.
  assert (Hx : forall q, execute l q w0 = (Raise e, w0)).
  { intros q. unfold execute, get_obj, bind at 1. rewrite Hl.
    by apply get_connection_unreachable with p. }
  assert (H1 : forall q, fetch_one l q w0 = (Raise e, w0)).
  { intros q. unfold fetch_one, get_obj, bind at 1. rewrite Hl.
    by apply get_connection_unreachable with p. }
  assert (Ha : forall q, fetch_all l q w0 = (Raise e, w0)).
  { intros q. unfold fetch_all, get_obj, bind at 1. rewrite Hl.
    by apply get_connection_unreachable with p. }
  repeat split; intros.
  - unfold init_db, bind. by rewrite Hres, Hx.
  - unfold save_message, bind. by rewrite Hres, Hx.
  - unfold get_history, bind. by rewrite Hres, Ha.
  - unfold get_session_state, bind. by rewrite Hres, H1.
  - unfold set_session_state, bind. by rewrite Hres, Hx.
Qed.

(** ** The provider as a context manager *)

(** [__enter__]: connect, and return the provider itself. *)
Definition SQLiteProvider__enter__ (self : loc) : M loc :=
  SQLiteProvider_connect self ;; ret self.

(** [__exit__]: close.  It returns [None], so an exception of the block
    is not suppressed. *)
Definition SQLiteProvider__exit__ (self : loc) : M unit :=
  SQLiteProvider_close self.

(** [with provider as p: body]: [__exit__] runs when the block returns
    and when it raises, whatever the class of the exception. *)
Definition with_SQLiteProvider {A} (self : loc) (body : loc -> M A) : M A :=
  p <- SQLiteProvider__enter__ self ;;
  fun w => match body p w with
           | (Ok a, w') => (SQLiteProvider__exit__ self ;; ret a) w'
           | (Raise e, w') => (SQLiteProvider__exit__ self ;; raise e) w'
           end.

Definition closed_connection (cn : Connection) : Connection :=
  {| c_path := c_path cn; c_closed := true; c_foreign_keys := c_foreign_keys cn;
     c_txn := None |}.

Lemma close_connected l w p c cn :
  heap w !! l = Some (SQLite p) ->
  SQLiteProvider._connection p = Some c ->
  connections w !! c = Some cn ->
  SQLiteProvider_close l w
  = (Ok tt,
     {| _PROVIDERS := _PROVIDERS w; _DEFAULT_PROVIDER := _DEFAULT_PROVIDER w;
        heap := <[l := SQLite (disconnected p)]> (heap w);
        connections := <[c := closed_connection cn]> (connections w);
        files := files w; fs := fs w; clock := clock w |}).
Proof.
  intros Hl Hc Hcn. unfold SQLiteProvider_close, get_sqlite, conn_close. unfold_M.
  rewrite Hl. simpl. rewrite Hc, Hcn. reflexivity.
Qed.

(** X11: used as a context manager, the SQLite provider connects on
    entry and closes on exit whether the block returns or raises: the
    outcome of the block, value or exception of any class, is the
    outcome of the [with] statement; afterwards the provider has no
    connection and the connection it had is closed; leaving the block
    commits nothing, so a transaction the block left pending is lost. *)
Theorem with_provider_closes_on_exit {A : Type}
    (l : loc) (body : loc -> M A) (w w1 w2 : World) (c : conn)
    (r : result A) (cn : Connection) :
  SQLiteProvider_connect l w = (Ok c, w1) ->
  body l w1 = (r, w2) ->
  heap w2 !! l = heap w1 !! l ->
  connections w2 !! c = Some cn ->
  let out := with_SQLiteProvider l body w in
  fst out = r /\
  files (snd out) = files w2 /\
  (exists p, heap (snd out) !! l = Some (SQLite p) /\
             SQLiteProvider._connection p = None) /\
  connections (snd out) !! c = Some (closed_connection cn) /\
  file_db (snd out) (c_path cn) = file_db w2 (c_path cn).
Proof.
  intros Hconn Hbody Hheap Hcn out.
  destruct (connect_Ok_inv l w c w1 Hconn) as (p & Hl & Hpc & _).
  rewrite <- Hheap in Hl.
  pose proof (close_connected l w2 p c cn Hl Hpc Hcn) as Hclose.
  match type of Hclose with _ = (_, ?x) => set (final := x) in * end.
  assert (Hout : with_SQLiteProvider l body w = (r, final)).
  { unfold with_SQLiteProvider, SQLiteProvider__enter__, SQLiteProvider__exit__.
    unfold bind at 1 2. rewrite Hconn. unfold ret at 1. rewrite Hbody.
    destruct r as [a|e]; unfold bind, ret, raise; by rewrite Hclose. }
  subst out. rewrite Hout. subst final. simpl.
  split; [reflexivity|]. split; [reflexivity|].
  split; [exists (disconnected p); by rewrite lookup_insert_eq|].
  split; [by rewrite lookup_insert_eq | reflexivity].
Qed.

(** X12: [close()] loses no committed data and the backend stays
    usable: after closing a connected SQLite provider whose file can be
    opened, the next query opens a new connection, different from the
    closed one, and runs on what the file holds; the provider then
    holds that new connection.  The closed connection holds no lock;
    a query that writes needs the file free of other connections'
    pending writes. *)
Theorem closed_provider_reconnects_on_next_use
    (l : loc) (q : Statement) (w : World) (p : SQLiteProvider.t) (c : conn)
    (cn : Connection) (fs' : FS) (rows : list pytuple) (db' : Database) :
  heap w !! l = Some (SQLite p) ->
  SQLiteProvider._connection p = Some c ->
  connections w !! c = Some cn ->
  sqlite3_open (SQLiteProvider.db_path p) (fs w) = Ok fs' ->
  run_statement q (strftime_now (clock w)) (file_db w (SQLiteProvider.db_path p))
    = Ok (rows, db') ->
  (is_dml q || creates_table q (file_db w (SQLiteProvider.db_path p)) = true ->
   database_is_locked c (SQLiteProvider.db_path p) w = false) ->
  exists wc w' c',
    SQLiteProvider_close l w = (Ok tt, wc) /\
    files wc = files w /\
    fetch_all l q wc = (Ok rows, w') /\
    c' <> c /\
    connected_to l c' (open_connection (SQLiteProvider.db_path p)) w' /\
    connections w' !! c = Some (closed_connection cn) /\
    file_db w' (SQLiteProvider.db_path p) = db'.
Proof.
  intros Hl Hc Hcn Hopen Hrun Hfree.
  pose proof (close_connected l w p c cn Hl Hc Hcn) as Hclose.
  match type of Hclose with _ = (_, ?x) => set (wc := x) in * end.
  assert (Hlc : heap wc !! l = Some (SQLite (disconnected p))).
  { subst wc. simpl. by rewrite lookup_insert_eq. }
  pose proof (connect_first l wc (disconnected p) fs' Hlc eq_refl Hopen) as Hconn.
  cbv zeta in Hconn.
  set (c' := fresh (dom (connections wc))) in *.
  match type of Hconn with _ = (_, ?x) => set (w1 := x) in * end.
  assert (Hfresh : connections wc !! c' = None) by apply fresh_conn_unused.
  assert (Hne : c' <> c).
  { intros ->. subst wc. simpl in Hfresh. by rewrite lookup_insert_eq in Hfresh. }
  assert (Hready : backend_ready l wc c' w1
                     (open_connection (SQLiteProvider.db_path p))).
  { split; [exact Hconn|]. subst w1. simpl. rewrite lookup_insert_eq. by split. }
  assert (Hrun1 : run_statement q (strftime_now (clock w1))
                    (view w1 (open_connection (SQLiteProvider.db_path p)))
                  = Ok (rows, db')) by exact Hrun.
  assert (Hfree1 : blocked c' (open_connection (SQLiteProvider.db_path p)) q w1 = false).
  { unfold blocked, takes_write_lock.
    change (view w1 (open_connection (SQLiteProvider.db_path p)))
      with (file_db w (SQLiteProvider.db_path p)).
    destruct (is_dml q || creates_table q (file_db w (SQLiteProvider.db_path p)));
      [|reflexivity].
    specialize (Hfree eq_refl). simpl.
    apply database_is_locked_false. intros c2 cn2 Hl2 Hne2.
    subst w1 wc. simpl in Hl2. rewrite lookup_insert_ne in Hl2 by done.
    destruct (decide (c2 = c)) as [->|Hne3].
    - rewrite lookup_insert_eq in Hl2. injection Hl2 as <-.
      unfold holds_write_lock. simpl. by rewrite andb_false_r.
    - rewrite lookup_insert_ne in Hl2 by done.
      by apply (proj1 (database_is_locked_false c _ w) Hfree c2 cn2). }
  exists wc, (after_statement c' (open_connection (SQLiteProvider.db_path p)) db' w1), c'.
  split; [exact Hclose|]. split; [reflexivity|].
  split; [exact (fetch_all_commits l q wc c' w1 _ rows db' Hready Hrun1 Hfree1)|].
  split; [exact Hne|].
  split.
  { apply (connected_after_statement l c' _ db' wc w1 Hready). }
  split.
  - simpl. rewrite lookup_insert_ne by done. rewrite lookup_insert_ne by done.
    by rewrite lookup_insert_eq.
  - unfold file_db. simpl. by rewrite lookup_insert_eq.
Qed.

(** ** One connection, opened on first use *)

Lemma dom_insert_present (m : gmap conn Connection) c x y :
  m !! c = Some x -> dom (<[c := y]> m) = dom m.
Proof. intros H. apply dom_insert_lookup_L. eauto. Qed.

(** X13: the connection of a SQLite provider is opened by its first
    query and kept.  Resolving, registering, choosing a default and the
    factory open no connection.  A query on a provider without a
    connection, whose file can be opened, creates exactly one
    connection object and leaves it with the provider.  A query on a
    provider that holds a live connection, whether it returns or
    raises, creates none and leaves the same connection with the
    provider, open and without a pending transaction. *)
Theorem connection_is_opened_once_and_kept :
  (forall w,
     (forall db_path provider,
        connections (snd (_resolve_provider db_path provider w)) = connections w) /\
     (forall name provider make_default,
        connections (snd (register_provider name provider make_default w))
        = connections w) /\
     (forall name, connections (snd (set_default_provider name w)) = connections w) /\
     (forall config,
        connections (snd (create_provider_from_config config w)) = connections w)) /\
  (forall l q w p fs',
     heap w !! l = Some (SQLite p) ->
     SQLiteProvider._connection p = None ->
     sqlite3_open (SQLiteProvider.db_path p) (fs w) = Ok fs' ->
     exists c,
       connections w !! c = None /\
       dom (connections (snd (fetch_all l q w))) = {[c]} ∪ dom (connections w) /\
       connected_to l c (open_connection (SQLiteProvider.db_path p))
         (snd (fetch_all l q w))) /\
  (forall l q w c cn,
     connected_to l c cn w ->
     dom (connections (snd (fetch_all l q w))) = dom (connections w) /\
     connected_to l c (without_txn cn) (snd (fetch_all l q w))).
Proof.
  split; [|split].
  - intros w. split; [|split; [|split]].
    + intros db_path provider. unfold _resolve_provider.
      destruct (truthy db_path).
      * unfold create_sqlite_provider, new_SQLiteProvider, SQLiteProvider__init__.
        unfold_M. destruct (os_makedirs _ _); reflexivity.
      * destruct (truthy provider).
        -- destruct (_PROVIDERS w !! default "" provider); reflexivity.
        -- destruct (_PROVIDERS w !! _DEFAULT_PROVIDER w); reflexivity.
    + intros name provider [|]; unfold register_provider, set_default_provider;
        unfold_M; simpl; [rewrite lookup_insert_eq|]; reflexivity.
    + intros name. unfold set_default_provider.
      destruct (_PROVIDERS w !! name); reflexivity.
    + intros config. unfold create_provider_from_config.
      repeat match goal with
             | |- context [if ?b then _ else _] => destruct b
             | |- context [subscript _ ?o] => destruct o; simpl
             end;
        try reflexivity;
        unfold new_SQLiteProvider, SQLiteProvider__init__, subscript; unfold_M;
        repeat match goal with
               | |- context [if ?b then _ else _] => destruct b
               | |- context [os_makedirs ?a ?b] => destruct (os_makedirs a b)
               end; reflexivity.
  - intros l q w p fs' Hl Hc Hopen.
    pose proof (connect_first l w p fs' Hl Hc Hopen) as Hconn. cbv zeta in Hconn.
    set (c := fresh (dom (connections w))) in *.
    match type of Hconn with _ = (_, ?x) => set (w1 := x) in * end.
    assert (Hready : backend_ready l w c w1 (open_connection (SQLiteProvider.db_path p))).
    { split; [exact Hconn|]. subst w1. simpl. rewrite lookup_insert_eq. by split. }
    exists c. split; [apply fresh_conn_unused|].
    destruct (run_statement q (strftime_now (clock w1))
                (view w1 (open_connection (SQLiteProvider.db_path p))))
      as [[rows db']|e] eqn:Hrun.
    + destruct (blocked c (open_connection (SQLiteProvider.db_path p)) q w1) eqn:Hb.
      * rewrite (fetch_all_locked_out l q w c w1 _ rows db' Hready Hrun Hb). simpl. split.
        -- rewrite insert_insert_eq. apply dom_insert_L.
        -- apply (connected_after_failure l c _ w w1 Hready).
      * rewrite (fetch_all_commits l q w c w1 _ rows db' Hready Hrun Hb). simpl. split.
        -- rewrite insert_insert_eq. apply dom_insert_L.
        -- apply (connected_after_statement l c _ db' w w1 Hready).
    + rewrite (fetch_all_rolls_back l q w c w1 _ e Hready Hrun). simpl. split.
      * rewrite insert_insert_eq. apply dom_insert_L.
      * apply (connected_after_failure l c _ w w1 Hready).
  - intros l q w c cn Hconn.
    pose proof (connected_to_ready l c cn w Hconn) as Hready.
    destruct Hconn as (_ & Hcn & _).
    destruct (run_statement q (strftime_now (clock w)) (view w cn))
      as [[rows db']|e] eqn:Hrun.
    + destruct (blocked c cn q w) eqn:Hb.
      * rewrite (fetch_all_locked_out l q w c w cn rows db' Hready Hrun Hb). simpl. split.
        -- by eapply dom_insert_present.
        -- apply (connected_after_failure l c cn w w Hready).
      * rewrite (fetch_all_commits l q w c w cn rows db' Hready Hrun Hb). simpl. split.
        -- by eapply dom_insert_present.
        -- apply (connected_after_statement l c cn db' w w Hready).
    + rewrite (fetch_all_rolls_back l q w c w cn e Hready Hrun). simpl. split.
      * by eapply dom_insert_present.
      * apply (connected_after_failure l c cn w w Hready).
Qed.

(** ** Calls with an explicit path *)

Definition fresh_provider (p : string) : SQLiteProvider.t :=
  {| SQLiteProvider.db_path := p; SQLiteProvider._connection := None |}.

(** Resolution by a non-empty path, followed by the first [connect()]. *)
Lemma path_backend_ready p provider w fs1 fs2 :
  p <> "" ->
  os_makedirs (os_path_dirname p) (fs w) = Ok fs1 ->
  sqlite3_open p fs1 = Ok fs2 ->
  let l := fresh (dom (heap w)) in
  let c := fresh (dom (connections w)) in
  let w0 := set_heap (<[l := SQLite (fresh_provider p)]> (heap w)) (set_fs fs1 w) in
  let w1 := {| _PROVIDERS := _PROVIDERS w; _DEFAULT_PROVIDER := _DEFAULT_PROVIDER w;
               heap := <[l := SQLite (connected (fresh_provider p) c)]> (heap w0);
               connections := <[c := open_connection p]> (connections w);
               files := files w; fs := fs2; clock := clock w |} in
  _resolve_provider (Some p) provider w = (Ok l, w0) /\
  backend_ready l w0 c w1 (open_connection p) /\
  view w1 (open_connection p) = file_db w p.
Proof.
  intros Hp Hmk Hopen l c w0 w1.
  assert (Hres : _resolve_provider (Some p) provider w = (Ok l, w0)).
  { unfold _resolve_provider. rewrite (truthy_Some p Hp).
    unfold create_sqlite_provider, new_SQLiteProvider, SQLiteProvider__init__.
    unfold_M. simpl. rewrite Hmk. reflexivity. }
  split; [exact Hres|].
  assert (Hl : heap w0 !! l = Some (SQLite (fresh_provider p))).
  { subst w0. simpl. by rewrite lookup_insert_eq. }
  pose proof (connect_first l w0 (fresh_provider p) fs2 Hl eq_refl Hopen) as Hconn.
  split; [|reflexivity].
  split; [exact Hconn|]. subst w1. simpl. rewrite lookup_insert_eq. by split.
Qed.

(** X14: calls that name the same non-empty path share the database
    file although each constructs its own provider and connection: in
    an environment where the directory of the path can be created and
    the file opened, and when no connection has a pending write on the
    file, a message saved with [db_path=p] is returned by a later
    [get_history] with [db_path=p] (negative limit, no cap) together
    with the messages the file held before; the name argument plays no
    role, and neither call changes the registry or an existing
    provider object. *)
Theorem path_calls_share_the_file
    (p user_id role content : string) (limit : Z) (provider provider' : option string)
    (w : World) (tbl : list MessageRow) :
  p <> "" ->
  (forall x, is_Ok (os_makedirs (os_path_dirname p) x) = true) ->
  (forall x, is_Ok (sqlite3_open p x) = true) ->
  (forall c, database_is_locked c p w = false) ->
  messages (file_db w p) = Some tbl ->
  - 2 ^ 63 <= limit < 0 ->
  let row := {| m_id := messages_seq (file_db w p) + 1; m_user_id := user_id;
                m_role := role; m_content := content;
                m_created_at := strftime_now (clock w) |} in
  exists w' w'' rows,
    save_message user_id role content (Some p) provider w = (Ok tt, w') /\
    get_history user_id limit (Some p) provider' w' = (Ok (map history_dict rows), w'') /\
    rows ≡ₚ history_rows user_id limit tbl ++ [row] /\
    same_registry w w'' /\
    (forall l o, heap w !! l = Some o -> heap w'' !! l = Some o).
Proof.
  intros Hp Hmk Hopen Hfree Htbl Hlimit row.
  assert (Hmk' : forall x, exists x', os_makedirs (os_path_dirname p) x = Ok x').
  { intros x. specialize (Hmk x). destruct (os_makedirs _ x); [eauto | discriminate]. }
  assert (Hopen' : forall x, exists x', sqlite3_open p x = Ok x').
  { intros x. specialize (Hopen x). destruct (sqlite3_open p x); [eauto | discriminate]. }
  destruct (Hmk' (fs w)) as [fs1 Hmk1]. destruct (Hopen' fs1) as [fs2 Hopen2].
  destruct (path_backend_ready p provider w fs1 fs2 Hp Hmk1 Hopen2)
    as (Hres & Hready & Hview).
  cbv zeta in Hres, Hready, Hview.
  match type of Hready with backend_ready ?a _ ?b ?x _ =>
    set (w1 := x) in *; set (c1 := b) in *; set (l1 := a) in * end.
  assert (Htbl1 : messages (view w1 (open_connection p)) = Some tbl) by (by rewrite Hview).
  assert (Hfree1 : database_is_locked c1 (c_path (open_connection p)) w1 = false).
  { simpl. rewrite (database_is_locked_own c1 p w w1); [apply Hfree|].
    intros c' Hne. subst w1. simpl. by rewrite lookup_insert_ne. }
  pose proof (save_message_on_ready user_id role content _ _ _ _ _ _ _ _ _
                Hres Hready Hfree1 Htbl1) as Hsave.
  match type of Hsave with _ = (_, ?x) => set (w' := x) in * end.
  destruct (Hmk' (fs w')) as [fs3 Hmk3]. destruct (Hopen' fs3) as [fs4 Hopen4].
  destruct (path_backend_ready p provider' w' fs3 fs4 Hp Hmk3 Hopen4)
    as (Hres2 & Hready2 & Hview2).
  cbv zeta in Hres2, Hready2, Hview2.
  match type of Hready2 with backend_ready ?a _ ?b ?x _ =>
    set (w2 := x) in *; set (c2 := b) in *; set (l2 := a) in * end.
  assert (Hfile : file_db w' p
                  = {| messages := Some (tbl ++ [row]);
                       messages_seq := messages_seq (file_db w p) + 1;
                       sessions := sessions (file_db w p) |}).
  { subst w'. unfold file_db at 1. simpl. rewrite lookup_insert_eq. simpl.
    rewrite Hview. reflexivity. }
  assert (Htbl2 : messages (view w2 (open_connection p)) = Some (tbl ++ [row])).
  { rewrite Hview2, Hfile. reflexivity. }
  pose proof (get_history_on_ready user_id limit _ _ _ _ _ _ _ _ _
                Hres2 Hready2 Htbl2 ltac:(lia)) as Hget.
  eexists _, _, _. split; [exact Hsave|]. split; [exact Hget|].
  split; [apply history_rows_own_perm; [reflexivity | lia]|].
  split; [by split|].
  intros l o Hl. simpl.
  assert (Hne1 : l <> l1).
  { intros ->. subst l1. by rewrite fresh_loc_unused in Hl. }
  assert (Hl' : heap w' !! l = Some o).
  { subst w'. simpl. by rewrite !lookup_insert_ne. }
  assert (Hne2 : l <> l2).
  { intros ->. subst l2. by rewrite fresh_loc_unused in Hl'. }
  rewrite !lookup_insert_ne by done. exact Hl.
Qed.

(** ** Registering and listing *)

Lemma register_provider_world name provider make_default w :
  register_provider name provider make_default w
  = (Ok tt,
     {| _PROVIDERS := <[name := provider]> (_PROVIDERS w);
        _DEFAULT_PROVIDER := if make_default then name else _DEFAULT_PROVIDER w;
        heap := heap w; connections := connections w; files := files w;
        fs := fs w; clock := clock w |}).
Proof.
  unfold register_provider, set_default_provider. unfold_M.
  destruct make_default; simpl; [rewrite lookup_insert_eq|]; reflexivity.
Qed.

(** X15: what [register_provider] registers is what resolution by that
    name returns, whatever was registered under the name before; other
    names and, without [make_default], the default name are untouched;
    with [make_default] the provider is also what resolution without
    arguments returns; no provider object is touched.  A provider
    registered under the empty name is never found by name: resolution
    by the empty name is resolution of the default, which without
    [make_default] returns what was the default before. *)
Theorem registered_provider_is_resolved_by_name :
  (forall name provider make_default w,
     name <> "" ->
     let w1 := snd (register_provider name provider make_default w) in
     fst (register_provider name provider make_default w) = Ok tt /\
     _resolve_provider None (Some name) w1 = (Ok provider, w1) /\
     (forall other, other <> name -> _PROVIDERS w1 !! other = _PROVIDERS w !! other) /\
     (make_default = false -> _DEFAULT_PROVIDER w1 = _DEFAULT_PROVIDER w) /\
     (make_default = true -> _resolve_provider None None w1 = (Ok provider, w1)) /\
     heap w1 = heap w) /\
  (forall provider make_default w,
     let w1 := snd (register_provider "" provider make_default w) in
     _resolve_provider None (Some "") w1 = _resolve_provider None None w1 /\
     (make_default = true -> _resolve_provider None (Some "") w1 = (Ok provider, w1)) /\
     (make_default = false -> _DEFAULT_PROVIDER w <> "" ->
      forall l, _PROVIDERS w !! _DEFAULT_PROVIDER w = Some l ->
                _resolve_provider None (Some "") w1 = (Ok l, w1))).
Proof.
  split.
  - intros name provider make_default w Hname w1. subst w1.
    rewrite register_provider_world. simpl.
    split; [reflexivity|]. split.
    { unfold _resolve_provider. simpl.
      destruct (String.eqb_spec name ""); [contradiction|]. simpl.
      by rewrite lookup_insert_eq. }
    split; [intros other Hne; by rewrite lookup_insert_ne|].
    split; [by intros ->|].
    split; [|reflexivity].
    intros ->. unfold _resolve_provider. simpl. by rewrite lookup_insert_eq.
  - intros provider make_default w w1. subst w1.
    rewrite register_provider_world. simpl.
    split; [reflexivity|]. split.
    + intros ->. unfold _resolve_provider. simpl. by rewrite lookup_insert_eq.
    + intros -> Hne l Hl. unfold _resolve_provider. simpl.
      rewrite lookup_insert_ne by done. by rewrite Hl.
Qed.

(** X16: [list_providers] changes nothing and opens no connection; it
    returns one entry for each registered name and none for any other
    name, the entry being the connection info of the backend registered
    under the name: for a SQLite backend its type, its path and
    whether the path exists. *)
Theorem list_providers_describes_the_registry (w : World) :
  exists m,
    list_providers w = (Ok m, w) /\
    (forall name l o,
       _PROVIDERS w !! name = Some l -> heap w !! l = Some o ->
       m !! name = Some (connection_info_of o w)) /\
    (forall name l p,
       _PROVIDERS w !! name = Some l -> heap w !! l = Some (SQLite p) ->
       m !! name = Some [("type", PStr "sqlite");
                         ("db_path", PStr (SQLiteProvider.db_path p));
                         ("exists", PBool (os_path_exists (SQLiteProvider.db_path p)
                                             (fs w)))]) /\
    (forall name, _PROVIDERS w !! name = None -> m !! name = None) /\
    (registry_refs_live w -> dom m = dom (_PROVIDERS w)).
Proof.
  eexists. split; [reflexivity|].
  split.
  { intros name l o Hn Hl. rewrite lookup_omap, Hn. simpl. by rewrite Hl. }
  split.
  { intros name l p Hn Hl. rewrite lookup_omap, Hn. simpl. by rewrite Hl. }
  split.
  { intros name Hn. by rewrite lookup_omap, Hn. }
  intros Hlive. apply set_eq. intros name.
  rewrite !elem_of_dom, lookup_omap.
  destruct (_PROVIDERS w !! name) as [l|] eqn:Hn; simpl.
  - destruct (Hlive name l Hn) as [o Ho]. rewrite Ho. simpl. split; eauto.
  - split; intros [? ?]; discriminate.
Qed.

(** ** From import to the first message *)

Lemma module_init_world fs0 files0 fs1 :
  os_makedirs (os_path_dirname DEFAULT_DB_PATH) fs0 = Ok fs1 ->
  module_init (empty_world fs0 files0)
  = (Ok tt,
     {| _PROVIDERS := {["default" := fresh (dom (∅ : gmap loc DBProvider))]};
        _DEFAULT_PROVIDER := "default";
        heap := {[fresh (dom (∅ : gmap loc DBProvider))
                  := SQLite (fresh_provider DEFAULT_DB_PATH)]};
        connections := ∅; files := files0; fs := fs1; clock := 0%nat |}).
Proof.
  intros Hmk. unfold module_init, create_sqlite_provider, new_SQLiteProvider,
    SQLiteProvider__init__. unfold_M. simpl. rewrite Hmk. reflexivity.
Qed.

(** X17: importing the module creates no table.  On a first run, when
    the default database file does not exist yet or holds nothing, and
    if the data directory can be created and the file opened, a
    [save_message] without path or name raises [OperationalError] for
    the missing messages table, while [init_db()] returns the default
    path, after which [save_message] succeeds and [get_history] of the
    user (negative limit) returns exactly the saved message, with id 1
    and the clock reading of the third statement.  (On a file that an
    earlier run initialised the tables are found and [save_message]
    needs no [init_db].) *)
Theorem first_message_needs_init_db
    (user_id role content : string) (limit : Z) (fs0 fs1 : FS)
    (files0 : gmap string Database) :
  os_makedirs (os_path_dirname DEFAULT_DB_PATH) fs0 = Ok fs1 ->
  (forall x, is_Ok (sqlite3_open DEFAULT_DB_PATH x) = true) ->
  default empty_db (files0 !! DEFAULT_DB_PATH) = empty_db ->
  - 2 ^ 63 <= limit < 0 ->
  exists w0 w1 w2,
    module_init (empty_world fs0 files0) = (Ok tt, w0) /\
    fst (save_message user_id role content None None w0)
    = Raise (OperationalError "no such table: messages") /\
    init_db None None w0 = (Ok (PStr DEFAULT_DB_PATH), w1) /\
    save_message user_id role content None None w1 = (Ok tt, w2) /\
    fst (get_history user_id limit None None w2)
    = Ok [[("id", PInt 1); ("user_id", PStr user_id); ("role", PStr role);
           ("content", PStr content);
           ("created_at", PStr (strftime_now 2%nat))]].
Proof.
  intros Hmk Hopen Hfresh Hlimit.
  pose proof (module_init_world fs0 files0 fs1 Hmk) as Hinit.
  match type of Hinit with _ = (_, ?x) => set (w0 := x) in * end.
  set (l := fresh (dom (∅ : gmap loc DBProvider))) in *.
  assert (Hl : heap w0 !! l = Some (SQLite (fresh_provider DEFAULT_DB_PATH))).
  { subst w0. simpl. by rewrite lookup_singleton_eq. }
  assert (Hres : _resolve_provider None None w0 = (Ok l, w0)).
  { unfold _resolve_provider. simpl. by rewrite lookup_singleton_eq. }
  destruct (sqlite3_open DEFAULT_DB_PATH fs1) as [fs2|e] eqn:Hopen1.
  2:{ specialize (Hopen fs1). rewrite Hopen1 in Hopen. discriminate. }
  pose proof (connect_first l w0 (fresh_provider DEFAULT_DB_PATH) fs2 Hl eq_refl Hopen1)
    as Hconn.
  cbv zeta in Hconn.
  match type of Hconn with _ = (Ok ?a, ?x) => set (c := a) in *; set (wc := x) in * end.
  set (cn := open_connection DEFAULT_DB_PATH) in *.
  assert (Hready : backend_ready l w0 c wc cn).
  { split; [exact Hconn|]. subst wc. simpl. rewrite lookup_insert_eq. by split. }
  assert (Hview : view wc cn = empty_db) by exact Hfresh.
  assert (Hfree : database_is_locked c (c_path cn) wc = false).
  { apply only_connection_not_locked. intros c' Hne. subst wc. simpl.
    by rewrite lookup_insert_ne. }
  (* the call before init_db *)
  assert (Hfail : fst (save_message user_id role content None None w0)
                  = Raise (OperationalError "no such table: messages")).
  { unfold save_message, bind. rewrite Hres.
    rewrite (execute_rolls_back l _ w0 c wc cn (no_such_table "messages") Hready);
      [reflexivity|]. by rewrite Hview. }
  (* init_db *)
  destruct (init_db_on_ready None None w0 l w0 c wc cn Hres Hready (fun _ => Hfree))
    as (p & Hp & Hinitdb).
  assert (p = connected (fresh_provider DEFAULT_DB_PATH) c) as ->.
  { assert (Hp' : heap wc !! l
                  = Some (SQLite (connected (fresh_provider DEFAULT_DB_PATH) c)))
      by (unfold wc; simpl; apply lookup_insert_eq).
    rewrite Hp' in Hp. by injection Hp. }
  simpl in Hinitdb.
  set (wA := after_statement c cn (with_messages (view wc cn)) wc) in *.
  match type of Hinitdb with _ = (_, ?x) => set (w1 := x) in * end.
  assert (HreadyA : backend_ready l wA c wA (without_txn cn)).
  { apply connected_to_ready. eapply connected_after_statement. exact Hready. }
  assert (HresA : _resolve_provider None None wA = (Ok l, wA)).
  { unfold _resolve_provider. simpl. by rewrite lookup_singleton_eq. }
  destruct (next_call_ready None None wA l wA c wA (without_txn cn)
              (with_tables (view wc cn)) eq_refl HresA HreadyA)
    as (Hres1 & Hready1 & Hview1).
  fold w1 in Hres1, Hready1, Hview1.
  assert (Htbl1 : messages (view w1 (without_txn (without_txn cn))) = Some []).
  { by rewrite Hview1, Hview. }
  assert (Hfree1 : database_is_locked c (c_path (without_txn (without_txn cn))) w1 = false).
  { subst w1 wA. by rewrite !database_is_locked_after_statement. }
  pose proof (save_message_on_ready user_id role content None None w1 l w1 c w1 _ []
                Hres1 Hready1 Hfree1 Htbl1) as Hsave.
  match type of Hsave with _ = (_, after_statement _ _ ?db _) => set (db2 := db) in * end.
  destruct (next_call_ready None None w1 l w1 c w1 _ db2 eq_refl Hres1 Hready1)
    as (Hres2 & Hready2 & Hview2).
  assert (Htbl2 : messages (view (after_statement c (without_txn (without_txn cn)) db2 w1)
                              (without_txn (without_txn (without_txn cn))))
                  = Some [new_message (view w1 (without_txn (without_txn cn)))
                            user_id role content (strftime_now (clock w1))]).
  { by rewrite Hview2. }
  pose proof (get_history_on_ready user_id limit None None _ l _ c _ _ _
                Hres2 Hready2 Htbl2 ltac:(lia)) as Hget.
  exists w0, w1, (after_statement c (without_txn (without_txn cn)) db2 w1).
  split; [exact Hinit|]. split; [exact Hfail|]. split; [exact Hinitdb|].
  split; [exact Hsave|].
  rewrite Hget. simpl. unfold history_rows, sql_limit.
  destruct (Z.ltb_spec limit 0); [|lia].
  rewrite filter_cons_True by (unfold user_is; simpl; apply String.eqb_refl).
  simpl. rewrite Hview1, Hview. reflexivity.
Qed.

End Program.

(** * A concrete environment

    A file system in which every named directory can be created and
    every database file opened, for running the code on examples: the
    state is the list of paths that exist. *)

Module Posix.

(** The part of a path up to and including its last slash. *)
Fixpoint up_to_last_slash (s : string) : option string :=
  match s with
  | EmptyString => None
  | String a s' =>
      match up_to_last_slash s' with
      | Some h => Some (String a h)
      | None => if Ascii.eqb a "/" then Some (String a EmptyString) else None
      end
  end.

Fixpoint rstrip_slashes (s : string) : string :=
  match s with
  | EmptyString => EmptyString
  | String a s' =>
      match rstrip_slashes s' with
      | EmptyString => if Ascii.eqb a "/" then EmptyString else String a EmptyString
      | r => String a r
      end
  end.

(** [posixpath.dirname] *)
Definition os_path_dirname (p : string) : string :=
  let head := default "" (up_to_last_slash p) in
  match rstrip_slashes head with
  | EmptyString => head
  | r => r
  end.

(** [os.makedirs(d, exist_ok=True)]: the empty path cannot be created. *)
Definition os_makedirs (d : string) (fs : list string) : result (list string) :=
  if String.eqb d "" then Raise (OSError "[Errno 2] No such file or directory: ''")
  else Ok (d :: fs).

Definition os_path_exists (p : string) (fs : list string) : bool :=
  existsb (String.eqb p) fs.

Definition sqlite3_open (p : string) (fs : list string) : result (list string) :=
  Ok (p :: fs).

(** Clock readings: statements 0 and 1, and statements 2 and 3, fall
    in the same millisecond. *)
Definition strftime_now (n : nat) : string :=
  match n with
  | 0%nat | 1%nat => "2024-05-01 10:00:00.000"
  | 2%nat | 3%nat => "2024-05-01 10:00:00.250"
  | 4%nat => "2024-05-01 10:00:01.000"
  | _ => "2024-05-01 10:00:02.000"
  end.

Definition DEFAULT_DB_PATH : string := "data/chat_history.db".

End Posix.

#[local] Abbreviation px_module_init :=
  (module_init Posix.os_path_dirname Posix.os_makedirs Posix.DEFAULT_DB_PATH).
#[local] Abbreviation px_resolve :=
  (_resolve_provider Posix.os_path_dirname Posix.os_makedirs).
#[local] Abbreviation px_init_db :=
  (init_db Posix.os_path_dirname Posix.os_makedirs Posix.os_path_exists
     Posix.sqlite3_open Posix.strftime_now (fun _ => "")).
#[local] Abbreviation px_save_message :=
  (save_message Posix.os_path_dirname Posix.os_makedirs Posix.sqlite3_open
     Posix.strftime_now).
#[local] Abbreviation px_get_history :=
  (get_history Posix.os_path_dirname Posix.os_makedirs Posix.sqlite3_open
     Posix.strftime_now).
#[local] Abbreviation px_get_session_state :=
  (get_session_state Posix.os_path_dirname Posix.os_makedirs Posix.sqlite3_open
     Posix.strftime_now).
#[local] Abbreviation px_set_session_state :=
  (set_session_state Posix.os_path_dirname Posix.os_makedirs Posix.sqlite3_open
     Posix.strftime_now).
#[local] Abbreviation px_get_connection :=
  (SQLiteProvider_get_connection Posix.sqlite3_open).
#[local] Abbreviation px_cursor_execute := (cursor_execute Posix.strftime_now).
#[local] Abbreviation px_factory :=
  (create_provider_from_config Posix.os_path_dirname Posix.os_makedirs).

(** The world after the module body has run. *)
Definition world_booted : World := snd (px_module_init (empty_world [] ∅)).

(** ... after [init_db()] on the default backend. *)
Definition world_initialised : World := snd (px_init_db None None world_booted).

(** ... after two messages of user ["u"], saved in the same millisecond,
    and one of user ["v"]. *)
Definition world_with_messages : World :=
  snd (px_save_message "v" "user" "hey" None None
    (snd (px_save_message "u" "assistant" "hello" None None
      (snd (px_save_message "u" "user" "hi" None None world_initialised))))).

(** ... after [set_session_state("u", state="charged", emotion="angry")]. *)
Definition world_with_session : World :=
  snd (px_set_session_state "u" (Some "charged") None (Some "angry") None None
         world_initialised).

Example world_booted_has_default :
  _PROVIDERS world_booted !! "default" = Some 0%nat /\
  heap world_booted !! 0%nat
  = Some (SQLite {| SQLiteProvider.db_path := "data/chat_history.db";
                    SQLiteProvider._connection := None |}).
Proof. split; vm_compute; reflexivity. Qed.

Example world_with_messages_table :
  messages (file_db world_with_messages "data/chat_history.db")
  = Some [ {| m_id := 1; m_user_id := "u"; m_role := "user"; m_content := "hi";
              m_created_at := "2024-05-01 10:00:00.250" |};
           {| m_id := 2; m_user_id := "u"; m_role := "assistant"; m_content := "hello";
              m_created_at := "2024-05-01 10:00:00.250" |};
           {| m_id := 3; m_user_id := "v"; m_role := "user"; m_content := "hey";
              m_created_at := "2024-05-01 10:00:01.000" |} ].
Proof. vm_compute. reflexivity. Qed.

(** ** Provider resolution on examples *)

(** C1 as stated fails on empty strings: with the explicit path [""] and
    the name ["default"] the registered backend is returned, not the
    outcome of constructing a backend on the path; and the explicit
    name [""], which is not registered, does not raise. *)
Lemma resolve_provider_empty_path_counterexample :
  _PROVIDERS world_booted !! "default" = Some 0%nat /\
  px_resolve (Some "") (Some "default") world_booted = (Ok 0%nat, world_booted) /\
  px_resolve (Some "") (Some "default") world_booted
    <> new_SQLiteProvider Posix.os_path_dirname Posix.os_makedirs "" true world_booted /\
  _PROVIDERS world_booted !! "" = None /\
  px_resolve None (Some "") world_booted = (Ok 0%nat, world_booted).
Proof.
  repeat split; try (vm_compute; reflexivity).
  vm_compute. intros H. discriminate H.
Qed.

Lemma resolve_provider_precedence_witness :
  exists l w',
    px_resolve (Some "logs/t.db") (Some "default") world_booted = (Ok l, w') /\
    heap world_booted !! l = None /\
    _PROVIDERS w' = _PROVIDERS world_booted.
Proof.
  pose proof (proj1 (resolve_provider_precedence Posix.os_path_dirname Posix.os_makedirs)
                "logs/t.db" (Some "default") world_booted ltac:(discriminate)) as H.
  cbv zeta in H. destruct H as (_ & Hreg & _ & H).
  change (Posix.os_makedirs (Posix.os_path_dirname "logs/t.db") (fs world_booted))
    with (@Ok (list string) ["logs"; "data"]) in H.
  destruct H as (l & Hl & Hfresh & _).
  exists l. eexists. split; [exact Hl|]. split; [exact Hfresh|].
  rewrite Hl in Hreg. exact Hreg.
Defined.

(** The world after the module body, with a second backend registered
    under ["archive"] and a third under the empty name; the default is
    still ["default"]. *)
Definition world_with_archive : World :=
  snd (register_provider "" 2%nat false
    (snd (register_provider "archive" 1%nat false
      (snd (new_SQLiteProvider Posix.os_path_dirname Posix.os_makedirs "old/empty.db" true
        (snd (new_SQLiteProvider Posix.os_path_dirname Posix.os_makedirs
                "old/archive.db" true world_booted))))))).

(** With the empty path, the name ["archive"] yields the backend
    registered under it, not the default one and not a new one; an
    unregistered name raises for that name; the empty name yields the
    default backend although a backend is registered under it. *)
Lemma resolve_provider_empty_strings_witness :
  _PROVIDERS world_with_archive !! "archive" = Some 1%nat /\
  _PROVIDERS world_with_archive !! "" = Some 2%nat /\
  _PROVIDERS world_with_archive !! _DEFAULT_PROVIDER world_with_archive = Some 0%nat /\
  px_resolve (Some "") (Some "archive") world_with_archive = (Ok 1%nat, world_with_archive) /\
  px_resolve (Some "") (Some "missing") world_with_archive
    = (Raise (KeyError "Provider not registered: missing"), world_with_archive) /\
  px_resolve (Some "") (Some "") world_with_archive = (Ok 0%nat, world_with_archive) /\
  px_resolve None (Some "") world_with_archive = (Ok 0%nat, world_with_archive).
Proof.
  destruct (resolve_provider_empty_strings_are_absent
              Posix.os_path_dirname Posix.os_makedirs) as (_ & Hname & _ & Hdefault).
  split; [vm_compute; reflexivity|]. split; [vm_compute; reflexivity|].
  split; [vm_compute; reflexivity|].
  split.
  { rewrite (Hname "archive" world_with_archive) by discriminate. vm_compute. reflexivity. }
  split.
  { rewrite (Hname "missing" world_with_archive) by discriminate. vm_compute. reflexivity. }
  split.
  - destruct (Hdefault (Some "") world_with_archive eq_refl) as [-> _].
    vm_compute. reflexivity.
  - destruct (Hdefault None world_with_archive eq_refl) as [-> _].
    vm_compute. reflexivity.
Defined.

(** ** The registry on examples *)

Lemma registry_default_always_registered_witness :
  default_registered
    (run_registry_ops Posix.os_path_dirname Posix.os_makedirs Posix.os_path_exists
       [Register "test" 0%nat true; SetDefault "missing"; Resolve (Some "logs/t.db") None;
        ListProviders; GetDefault]
       world_booted) /\
  _DEFAULT_PROVIDER
    (run_registry_ops Posix.os_path_dirname Posix.os_makedirs Posix.os_path_exists
       [Register "test" 0%nat true; SetDefault "missing"] world_booted) = "test".
Proof.
  split; [|vm_compute; reflexivity].
  apply (proj2 (proj2 (proj2 (registry_default_always_registered
           Posix.os_path_dirname Posix.os_makedirs Posix.os_path_exists
           Posix.DEFAULT_DB_PATH))) [] ∅ world_booted).
  vm_compute. reflexivity.
Defined.

(** ** The factory on examples *)

Definition config_without_path : Config :=
  {| cfg_type := Some "sqlite"; cfg_db_path := None; cfg_auto_create_dir := None;
     cfg_host := None; cfg_port := None; cfg_database := None; cfg_user := None;
     cfg_password := None |}.

Definition config_postgresql : Config :=
  {| cfg_type := Some "PostgreSQL"; cfg_db_path := None; cfg_auto_create_dir := None;
     cfg_host := Some "db.local"; cfg_port := None; cfg_database := Some "chat";
     cfg_user := Some "app"; cfg_password := Some "secret" |}.

(** C8 as stated fails on a configuration of type ["sqlite"] that has no
    ["db_path"]: no backend is constructed, and the error is neither
    [ValueError] nor a failure of a constructor. *)
Lemma factory_missing_key_counterexample :
  lower (default "" (cfg_type config_without_path)) = "sqlite" /\
  px_factory config_without_path world_booted = (Raise (KeyError "db_path"), world_booted) /\
  (forall p acd,
     px_factory config_without_path world_booted
     <> new_SQLiteProvider Posix.os_path_dirname Posix.os_makedirs p acd world_booted).
Proof.
  split; [reflexivity|]. split; [reflexivity|].
  intros p acd H.
  change (px_factory config_without_path world_booted)
    with (@Raise loc (KeyError "db_path"), world_booted) in H.
  unfold new_SQLiteProvider, SQLiteProvider__init__, bind, ret, alloc in H.
  destruct acd; [|discriminate H].
  unfold Posix.os_makedirs in H.
  destruct (String.eqb (Posix.os_path_dirname p) ""); discriminate H.
Qed.

Lemma factory_dispatches_on_type_witness :
  px_factory config_postgresql world_booted
  = (Raise (NotImplementedError postgresql_message), world_booted).
Proof.
  exact (proj2 (proj1 (proj2 (factory_dispatches_on_type
           Posix.os_path_dirname Posix.os_makedirs config_postgresql world_booted))
           eq_refl)).
Defined.

(** ** The connection lifecycle on examples *)

Lemma sqlite_connect_and_close_are_idempotent_witness :
  let w1 := snd (SQLiteProvider_connect Posix.sqlite3_open 0%nat world_booted) in
  SQLiteProvider_connect Posix.sqlite3_open 0%nat w1 = (Ok 0%nat, w1) /\
  SQLiteProvider_close 0%nat world_booted = (Ok tt, world_booted).
Proof.
  destruct (sqlite_connect_and_close_are_idempotent Posix.sqlite3_open)
    as (Hconn & _ & Hclose & _).
  split.
  - apply (Hconn 0%nat world_booted). vm_compute. reflexivity.
  - apply (Hclose 0%nat world_booted
             {| SQLiteProvider.db_path := "data/chat_history.db";
                SQLiteProvider._connection := None |});
      vm_compute; reflexivity.
Defined.

(** ** The scoped connection on examples *)

Definition first_message : MessageRow :=
  {| m_id := 1; m_user_id := "u"; m_role := "user"; m_content := "hi";
     m_created_at := "2024-05-01 10:00:00.250" |}.

(** A body that inserts a message and returns. *)
Definition insert_and_return (c : conn) : @M (list string) unit :=
  bind (px_cursor_execute c (INSERT_message "u" "user" "hi")) (fun _ => ret tt).

(** A body that inserts a message and is then interrupted. *)
Definition insert_and_interrupt (c : conn) : @M (list string) unit :=
  bind (px_cursor_execute c (INSERT_message "u" "user" "hi"))
       (fun _ => raise KeyboardInterrupt).

Definition connection_after_insert : Connection :=
  {| c_path := "data/chat_history.db"; c_closed := false; c_foreign_keys := true;
     c_txn := Some {| messages := Some [first_message]; messages_seq := 1;
                      sessions := Some [] |} |}.

(** C2 as stated fails for an exception that is not an [Exception]: the
    body raises [KeyboardInterrupt] after an insert, the same exception
    comes out, but the transaction is not rolled back: it stays pending
    on the connection, and the next call through the wrapper, a mere
    read, commits the insert to the file. *)
Lemma scoped_connection_interrupt_counterexample :
  let out := px_get_connection 0%nat insert_and_interrupt world_initialised in
  let later := SQLiteProvider_fetch_all Posix.sqlite3_open Posix.strftime_now 0%nat
                 (SELECT_history "nobody" 10) (snd out) in
  messages (file_db world_initialised "data/chat_history.db") = Some [] /\
  fst out = Raise KeyboardInterrupt /\
  connections (snd out) !! 0%nat = Some connection_after_insert /\
  c_txn connection_after_insert <> None /\
  fst later = Ok [] /\
  messages (file_db (snd later) "data/chat_history.db") = Some [first_message].
Proof.
  cbv zeta. repeat split; try (vm_compute; reflexivity). discriminate.
Qed.

Lemma scoped_connection_commits_or_rolls_back_witness :
  let out := px_get_connection 0%nat insert_and_return world_initialised in
  fst out = Ok tt /\
  messages (file_db (snd out) "data/chat_history.db") = Some [first_message] /\
  SQLiteProvider_connect Posix.sqlite3_open 0%nat (snd out) = (Ok 0%nat, snd out).
Proof.
  cbv zeta.
  assert (H := scoped_connection_commits_or_rolls_back Posix.sqlite3_open
                 0%nat insert_and_return world_initialised world_initialised
                 (snd (insert_and_return 0%nat world_initialised)) 0%nat (Ok tt)
                 connection_after_insert).
  cbv zeta in H.
  destruct H as (_ & (Hfst & Hfile & _) & _ & Hagain);
    try (vm_compute; reflexivity).
  split; [exact Hfst|]. split.
  - change "data/chat_history.db" with (c_path connection_after_insert).
    rewrite Hfile. vm_compute. reflexivity.
  - apply Hagain. vm_compute. reflexivity.
Defined.

(** ** The chat store on examples *)

Definition default_connection : Connection := open_connection "data/chat_history.db".

Definition charged_session : SessionRow :=
  {| s_user_id := "u"; s_state := Some "charged"; s_incident_type := None;
     s_emotion := Some "angry"; s_updated_at := "2024-05-01 10:00:00.250" |}.

Definition calm_session : SessionRow :=
  {| s_user_id := "u"; s_state := Some "calm"; s_incident_type := None;
     s_emotion := None; s_updated_at := "2024-05-01 10:00:00.250" |}.

Lemma default_backend_ready w :
  heap w !! 0%nat = Some (SQLite {| SQLiteProvider.db_path := "data/chat_history.db";
                                    SQLiteProvider._connection := Some 0%nat |}) ->
  connections w !! 0%nat = Some default_connection ->
  backend_ready Posix.sqlite3_open 0%nat w 0%nat w default_connection.
Proof.
  intros Hl Hc. split; [|split; [exact Hc | reflexivity]].
  by eapply connect_when_connected.
Qed.

(** After [state="charged", emotion="angry"], the call with only
    [state="calm"] leaves one row, whose emotion is [None]. *)
Lemma set_session_state_is_full_replace_upsert_witness :
  exists w',
    px_set_session_state "u" (Some "calm") None None None None world_with_session
      = (Ok tt, w') /\
    sessions (file_db world_with_session "data/chat_history.db") = Some [charged_session] /\
    sessions (file_db w' "data/chat_history.db") = Some [calm_session].
Proof.
  destruct (set_session_state_is_full_replace_upsert
              Posix.os_path_dirname Posix.os_makedirs Posix.sqlite3_open Posix.strftime_now
              "u" (Some "calm") None None None None
              world_with_session world_with_session world_with_session
              0%nat 0%nat default_connection [charged_session])
    as (w' & tbl' & Hcall & Htbl & -> & _).
  - vm_compute. reflexivity.
  - apply default_backend_ready; vm_compute; reflexivity.
  - vm_compute. reflexivity.
  - vm_compute. reflexivity.
  - apply NoDup_singleton.
  - exists w'. split; [exact Hcall|]. split; [vm_compute; reflexivity|].
    change "data/chat_history.db" with (c_path default_connection).
    rewrite Htbl. vm_compute. reflexivity.
Defined.

Definition messages_table : list MessageRow :=
  [ first_message;
    {| m_id := 2; m_user_id := "u"; m_role := "assistant"; m_content := "hello";
       m_created_at := "2024-05-01 10:00:00.250" |};
    {| m_id := 3; m_user_id := "v"; m_role := "user"; m_content := "hey";
       m_created_at := "2024-05-01 10:00:01.000" |} ].

Lemma messages_table_sorted : StronglySorted rowid_lt messages_table.
Proof.
  unfold messages_table. repeat constructor; unfold rowid_lt; simpl; lia.
Qed.

(** C4 as stated fails for a negative limit: [limit=-1] returns both
    messages of ["u"], which is more than [limit] rows. *)
Lemma get_history_negative_limit_counterexample :
  exists ds,
    fst (px_get_history "u" (-1) None None world_with_messages) = Ok ds /\
    ds = map history_dict (take 2 messages_table) /\
    ~ (Z.of_nat (length ds) <= -1).
Proof.
  eexists. split; [vm_compute; reflexivity|]. split; [reflexivity|].
  simpl. lia.
Qed.

(** With [limit=1], of the two messages saved in the same millisecond
    the one with the smaller id is returned. *)
Lemma get_history_orders_and_caps_witness :
  fst (px_get_history "u" 1 None None world_with_messages) = Ok [history_dict first_message].
Proof.
  destruct (get_history_orders_and_caps
              Posix.os_path_dirname Posix.os_makedirs Posix.sqlite3_open Posix.strftime_now
              "u" 1 None None
              world_with_messages world_with_messages world_with_messages
              0%nat 0%nat default_connection messages_table)
    as (w' & Hcall & _).
  - vm_compute. reflexivity.
  - apply default_backend_ready; vm_compute; reflexivity.
  - vm_compute. reflexivity.
  - exact messages_table_sorted.
  - split; [discriminate | reflexivity].
  - rewrite Hcall. vm_compute. reflexivity.
Defined.

Lemma get_session_state_defaults_when_absent_witness :
  fst (px_get_session_state "nobody" None None world_with_session)
    = Ok [("user_id", PStr "nobody"); ("state", PNone); ("incident_type", PNone);
          ("emotion", PNone); ("updated_at", PNone)] /\
  fst (px_get_session_state "u" None None world_with_session)
    = Ok [("user_id", PStr "u"); ("state", PStr "charged"); ("incident_type", PNone);
          ("emotion", PStr "angry"); ("updated_at", PStr "2024-05-01 10:00:00.250")].
Proof.
  split.
  - destruct (get_session_state_defaults_when_absent
                Posix.os_path_dirname Posix.os_makedirs Posix.sqlite3_open
                Posix.strftime_now "nobody" None None
                world_with_session world_with_session world_with_session
                0%nat 0%nat default_connection [charged_session])
      as (w' & Hcall & _).
    + vm_compute. reflexivity.
    + apply default_backend_ready; vm_compute; reflexivity.
    + vm_compute. reflexivity.
    + rewrite Hcall. reflexivity.
  - vm_compute. reflexivity.
Defined.

(** ** The further properties on examples *)

Definition default_path : string := "data/chat_history.db".

Definition world_connected : World :=
  snd (SQLiteProvider_connect Posix.sqlite3_open 0%nat world_booted).

Lemma booted_backend_ready :
  backend_ready Posix.sqlite3_open 0%nat world_booted 0%nat world_connected
    default_connection.
Proof. split; [|split]; vm_compute; reflexivity. Qed.

Lemma init_db_creates_missing_tables_only_witness :
  exists w',
    px_init_db None None world_booted = (Ok (PStr default_path), w') /\
    file_db w' default_path
    = {| messages := Some []; messages_seq := 0; sessions := Some [] |}.
Proof.
  destruct (init_db_creates_missing_tables_only
              Posix.os_path_dirname Posix.os_makedirs Posix.os_path_exists
              Posix.sqlite3_open Posix.strftime_now (fun _ => "")
              None None world_booted world_booted world_connected
              0%nat 0%nat default_connection)
    as (p & w' & Hp & Hinit & Hfile & _).
  - vm_compute. reflexivity.
  - exact booted_backend_ready.
  - intros _. vm_compute. reflexivity.
  - vm_compute in Hp. injection Hp as <-.
    exists w'. split; [exact Hinit|].
    change default_path with (c_path default_connection).
    rewrite Hfile. vm_compute. reflexivity.
Defined.

Lemma save_message_appends_one_row_witness :
  exists w',
    px_save_message "u" "user" "again" None None world_with_messages = (Ok tt, w') /\
    messages (file_db w' default_path)
    = Some (messages_table ++
            [ {| m_id := 4; m_user_id := "u"; m_role := "user"; m_content := "again";
                 m_created_at := "2024-05-01 10:00:02.000" |} ]).
Proof.
  destruct (save_message_appends_one_row
              Posix.os_path_dirname Posix.os_makedirs Posix.sqlite3_open Posix.strftime_now
              "u" "user" "again" None None
              world_with_messages world_with_messages world_with_messages
              0%nat 0%nat default_connection messages_table)
    as (w' & Hsave & Htbl & _).
  - vm_compute. reflexivity.
  - apply default_backend_ready; vm_compute; reflexivity.
  - vm_compute. reflexivity.
  - vm_compute. reflexivity.
  - exists w'. split; [exact Hsave|].
    change default_path with (c_path default_connection).
    rewrite Htbl. vm_compute. reflexivity.
Defined.

Lemma saved_message_is_read_back_witness :
  exists w' w'' rows,
    px_save_message "u" "user" "again" None None world_with_messages = (Ok tt, w') /\
    px_get_history "u" (-1) None None w' = (Ok (map history_dict rows), w'') /\
    length rows = 3%nat.
Proof.
  destruct (saved_message_is_read_back
              Posix.os_path_dirname Posix.os_makedirs Posix.sqlite3_open Posix.strftime_now
              "u" "user" "again" (-1) None None
              world_with_messages world_with_messages world_with_messages
              0%nat 0%nat default_connection messages_table)
    as (w' & w'' & rows & Hsave & Hget & Hperm & _).
  - reflexivity.
  - vm_compute. reflexivity.
  - apply default_backend_ready; vm_compute; reflexivity.
  - vm_compute. reflexivity.
  - vm_compute. reflexivity.
  - split; [discriminate | reflexivity].
  - exists w', w'', rows. split; [exact Hsave|]. split; [exact Hget|].
    rewrite Hperm. reflexivity.
Defined.

Lemma saved_message_leaves_other_users_alone_witness :
  exists w',
    px_save_message "u" "user" "again" None None world_with_messages = (Ok tt, w') /\
    fst (px_get_history "v" 10 None None w')
    = fst (px_get_history "v" 10 None None world_with_messages).
Proof.
  destruct (saved_message_leaves_other_users_alone
              Posix.os_path_dirname Posix.os_makedirs Posix.sqlite3_open Posix.strftime_now
              "u" "user" "again" "v" 10 None None
              world_with_messages world_with_messages world_with_messages
              0%nat 0%nat default_connection messages_table)
    as (w' & Hsave & _ & Hsame).
  - reflexivity.
  - vm_compute. reflexivity.
  - apply default_backend_ready; vm_compute; reflexivity.
  - vm_compute. reflexivity.
  - vm_compute. reflexivity.
  - split; [discriminate | reflexivity].
  - discriminate.
  - exists w'. split; [exact Hsave | exact Hsame].
Defined.

Lemma get_history_is_repeatable_and_prefix_closed_witness :
  exists w' w'' first second,
    px_get_history "u" 1 None None world_with_messages = (Ok first, w') /\
    px_get_history "u" 2 None None w' = (Ok second, w'') /\
    first = take 1 second.
Proof.
  destruct (get_history_is_repeatable_and_prefix_closed
              Posix.os_path_dirname Posix.os_makedirs Posix.sqlite3_open Posix.strftime_now
              "u" 1 2 None None
              world_with_messages world_with_messages world_with_messages
              0%nat 0%nat default_connection messages_table)
    as (w' & w'' & first & second & H1 & H2 & _ & Hprefix & _).
  - reflexivity.
  - vm_compute. reflexivity.
  - apply default_backend_ready; vm_compute; reflexivity.
  - vm_compute. reflexivity.
  - split; discriminate.
  - reflexivity.
  - exists w', w'', first, second. split; [exact H1|]. split; [exact H2 | exact Hprefix].
Defined.

Lemma session_state_is_read_back_witness :
  exists w',
    px_set_session_state "u" (Some "calm") None None None None world_with_session
      = (Ok tt, w') /\
    fst (px_get_session_state "u" None None w')
    = Ok [("user_id", PStr "u"); ("state", PStr "calm"); ("incident_type", PNone);
          ("emotion", PNone); ("updated_at", PStr "2024-05-01 10:00:00.250")].
Proof.
  destruct (session_state_is_read_back
              Posix.os_path_dirname Posix.os_makedirs Posix.sqlite3_open Posix.strftime_now
              "u" (Some "calm") None None None None
              world_with_session world_with_session world_with_session
              0%nat 0%nat default_connection [charged_session])
    as (w' & Hset & Hget & _).
  - reflexivity.
  - vm_compute. reflexivity.
  - apply default_backend_ready; vm_compute; reflexivity.
  - vm_compute. reflexivity.
  - vm_compute. reflexivity.
  - exists w'. split; [exact Hset|]. rewrite Hget. reflexivity.
Defined.

Lemma failed_statement_persists_nothing_witness :
  fst (px_save_message "u" "user" "hi" None None world_booted)
    = Raise (OperationalError "no such table: messages") /\
  files (snd (px_save_message "u" "user" "hi" None None world_booted))
    = files world_booted.
Proof.
  destruct (failed_statement_persists_nothing
              Posix.os_path_dirname Posix.os_makedirs Posix.sqlite3_open Posix.strftime_now
              None None world_booted world_booted world_connected
              0%nat 0%nat default_connection)
    as (Hfiles & _ & Hmessages & _).
  - vm_compute. reflexivity.
  - exact booted_backend_ready.
  - destruct (Hmessages ltac:(vm_compute; reflexivity)) as [Hsave _].
    rewrite (Hsave "u" "user" "hi"). split; [reflexivity | exact Hfiles].
Defined.

(** An environment in which no database file can be opened. *)
Definition cannot_open (p : string) (x : list string) : result (list string) :=
  Raise (OperationalError "unable to open database file").

Lemma unreachable_backend_raises_open_error_witness :
  get_history Posix.os_path_dirname Posix.os_makedirs cannot_open Posix.strftime_now
    "u" 10 None None world_booted
  = (Raise (OperationalError "unable to open database file"), world_booted).
Proof.
  destruct (unreachable_backend_raises_open_error
              Posix.os_path_dirname Posix.os_makedirs Posix.os_path_exists
              cannot_open Posix.strftime_now (fun _ => "")
              None None world_booted world_booted 0%nat
              {| SQLiteProvider.db_path := default_path;
                 SQLiteProvider._connection := None |}
              (OperationalError "unable to open database file"))
    as (_ & _ & Hget & _).
  - vm_compute. reflexivity.
  - vm_compute. reflexivity.
  - reflexivity.
  - reflexivity.
  - exact (Hget "u" 10).
Defined.

(** A block that saves a message through the provider it is given. *)
Definition save_in_block (p : loc) : @M (list string) unit :=
  SQLiteProvider_execute Posix.sqlite3_open Posix.strftime_now p
    (INSERT_message "u" "user" "hi").

Lemma with_provider_closes_on_exit_witness :
  let out := with_SQLiteProvider Posix.sqlite3_open 0%nat save_in_block
               world_initialised in
  fst out = Ok tt /\
  heap (snd out) !! 0%nat
    = Some (SQLite {| SQLiteProvider.db_path := default_path;
                      SQLiteProvider._connection := None |}) /\
  messages (file_db (snd out) default_path) = Some [first_message].
Proof.
  cbv zeta.
  destruct (with_provider_closes_on_exit Posix.sqlite3_open
              0%nat save_in_block world_initialised world_initialised
              (snd (save_in_block 0%nat world_initialised)) 0%nat (Ok tt)
              default_connection)
    as (Hfst & _ & _ & _ & _); try (vm_compute; reflexivity).
  split; [exact Hfst|]. split; vm_compute; reflexivity.
Defined.

Lemma closed_provider_reconnects_on_next_use_witness :
  exists wc w',
    SQLiteProvider_close 0%nat world_with_messages = (Ok tt, wc) /\
    fetch_all Posix.sqlite3_open Posix.strftime_now 0%nat (SELECT_history "v" 10) wc
    = (Ok [[PInt 3; PStr "v"; PStr "user"; PStr "hey";
            PStr "2024-05-01 10:00:01.000"]], w').
Proof.
  destruct (closed_provider_reconnects_on_next_use
              Posix.sqlite3_open Posix.strftime_now
              0%nat (SELECT_history "v" 10) world_with_messages
              {| SQLiteProvider.db_path := default_path;
                 SQLiteProvider._connection := Some 0%nat |}
              0%nat default_connection
              (default_path :: fs world_with_messages)
              [[PInt 3; PStr "v"; PStr "user"; PStr "hey";
                PStr "2024-05-01 10:00:01.000"]]
              (file_db world_with_messages default_path))
    as (wc & w' & c' & Hclose & _ & Hfetch & _);
    try (vm_compute; reflexivity); try (intros _; vm_compute; reflexivity).
  exists wc, w'. split; [exact Hclose | exact Hfetch].
Defined.

Lemma path_calls_share_the_file_witness :
  exists w' w'' rows,
    px_save_message "u" "user" "note" (Some "data/chat_history.db") (Some "nowhere")
      world_with_messages = (Ok tt, w') /\
    px_get_history "u" (-1) (Some "data/chat_history.db") None w'
      = (Ok (map history_dict rows), w'') /\
    length rows = 3%nat /\
    _PROVIDERS w'' = _PROVIDERS world_with_messages.
Proof.
  destruct (path_calls_share_the_file
              Posix.os_path_dirname Posix.os_makedirs Posix.sqlite3_open Posix.strftime_now
              "data/chat_history.db" "u" "user" "note" (-1) (Some "nowhere") None
              world_with_messages messages_table)
    as (w' & w'' & rows & Hsave & Hget & Hperm & [Hreg _] & _).
  - discriminate.
  - intros x. reflexivity.
  - intros x. reflexivity.
  - intros c. vm_compute. reflexivity.
  - vm_compute. reflexivity.
  - split; [discriminate | reflexivity].
  - exists w', w'', rows. split; [exact Hsave|]. split; [exact Hget|].
    split; [rewrite Hperm; reflexivity | exact Hreg].
Defined.

Lemma first_message_needs_init_db_witness :
  exists w0 w1 w2,
    px_module_init (empty_world [] ∅) = (Ok tt, w0) /\
    px_init_db None None w0 = (Ok (PStr default_path), w1) /\
    px_save_message "u" "user" "hi" None None w1 = (Ok tt, w2) /\
    fst (px_get_history "u" (-1) None None w2) = Ok [history_dict first_message].
Proof.
  destruct (first_message_needs_init_db
              Posix.os_path_dirname Posix.os_makedirs Posix.os_path_exists
              Posix.sqlite3_open Posix.strftime_now (fun _ => "") Posix.DEFAULT_DB_PATH
              "u" "user" "hi" (-1) [] ["data"] ∅)
    as (w0 & w1 & w2 & Hinit & _ & Hdb & Hsave & Hget).
  - reflexivity.
  - intros x. reflexivity.
  - reflexivity.
  - split; [discriminate | reflexivity].
  - exists w0, w1, w2. split; [exact Hinit|]. split; [exact Hdb|].
    split; [exact Hsave | exact Hget].
Defined.

(** The world the interrupted insert leaves: the default backend's
    connection holds a pending write on the default file. *)
Definition world_interrupted : World :=
  snd (px_get_connection 0%nat insert_and_interrupt world_initialised).

(** A call that names the default file by path gets its own connection
    and is locked out; reading through it works. *)
Lemma pending_write_locks_out_other_writers_witness :
  connections world_interrupted !! 0%nat = Some connection_after_insert /\
  fst (px_save_message "v" "user" "hey" (Some default_path) None world_interrupted)
    = Raise (OperationalError "database is locked") /\
  fst (px_set_session_state "v" (Some "calm") None None (Some default_path) None
         world_interrupted)
    = Raise (OperationalError "database is locked") /\
  fst (px_get_history "u" 10 (Some default_path) None world_interrupted) = Ok [].
Proof.
  destruct (pending_write_locks_out_other_writers
              Posix.os_path_dirname Posix.os_makedirs Posix.os_path_exists
              Posix.sqlite3_open Posix.strftime_now (fun _ => "")
              (Some default_path) None world_interrupted
              (snd (px_resolve (Some default_path) None world_interrupted))
              (snd (SQLiteProvider_connect Posix.sqlite3_open 1%nat
                      (snd (px_resolve (Some default_path) None world_interrupted))))
              1%nat 1%nat default_connection)
    as (_ & _ & _ & Hmessages & Hsessions & _).
  - vm_compute. reflexivity.
  - split; [|split]; vm_compute; reflexivity.
  - reflexivity.
  - vm_compute. reflexivity.
  - destruct (Hmessages [] ltac:(vm_compute; reflexivity)) as [Hsave Hget].
    split; [vm_compute; reflexivity|].
    split; [by rewrite Hsave|].
    split; [by rewrite (Hsessions [] ltac:(vm_compute; reflexivity))|].
    rewrite (Hget "u" 10) by (split; [discriminate | reflexivity]).
    vm_compute. reflexivity.
Defined.
